(** * MetroMorph: the analysis wizard, the mock scenario generator and the
      region selector of the urban green-zone planner, embedded from the
      TypeScript sources of the front end.

    Layout of the development:
    - [Js]              the JavaScript primitives the sources rely on
                        (strings, doubles, [Math.random], [Math.floor], the clock);
    - [Model]           the interfaces of [App.tsx];
    - [MapInterface]    the polygon drawing tool of [MapInterface.tsx];
    - [StepSelectArea]  the terrain stub of [StepSelectArea.tsx];
    - [StepRunAnalysis] the generator of [StepRunAnalysis.tsx];
    - [StepCollaborate] comments and status of [StepCollaborate.tsx];
    - [NewAnalysis]     the five-step wizard of [NewAnalysis.tsx];
    - [Json], [Api], [App]
                        parsed JSON values, the HTTP client of
                        [utils/api.ts] and the save path of [App.tsx];
    - [ProjectArchive], [Dashboard], [Download], [ComparisonView]
                        the project lists, the download name and the
                        comparison of two scenarios;
    - [Session]         the wizard together with the steps it mounts;
    - [Spec], [Sample], [Cases]
                        the vocabulary of the specification and concrete
                        inputs;
    - then the lemmas and the theorems about them. *)

From Stdlib Require Import Floats.PrimFloat.
From Stdlib Require Floats.FloatOps Numbers.Cyclic.Int63.Uint63.
From Stdlib Require Import ZArith List Bool Lia.
From Stdlib Require Import Strings.String Strings.Ascii Numbers.DecimalString.
Import ListNotations.

Set Warnings "-inexact-float".
Local Open Scope Z_scope.

(* ================================================================== *)
(** * JavaScript primitives *)
(* ================================================================== *)

Module Js.

(** ** Strings

    A JavaScript string is a sequence of UTF-16 code units. *)

Definition JsString : Type := list N.

(** A string literal of the source, one code unit per character. *)
Definition lit (s : string) : JsString :=
  map N_of_ascii (list_ascii_of_string s).

(** [`${n}`] for an integral number [n]. *)
Definition number_to_string (n : Z) : JsString :=
  lit (NilZero.string_of_int (Z.to_int n)).

(** [s.length]. *)
Definition length (s : JsString) : Z := Z.of_nat (List.length s).

(** WhiteSpace and LineTerminator of ECMAScript, the code units that
    [String.prototype.trim] strips. *)
Definition whitespace_units : list N :=
  [0x0009; 0x000A; 0x000B; 0x000C; 0x000D; 0x0020; 0x00A0; 0x1680;
   0x2028; 0x2029; 0x202F; 0x205F; 0x3000; 0xFEFF]%N.

Definition is_whitespace (c : N) : bool :=
  existsb (N.eqb c) whitespace_units
  || ((0x2000 <=? c) && (c <=? 0x200A))%N.

Fixpoint trimStart (s : JsString) : JsString :=
  match s with
  | [] => []
  | c :: s' => if is_whitespace c then trimStart s' else s
  end.

Definition trimEnd (s : JsString) : JsString := rev (trimStart (rev s)).

Definition trim (s : JsString) : JsString := trimEnd (trimStart s).

(** ToBoolean of a string: the empty string is the only falsy one. *)
Definition truthy (s : JsString) : bool :=
  match s with [] => false | _ :: _ => true end.

(** ** Doubles

    Latitudes, longitudes and the placement arithmetic of the generator are
    IEEE 754 binary64 values, computed with the kernel's primitive floats. *)

Definition number : Set := PrimFloat.float.

Definition of_Z (n : Z) : number := PrimFloat.of_uint63 (Uint63.of_Z n).

(** One step of [Math.min]: NaN is contagious and -0 is below +0. *)
Definition min2 (lowest x : number) : number :=
  if PrimFloat.is_nan lowest then lowest
  else if PrimFloat.is_nan x then x
  else if PrimFloat.ltb x lowest then x
  else if PrimFloat.is_zero x && PrimFloat.is_zero lowest && PrimFloat.get_sign x
       then x
  else lowest.

(** One step of [Math.max]: NaN is contagious and +0 is above -0. *)
Definition max2 (highest x : number) : number :=
  if PrimFloat.is_nan highest then highest
  else if PrimFloat.is_nan x then x
  else if PrimFloat.ltb highest x then x
  else if PrimFloat.is_zero x && PrimFloat.is_zero highest
          && negb (PrimFloat.get_sign x)
       then x
  else highest.

(** [Math.min(...xs)]: +Infinity on no argument. *)
Definition Math_min (xs : list number) : number :=
  fold_left min2 xs PrimFloat.infinity.

(** [Math.max(...xs)]: -Infinity on no argument. *)
Definition Math_max (xs : list number) : number :=
  fold_left max2 xs PrimFloat.neg_infinity.

Definition two52 : number := Eval cbv in FloatOps.Z.ldexp PrimFloat.one 52.

(** The integral part of a finite [a >= 0]: doubles from 2^52 on are
    integers; below, adding and removing 2^52 rounds to the nearest integer,
    which is stepped down when it passed [a]. *)
Definition trunc_nonneg (a : number) : number :=
  if PrimFloat.leb two52 a then a
  else
    let r := PrimFloat.sub (PrimFloat.add a two52) two52 in
    if PrimFloat.ltb a r then PrimFloat.sub r PrimFloat.one else r.

(** [x % 1]: the remainder has the sign of the dividend and is exact; it
    is NaN when [x] is NaN or infinite. *)
Definition rem1 (x : number) : number :=
  if PrimFloat.is_nan x || PrimFloat.is_infinity x then PrimFloat.nan
  else
    let a := PrimFloat.abs x in
    let f := PrimFloat.sub a (trunc_nonneg a) in
    if PrimFloat.get_sign x then PrimFloat.opp f else f.

(** ** [Math.random] and [Math.floor]

    [Math.random()] returns a double in [0,1).  Such a double is
    [mant / 2^scale] for integers [0 <= mant < 2^53] and
    [0 <= scale <= 1074]. *)

Record RandomDraw : Type := mkDraw { mant : Z; scale : Z }.

Definition draw_ok (d : RandomDraw) : Prop :=
  0 <= mant d < 2 ^ 53 /\ 0 <= scale d <= 1074 /\ mant d < 2 ^ scale d.

Definition draw_okb (d : RandomDraw) : bool :=
  (0 <=? mant d) && (mant d <? 2 ^ 53) && (0 <=? scale d)
  && (scale d <=? 1074) && (mant d <? 2 ^ scale d).

(** Rounding of a non-negative integer significand to 53 bits, to nearest
    and ties to even: what an IEEE multiplication does to the exact
    product of two significands. *)
Definition round53 (m : Z) : Z :=
  let bits := Z.log2 m + 1 in
  if bits <=? 53 then m
  else
    let sh := bits - 53 in
    let q := Z.shiftr m sh in
    let r := m - Z.shiftl q sh in
    let half := 2 ^ (sh - 1) in
    let up := (half <? r) || ((r =? half) && Z.odd q) in
    Z.shiftl (if up then q + 1 else q) sh.

(** [Math.floor(d * n)] for a draw [d] and an integral constant
    [1 <= n < 2^53]: the double product is the rounded product of the
    significands at the draw's scale, and the floor drops the fraction. *)
Definition floor_times (d : RandomDraw) (n : Z) : Z :=
  round53 (mant d * n) / 2 ^ scale d.

(** [d > 0.5]. *)
Definition above_half (d : RandomDraw) : bool :=
  2 ^ scale d <? 2 * mant d.

(** The double a draw stands for, to compare the integer model with the
    primitive floats on concrete draws. *)
Definition draw_number (d : RandomDraw) : number :=
  FloatOps.Z.ldexp (of_Z (mant d)) (- scale d).

(** The integer a finite double with no fraction stands for. *)
Definition integral_value (x : number) : option Z :=
  match FloatOps.Prim2SF x with
  | SpecFloat.S754_zero _ => Some 0
  | SpecFloat.S754_finite s m e =>
      if 0 <=? e then Some ((if s then -1 else 1) * (Z.pos m * 2 ^ e))
      else if (Z.pos m mod 2 ^ (- e) =? 0)
           then Some ((if s then -1 else 1) * (Z.pos m / 2 ^ (- e)))
           else None
  | _ => None
  end.

(** ** The environment of a handler: the random source and the clock

    A handler reads [Math.random()] and the clock zero or more times.  The
    environment fixes what each successive read returns; the position
    counts the reads made so far. *)

Record Env : Type := mkEnv {
  random : nat -> RandomDraw;          (* the k-th [Math.random()] *)
  clock : nat -> Z;                    (* the k-th clock read, in ms *)
  toLocaleDateString : Z -> JsString;  (* the locale's date format *)
  toISOString : Z -> JsString          (* ISO 8601 of a time value *)
}.

Record Pos : Type := mkPos { draws : nat; reads : nat }.

Definition Eff (A : Type) : Type := Env -> Pos -> A * Pos.

Definition ret {A} (a : A) : Eff A := fun _ p => (a, p).

Definition bind {A B} (m : Eff A) (k : A -> Eff B) : Eff B :=
  fun e p => let (a, p') := m e p in k a e p'.

Definition Math_random : Eff RandomDraw :=
  fun e p => (random e (draws p), mkPos (S (draws p)) (reads p)).

(** [Date.now()] and the time value of [new Date()]. *)
Definition Date_now : Eff Z :=
  fun e p => (clock e (reads p), mkPos (draws p) (S (reads p))).

Definition locale_date (t : Z) : Eff JsString :=
  fun e p => (toLocaleDateString e t, p).

Definition run {A} (m : Eff A) (e : Env) (p : Pos) : A := fst (m e p).

(** ** Dates

    The time value of a [Date] is a whole number of milliseconds of at most
    8.64e15 in magnitude.  A [Date] made from anything else, such as
    [new Date(undefined)] or [new Date] of a text that is no date, is the
    Invalid Date, whose time value is NaN; an integer beyond the range
    stands for it. *)

Definition maxTime : Z := 8640000000000000.

Definition valid_time (t : Z) : bool := (- maxTime <=? t) && (t <=? maxTime).

(** [d.toISOString()]: it throws a RangeError on the Invalid Date, which
    is [None] here. *)
Definition Date_toISOString (e : Env) (t : Z) : option JsString :=
  if valid_time t then Some (toISOString e t) else None.

End Js.

Declare Scope eff_scope.
Delimit Scope eff_scope with eff.
Notation "x <- m ;; k" := (Js.bind m (fun x => k))
  (at level 61, m at next level, right associativity) : eff_scope.

Local Open Scope eff_scope.

(* ================================================================== *)
(** * The interfaces of [App.tsx] *)
(* ================================================================== *)

Module LatLngLiteral.
Record t : Type := mk { lat : Js.number; lng : Js.number }.
End LatLngLiteral.

Module TerrainData.
Record t : Type := mk {
  elevation : Z;
  slope : Z;
  soilType : Js.JsString;
  waterPresence : bool
}.
End TerrainData.

Inductive ZoneType : Type := park | garden | forest | wetland.

Module GreenZone.
Record t : Type := mk {
  id : Js.JsString;
  name : Js.JsString;
  area : Z;
  type : ZoneType;
  coordinates : list LatLngLiteral.t
}.
End GreenZone.

Inductive Status : Type := draft | completed | shared.

Module Comment.
Record t : Type := mk {
  id : Js.JsString;
  author : Js.JsString;
  text : Js.JsString;
  timestamp : Z
}.
End Comment.

Module Scenario.
Record t : Type := mk {
  id : Js.JsString;
  name : Js.JsString;
  timestamp : Z;       (* the time value of the [Date], see [Js.valid_time] *)
  region : list LatLngLiteral.t;
  greenZones : list GreenZone.t;
  coverage : Z;
  sustainabilityScore : Z;
  accessibilityScore : Z;
  populationServed : Z;
  status : Status;
  comments : list Comment.t
}.

(** [{ ...scenario, comments: cs }] *)
Definition with_comments (s : t) (cs : list Comment.t) : t :=
  mk (id s) (name s) (timestamp s) (region s) (greenZones s) (coverage s)
     (sustainabilityScore s) (accessibilityScore s) (populationServed s)
     (status s) cs.

(** [{ ...scenario, status: st }] *)
Definition with_status (s : t) (st : Status) : t :=
  mk (id s) (name s) (timestamp s) (region s) (greenZones s) (coverage s)
     (sustainabilityScore s) (accessibilityScore s) (populationServed s)
     st (comments s).
End Scenario.

Module Project.
Record t : Type := mk {
  id : Js.JsString;
  name : Js.JsString;
  region : Js.JsString;
  status : Status;
  date : Z;
  scenario : Scenario.t
}.
End Project.

(** What a handler does to the outside, in the order it does it. *)
Inductive ToastKind : Type := success | error | info.

(** The body of a request to the project store. *)
Module ProjectData.
(** [{ name, region, status, scenario: { ...scenario, timestamp: iso } }]:
    the scenario's fields travel as they are, its timestamp as the ISO
    string. *)
Record t : Type := mk {
  name : Js.JsString;
  region : Js.JsString;
  status : Status;
  scenario : Scenario.t;
  scenario_timestamp : Js.JsString
}.
End ProjectData.

Inductive Body : Type :=
  | CreateBody (p : ProjectData.t)
  | UpdateBody (st : Status) (s : Scenario.t).

Inductive Effect : Type :=
  | HttpRequest (method url : Js.JsString) (body : option Body)
  | Toast (kind : ToastKind) (message : Js.JsString)
  | ConsoleError (message : Js.JsString).

(* ================================================================== *)
(** * [MapInterface.tsx]: drawing a region *)
(* ================================================================== *)

Module MapInterface.

(** A polygon overlay: its path and whether it is attached to the map. *)
Record Polygon : Type := mkPolygon {
  paths : list LatLngLiteral.t;
  onMap : bool
}.

Record State : Type := mk {
  map : bool;                         (* [map !== null] *)
  isDrawing : bool;
  drawingPoints : list LatLngLiteral.t;
  clickListener : bool;               (* [map._drawingClickListener] is set *)
  tempPolygonRef : option Polygon
}.

Definition initial : State := mk false false [] false None.

(** The map script has loaded: [setMap(googleMap)]. *)
Definition mapReady (st : State) : State :=
  mk true (isDrawing st) (drawingPoints st) (clickListener st)
     (tempPolygonRef st).

Definition handleStartDrawing (st : State) : State :=
  if negb (map st) then st
  else mk (map st) true [] true (tempPolygonRef st).

(** A click on the map while the listener of [handleStartDrawing] is
    attached: [setDrawingPoints(prev => [...prev, newPoint])]. *)
Definition mapClick (latLng : option LatLngLiteral.t) (st : State) : State :=
  if clickListener st then
    match latLng with
    | None => st
    | Some newPoint =>
        mk (map st) (isDrawing st) (drawingPoints st ++ [newPoint])
           (clickListener st) (tempPolygonRef st)
    end
  else st.

(** Returns the new state and what [onRegionSelect] received, if called. *)
Definition handleFinishDrawing (st : State)
  : State * option (list LatLngLiteral.t) :=
  if negb (map st) || (Z.of_nat (List.length (drawingPoints st)) <? 3)
  then (st, None)
  else (mk (map st) false [] false None, Some (drawingPoints st)).

Definition handleCancelDrawing (st : State) : State :=
  if negb (map st) then st
  else mk (map st) false [] false None.

(** The effect on [map, isDrawing, drawingPoints]: the live preview. *)
Definition previewEffect (st : State) : State :=
  if negb (map st) || negb (isDrawing st) then st
  else
    let cleared :=
      match tempPolygonRef st with
      | Some p => Some (mkPolygon (paths p) false)
      | None => None
      end in
    if Z.of_nat (List.length (drawingPoints st)) <? 2
    then mk (map st) (isDrawing st) (drawingPoints st) (clickListener st)
            cleared
    else mk (map st) (isDrawing st) (drawingPoints st) (clickListener st)
            (Some (mkPolygon (drawingPoints st) true)).

(** What can happen to the component.  The "Select Region" button is
    disabled while drawing, so [handleStartDrawing] runs only when
    [isDrawing] is false; every other handler may run at any time. *)
Inductive Event : Type :=
  | MapReady
  | StartDrawing
  | MapClick (latLng : option LatLngLiteral.t)
  | FinishDrawing
  | CancelDrawing.

Definition enabled (ev : Event) (st : State) : bool :=
  match ev with
  | StartDrawing => negb (isDrawing st)
  | _ => true
  end.

Definition handle (ev : Event) (st : State) : State :=
  match ev with
  | MapReady => mapReady st
  | StartDrawing => handleStartDrawing st
  | MapClick latLng => mapClick latLng st
  | FinishDrawing => fst (handleFinishDrawing st)
  | CancelDrawing => handleCancelDrawing st
  end.

Inductive step : State -> State -> Prop :=
  | step_event (ev : Event) (st : State) :
      enabled ev st = true -> step st (previewEffect (handle ev st)).

Inductive reachable : State -> Prop :=
  | reachable_initial : reachable initial
  | reachable_step st st' : reachable st -> step st st' -> reachable st'.

(** Running a list of events from a state, skipping the disabled ones. *)
Definition fire (st : State) (ev : Event) : State :=
  if enabled ev st then previewEffect (handle ev st) else st.

Definition fire_all (evs : list Event) (st : State) : State :=
  fold_left fire evs st.

End MapInterface.

(* ================================================================== *)
(** * [StepSelectArea.tsx]: the terrain stub *)
(* ================================================================== *)

Module StepSelectArea.

Definition soilTypes : list Js.JsString :=
  [Js.lit "Clay"; Js.lit "Sand"; Js.lit "Loam"; Js.lit "Silt"].

(** [handleRegionSelect]: the region goes to [onRegionSelect], the mock
    terrain record to [onTerrainDataFetch]. *)
Definition handleRegionSelect (region : list LatLngLiteral.t)
  : Js.Eff (list LatLngLiteral.t * TerrainData.t) :=
  e <- Js.Math_random ;;
  s <- Js.Math_random ;;
  k <- Js.Math_random ;;
  w <- Js.Math_random ;;
  Js.ret (region,
          TerrainData.mk (Js.floor_times e 500) (Js.floor_times s 30)
            (nth (Z.to_nat (Js.floor_times k 4)) soilTypes [])
            (Js.above_half w)).

End StepSelectArea.

(* ================================================================== *)
(** * [StepRunAnalysis.tsx]: the mock scenario generator *)
(* ================================================================== *)

Module StepRunAnalysis.

Record State : Type := mk {
  isRunning : bool;
  greenSpaceTarget : Z;      (* a whole percentage: the slider moves in steps *)
  priorityType : Js.JsString;
  progress : Z
}.

(** The [useState] initialisers. *)
Definition initial : State := mk false 25 (Js.lit "balanced") 0.

Definition setIsRunning (b : bool) (st : State) : State :=
  mk b (greenSpaceTarget st) (priorityType st) (progress st).
Definition setGreenSpaceTarget (t : Z) (st : State) : State :=
  mk (isRunning st) t (priorityType st) (progress st).
Definition setPriorityType (p : Js.JsString) (st : State) : State :=
  mk (isRunning st) (greenSpaceTarget st) p (progress st).
Definition setProgress (p : Z) (st : State) : State :=
  mk (isRunning st) (greenSpaceTarget st) (priorityType st) p.

Definition zoneTypes : list ZoneType := [park; garden; forest; wetland].

Definition zoneNames (t : ZoneType) : list Js.JsString :=
  match t with
  | park => [Js.lit "Central Park"; Js.lit "Community Park";
             Js.lit "Riverside Park"; Js.lit "Heritage Park"]
  | garden => [Js.lit "Botanical Garden"; Js.lit "Rose Garden";
               Js.lit "Herb Garden"; Js.lit "Sculpture Garden"]
  | forest => [Js.lit "Urban Forest"; Js.lit "Nature Reserve";
               Js.lit "Wildlife Corridor"; Js.lit "Green Belt"]
  | wetland => [Js.lit "Wetland Preserve"; Js.lit "Marsh Area";
                Js.lit "Pond Ecosystem"; Js.lit "Water Garden"]
  end.

Definition sizeMultiplier (t : ZoneType) : Js.number :=
  match t with
  | park => 0.003%float
  | garden => 0.002%float
  | forest => 0.004%float
  | wetland => 0.0025%float
  end.

(** [Math.max(3, Math.floor((targetCoverage / 8) + 1))].  The target is
    integral, so the division by 8 and the addition of 1 are exact in
    binary64 and the floor is the integer quotient plus one. *)
Definition numZones (targetCoverage : Z) : Z :=
  Z.max 3 (targetCoverage / 8 + 1).

(** The bounding box of the region. *)
Record Bounds : Type := mkBounds {
  minLat : Js.number; maxLat : Js.number;
  minLng : Js.number; maxLng : Js.number
}.

Definition bounds (region : list LatLngLiteral.t) : Bounds :=
  mkBounds (Js.Math_min (List.map LatLngLiteral.lat region))
           (Js.Math_max (List.map LatLngLiteral.lat region))
           (Js.Math_min (List.map LatLngLiteral.lng region))
           (Js.Math_max (List.map LatLngLiteral.lng region)).

(** The body of the loop for index [i]: one draw for the name, then one
    for the area. *)
Definition zone (b : Bounds) (n : Z) (i : Z) : Js.Eff GreenZone.t :=
  let zoneType := nth (Z.to_nat (i mod Z.of_nat (List.length zoneTypes)))
                      zoneTypes park in
  d <- Js.Math_random ;;
  let zoneName :=
    nth (Z.to_nat (Js.floor_times d
                     (Z.of_nat (List.length (zoneNames zoneType)))))
        (zoneNames zoneType) [] in
  let latRange := PrimFloat.sub (maxLat b) (minLat b) in
  let lngRange := PrimFloat.sub (maxLng b) (minLng b) in
  let centerLat :=
    PrimFloat.add (minLat b)
      (PrimFloat.mul latRange
         (PrimFloat.add 0.2%float
            (PrimFloat.div (PrimFloat.mul (Js.of_Z i) 0.6%float)
                           (Js.of_Z n)))) in
  let centerLng :=
    PrimFloat.add (minLng b)
      (PrimFloat.mul lngRange
         (PrimFloat.add 0.2%float
            (Js.rem1 (PrimFloat.mul (Js.of_Z i) 0.7%float)))) in
  let size := sizeMultiplier zoneType in
  a <- Js.Math_random ;;
  Js.ret (GreenZone.mk
            (Js.lit "zone-" ++ Js.number_to_string i)
            zoneName
            (Js.floor_times a 30000 + 15000)
            zoneType
            [ LatLngLiteral.mk (PrimFloat.sub centerLat size)
                               (PrimFloat.sub centerLng size);
              LatLngLiteral.mk (PrimFloat.add centerLat size)
                               (PrimFloat.sub centerLng size);
              LatLngLiteral.mk (PrimFloat.add centerLat size)
                               (PrimFloat.add centerLng size);
              LatLngLiteral.mk (PrimFloat.sub centerLat size)
                               (PrimFloat.add centerLng size) ]).

(** [for (let i = ...; i < numZones; i++) zones.push(...)], with the
    number of rounds left as the measure. *)
Fixpoint zonesFrom (rounds : nat) (b : Bounds) (n : Z) (i : Z)
                   (zones : list GreenZone.t) : Js.Eff (list GreenZone.t) :=
  match rounds with
  | O => Js.ret zones
  | S rounds' =>
      z <- zone b n i ;;
      zonesFrom rounds' b n (i + 1) (zones ++ [z])
  end.

Definition generateMockGreenZones (region : list LatLngLiteral.t)
                                  (targetCoverage : Z)
  : Js.Eff (list GreenZone.t) :=
  let n := numZones targetCoverage in
  zonesFrom (Z.to_nat n) (bounds region) n 0 [].

(** The five timed progress updates. *)
Definition steps : list Z := [20; 40; 60; 80; 100].

(** [runAnalysis]: the state it leaves and the scenario handed to
    [onScenarioGenerated], if any. *)
Definition runAnalysis (selectedRegion : option (list LatLngLiteral.t))
                       (st : State) : Js.Eff (State * option Scenario.t) :=
  match selectedRegion with
  | None => Js.ret (st, None)
  | Some region =>
      let st := setProgress 0 (setIsRunning true st) in
      let st := fold_left (fun s p => setProgress p s) steps st in
      greenZones <- generateMockGreenZones region (greenSpaceTarget st) ;;
      now <- Js.Date_now ;;
      today <- Js.Date_now ;;
      date <- Js.locale_date today ;;
      timestamp <- Js.Date_now ;;
      sustainability <- Js.Math_random ;;
      accessibility <- Js.Math_random ;;
      population <- Js.Math_random ;;
      Js.ret (setIsRunning false st,
              Some (Scenario.mk
                      (Js.lit "scenario-" ++ Js.number_to_string now)
                      (Js.lit "AI Generated Scenario " ++ date)
                      timestamp
                      region
                      greenZones
                      (greenSpaceTarget st)
                      (Js.floor_times sustainability 30 + 70)
                      (Js.floor_times accessibility 25 + 75)
                      (Js.floor_times population 50000 + 100000)
                      draft
                      []))
  end.

(** The scenario of a run from the start of the environment. *)
Definition generated (e : Js.Env) (p : Js.Pos)
                     (selectedRegion : option (list LatLngLiteral.t))
                     (st : State) : option Scenario.t :=
  snd (Js.run (runAnalysis selectedRegion st) e p).

End StepRunAnalysis.

(* ================================================================== *)
(** * [StepCollaborate.tsx]: comments and status *)
(* ================================================================== *)

Module StepCollaborate.

Record State : Type := mk { newComment : Js.JsString }.

(** What a handler of the step leaves: its own state, the scenario given
    to [onScenarioUpdate] (if it was called) and the outside effects. *)
Record Outcome : Type := mkOutcome {
  state : State;
  updated : option Scenario.t;
  effects : list Effect
}.

Definition handleAddComment (scenario : Scenario.t) (st : State)
  : Js.Eff Outcome :=
  if negb (Js.truthy (Js.trim (newComment st))) then
    Js.ret (mkOutcome st None [])
  else
    now <- Js.Date_now ;;
    timestamp <- Js.Date_now ;;
    let comment :=
      Comment.mk (Js.lit "comment-" ++ Js.number_to_string now)
                 (Js.lit "Urban Planner")
                 (newComment st)
                 timestamp in
    let updatedScenario :=
      Scenario.with_comments scenario (Scenario.comments scenario ++ [comment]) in
    Js.ret (mkOutcome (mk []) (Some updatedScenario)
                      [Toast success (Js.lit "Comment added")]).

(** [handleApprove].  [fetchRejected] tells whether the PUT, when it is
    sent, fails at the network level. *)
Definition handleApprove (scenario : Scenario.t)
                         (projectId : option Js.JsString)
                         (onProjectUpdate : bool) (fetchRejected : bool)
                         (st : State) : Outcome :=
  let updatedScenario := Scenario.with_status scenario completed in
  let hasId := match projectId with
               | Some i => Js.truthy i
               | None => false
               end in
  if hasId && onProjectUpdate then
    let put :=
      HttpRequest (Js.lit "PUT")
        (Js.lit "http://localhost:8000/api/projects/"
           ++ match projectId with Some i => i | None => [] end)
        (Some (UpdateBody completed updatedScenario)) in
    if fetchRejected
    then mkOutcome st (Some updatedScenario)
           [put; Toast error (Js.lit "Failed to save project status")]
    else mkOutcome st (Some updatedScenario)
           [put; Toast success (Js.lit "Project approved and saved")]
  else mkOutcome st (Some updatedScenario)
         [Toast success (Js.lit "Scenario approved")].

Definition handleShare (scenario : Scenario.t) (st : State) : Outcome :=
  let updatedScenario := Scenario.with_status scenario shared in
  mkOutcome st (Some updatedScenario)
    [Toast success (Js.lit "Scenario shared with team")].

(** The scenario the wizard holds after a handler ran: [setScenario] is
    the [onScenarioUpdate] of the step. *)
Definition scenario_after (scenario : Scenario.t) (o : Outcome) : Scenario.t :=
  match updated o with
  | Some s => s
  | None => scenario
  end.

(** The operations of the step on the scenario it is given. *)
Inductive Action : Type :=
  | AddComment (newComment : Js.JsString)
  | Approve (projectId : option Js.JsString) (onProjectUpdate : bool)
            (fetchRejected : bool)
  | Share.

Definition act (a : Action) (scenario : Scenario.t) : Js.Eff Scenario.t :=
  match a with
  | AddComment c =>
      o <- handleAddComment scenario (mk c) ;;
      Js.ret (scenario_after scenario o)
  | Approve projectId onProjectUpdate fetchRejected =>
      Js.ret (scenario_after scenario
                (handleApprove scenario projectId onProjectUpdate
                               fetchRejected (mk [])))
  | Share =>
      Js.ret (scenario_after scenario (handleShare scenario (mk [])))
  end.

Fixpoint act_all (acts : list Action) (scenario : Scenario.t)
  : Js.Eff Scenario.t :=
  match acts with
  | [] => Js.ret scenario
  | a :: acts' => s <- act a scenario ;; act_all acts' s
  end.

(** The "Approve & Complete" button is disabled on a completed scenario;
    no element of the step calls [handleShare]. *)
Definition on_screen (a : Action) (scenario : Scenario.t) : bool :=
  match a with
  | AddComment _ => true
  | Approve _ _ _ =>
      match Scenario.status scenario with completed => false | _ => true end
  | Share => false
  end.

(** A click reaches a handler only through an element that is on screen
    and enabled. *)
Definition click (a : Action) (scenario : Scenario.t) : Js.Eff Scenario.t :=
  if on_screen a scenario then act a scenario else Js.ret scenario.

Fixpoint click_all (acts : list Action) (scenario : Scenario.t)
  : Js.Eff Scenario.t :=
  match acts with
  | [] => Js.ret scenario
  | a :: acts' => s <- click a scenario ;; click_all acts' s
  end.

End StepCollaborate.

(* ================================================================== *)
(** * [NewAnalysis.tsx]: the five-step wizard *)
(* ================================================================== *)

Module NewAnalysis.

Record State : Type := mk {
  currentStep : Z;
  selectedRegion : option (list LatLngLiteral.t);
  regionName : Js.JsString;
  terrainData : option TerrainData.t;
  scenario : option Scenario.t
}.

(** The [useState] initialisers.  An object or an array is truthy, so
    [x || null] is [x] for the region and the scenario of a project; the
    empty string is the empty list of code units. *)
Definition initial (selectedProject : option Project.t) : State :=
  mk (match selectedProject with Some _ => 5 | None => 1 end)
     (match selectedProject with
      | Some p => Some (Scenario.region (Project.scenario p))
      | None => None
      end)
     (match selectedProject with
      | Some p => if Js.truthy (Project.region p) then Project.region p
                  else []
      | None => []
      end)
     None
     (match selectedProject with
      | Some p => Some (Project.scenario p)
      | None => None
      end).

Definition setCurrentStep (n : Z) (st : State) : State :=
  mk n (selectedRegion st) (regionName st) (terrainData st) (scenario st).
Definition setSelectedRegion (r : list LatLngLiteral.t) (st : State) : State :=
  mk (currentStep st) (Some r) (regionName st) (terrainData st) (scenario st).
Definition setRegionName (n : Js.JsString) (st : State) : State :=
  mk (currentStep st) (selectedRegion st) n (terrainData st) (scenario st).
Definition setTerrainData (t : TerrainData.t) (st : State) : State :=
  mk (currentStep st) (selectedRegion st) (regionName st) (Some t) (scenario st).
Definition setScenario (s : Scenario.t) (st : State) : State :=
  mk (currentStep st) (selectedRegion st) (regionName st) (terrainData st)
     (Some s).

Definition not_null {A} (x : option A) : bool :=
  match x with Some _ => true | None => false end.

Definition canProceed (st : State) : bool :=
  if currentStep st =? 1
  then not_null (selectedRegion st) && (0 <? Js.length (regionName st))
  else if currentStep st =? 2 then not_null (terrainData st)
  else if currentStep st =? 3 then not_null (scenario st)
  else if currentStep st =? 4 then not_null (scenario st)
  else true.

Definition handleNext (st : State) : State :=
  if canProceed st && (currentStep st <? 5)
  then setCurrentStep (currentStep st + 1) st
  else st.

Definition handleBack (st : State) : State :=
  if 1 <? currentStep st
  then setCurrentStep (currentStep st - 1) st
  else st.

(** [handleSave]: the arguments of [onSaveProject] when it is called; the
    call is followed by [onCancel()]. *)
Definition handleSave (st : State) : option (Scenario.t * Js.JsString) :=
  match scenario st with
  | Some s => Some (s, regionName st)
  | None => None
  end.

End NewAnalysis.

(* ================================================================== *)
(** * [utils/api.ts]: the HTTP client *)
(* ================================================================== *)

(** A value read by [response.json()]. *)
Module Json.

#[local] Unset Elimination Schemes.
Inductive t : Type :=
  | Null
  | Bool (b : bool)
  | Number (x : Js.number)
  | String (s : Js.JsString)
  | Array (items : list t)
  | Object (properties : list (Js.JsString * t)).
#[local] Set Elimination Schemes.

Definition key_eqb (a b : Js.JsString) : bool :=
  if list_eq_dec N.eq_dec a b then true else false.

(** ToBoolean: null, false, zero, NaN and the empty string are falsy,
    every array and every object is truthy. *)
Definition truthy (v : t) : bool :=
  match v with
  | Null => false
  | Bool b => b
  | Number x => negb (PrimFloat.is_zero x || PrimFloat.is_nan x)
  | String s => Js.truthy s
  | Array _ | Object _ => true
  end.

(** [v.k] for a value [v] other than null and a key [k] that no prototype
    defines, as [detail]: the property of an object, where the last of
    several properties of one name counts; undefined, which is [None], on
    an object without it and on arrays, strings, numbers and booleans. *)
Definition property (k : Js.JsString) (v : t) : option t :=
  match v with
  | Object properties =>
      fold_left (fun found kv => if key_eqb (fst kv) k then Some (snd kv)
                                 else found)
                properties None
  | _ => None
  end.

End Json.

Module Api.

(** What the [error] of a response holds.  It is declared a string; the
    [detail] of a body goes into it as it is, whatever it is. *)
Inductive ErrorValue : Type :=
  | Message (text : Js.JsString)
      (* the message of an [Error] that was thrown, or a text of the
         source *)
  | Detail (v : Json.t)
      (* the [detail] of the body *)
  | ReadOfNull.
      (* the message of the TypeError thrown on reading a property of
         null, in the engine's words *)

Record ApiResponse (T : Type) : Type := mkResponse {
  data : option T;
  error : option ErrorValue;
  status : Z
}.
Arguments mkResponse {T}.
Arguments data {T}.
Arguments error {T}.
Arguments status {T}.

(** How a [fetch] followed by [response.json()] can end. *)
Inductive FetchOutcome (T : Type) : Type :=
  | Threw (message : option Js.JsString)
      (* [fetch] or [json()] threw; the message of an [Error] *)
  | NotOk (status : Z) (body : Json.t)
      (* a parsed body with [!response.ok] *)
  | Ok (status : Z) (body : option T).
      (* a parsed body with [response.ok]; [None] for a falsy body *)
Arguments Threw {T}.
Arguments NotOk {T}.
Arguments Ok {T}.

Definition defaultError : ErrorValue := Message (Js.lit "An error occurred").

(** [data.detail || 'An error occurred'] for a body other than null. *)
Definition errorOf (body : Json.t) : ErrorValue :=
  match Json.property (Js.lit "detail") body with
  | Some d => if Json.truthy d then Detail d else defaultError
  | None => defaultError
  end.

(** [request]: it never throws.  On a body that is null with
    [!response.ok] the read of [data.detail] throws inside the [try], and
    the [catch] answers with status 0. *)
Definition request {T} (o : FetchOutcome T) : ApiResponse T :=
  match o with
  | Threw (Some message) => mkResponse None (Some (Message message)) 0
  | Threw None => mkResponse None (Some (Message (Js.lit "Network error"))) 0
  | NotOk st Json.Null => mkResponse None (Some ReadOfNull) 0
  | NotOk st body => mkResponse None (Some (errorOf body)) st
  | Ok st body => mkResponse body None st
  end.

End Api.

(* ================================================================== *)
(** * [App.tsx]: pages, the project list and the save path *)
(* ================================================================== *)

Module Page.
Inductive t : Type := dashboard | new_analysis | projects | help.

Definition eqb (a b : t) : bool :=
  match a, b with
  | dashboard, dashboard | new_analysis, new_analysis
  | projects, projects | help, help => true
  | _, _ => false
  end.
End Page.

Module App.

Record State : Type := mk {
  currentPage : Page.t;
  projects : list Project.t;
  selectedProject : option Project.t;
  isLoading : bool
}.

(** The application with the wizard it shows: [NewAnalysis] is mounted
    exactly while the page is ['new-analysis'], and its state lives as long
    as it is mounted.  [log] collects the outside effects in order. *)
Record Running : Type := mkRunning {
  app : State;
  wizard : option NewAnalysis.State;
  log : list Effect
}.

(** Rendering after the page or the selection changed. *)
Definition render (r : Running) : Running :=
  if Page.eqb (currentPage (app r)) Page.new_analysis then
    match wizard r with
    | Some _ => r
    | None =>
        mkRunning (app r)
                  (Some (NewAnalysis.initial (selectedProject (app r))))
                  (log r)
    end
  else mkRunning (app r) None (log r).

(** [setSelectedProject(p); setCurrentPage(page)] *)
Definition navigate (p : option Project.t) (page : Page.t) (r : Running)
  : Running :=
  render (mkRunning
            (mk page (projects (app r)) p (isLoading (app r)))
            (wizard r) (log r)).

Definition handleViewProject (project : Project.t) (r : Running) : Running :=
  navigate (Some project) Page.new_analysis r.

Definition onStartNewProject (r : Running) : Running :=
  navigate None Page.new_analysis r.

(** The [onCancel] handed to the wizard. *)
Definition onCancel (r : Running) : Running :=
  navigate None Page.dashboard r.

Definition emit (ef : Effect) (r : Running) : Running :=
  mkRunning (app r) (wizard r) (log r ++ [ef]).

(** The payload [handleSaveProject] builds from a scenario whose timestamp
    is a date. *)
Definition projectData (e : Js.Env) (scenario : Scenario.t)
                       (regionName : Js.JsString) : ProjectData.t :=
  ProjectData.mk (Scenario.name scenario) regionName
                 (Scenario.status scenario) scenario
                 (Js.toISOString e (Scenario.timestamp scenario)).

(** [handleSaveProject] up to its first [await].  The payload is built
    before the [try]: on a scenario whose timestamp is the Invalid Date, as
    a project loaded without a readable timestamp has, [toISOString()]
    throws, the promise of the handler is rejected and nothing is sent.
    Otherwise the POST leaves.  The log keeps the endpoint as it is handed
    to [ApiClient.request], which puts its base URL in front. *)
Definition handleSaveProject (e : Js.Env) (scenario : Scenario.t)
                             (regionName : Js.JsString) (r : Running)
  : Running :=
  match Js.Date_toISOString e (Scenario.timestamp scenario) with
  | None => r
  | Some _ =>
      emit (HttpRequest (Js.lit "POST") (Js.lit "/api/projects/")
              (Some (CreateBody (projectData e scenario regionName)))) r
  end.

(** [loadProjects] with the outcome of its GET: the list is replaced when
    the response carries data; [isLoading] is cleared in any case. *)
Definition loadProjects (listReply : Api.FetchOutcome (list Project.t))
                        (r : Running) : Running :=
  let r := emit (HttpRequest (Js.lit "GET") (Js.lit "/api/projects/") None) r in
  let response := Api.request listReply in
  let ps := match Api.data response with
            | Some ps => ps
            | None => projects (app r)
            end in
  mkRunning (mk (currentPage (app r)) ps (selectedProject (app r)) false)
            (wizard r) (log r).

(** The rest of [handleSaveProject], once the POST has settled.
    [Api.request] returns on every outcome, so the [catch] with its
    [console.error] is never entered. *)
Definition createSettled (createReply : Api.FetchOutcome Project.t)
                         (listReply : Api.FetchOutcome (list Project.t))
                         (r : Running) : Running :=
  let response := Api.request createReply in
  match Api.data response with
  | Some _ => loadProjects listReply r
  | None => r
  end.

(** A click on "Save Project": [handleSave] of the mounted wizard, that
    is [onSaveProject(scenario, regionName); onCancel();] when a scenario
    is present.  The call of [onSaveProject] is not awaited, and a
    rejection of its promise does not reach [handleSave]: [onCancel] runs
    in any case. *)
Definition clickSave (e : Js.Env) (r : Running) : Running :=
  match wizard r with
  | None => r
  | Some w =>
      match NewAnalysis.handleSave w with
      | None => r
      | Some (scenario, regionName) =>
          onCancel (handleSaveProject e scenario regionName r)
      end
  end.

(** A whole save: the click, then the store's replies to the POST, if
    one was sent. *)
Definition save (e : Js.Env)
                (createReply : Api.FetchOutcome Project.t)
                (listReply : Api.FetchOutcome (list Project.t))
                (r : Running) : Running :=
  match wizard r with
  | None => r
  | Some w =>
      match NewAnalysis.handleSave w with
      | None => r
      | Some (scenario, _) =>
          if Js.valid_time (Scenario.timestamp scenario)
          then createSettled createReply listReply (clickSave e r)
          else clickSave e r
      end
  end.

(** Whether an effect shows something to the user. *)
Definition is_toast (ef : Effect) : bool :=
  match ef with Toast _ _ => true | _ => false end.

(** [onNavigate={setCurrentPage}] of the sidebar: the page changes, the
    selection stays. *)
Definition setCurrentPage (page : Page.t) (r : Running) : Running :=
  navigate (selectedProject (app r)) page r.

(** The [onViewProject] handed to [ProjectArchive],
    [() => setCurrentPage('new-analysis')]: the project clicked is not
    looked at. *)
Definition archiveViewProject (project : Project.t) (r : Running) : Running :=
  setCurrentPage Page.new_analysis r.



End App.

(* ================================================================== *)
(** * [ProjectArchive.tsx], [Dashboard.tsx]: the project lists *)
(* ================================================================== *)

Module ProjectArchive.



End ProjectArchive.

Module Dashboard.

Definition status_eqb (a b : Status) : bool :=
  match a, b with
  | draft, draft | completed, completed | shared, shared => true
  | _, _ => false
  end.

(** [projects.slice(0, 3)] *)
Definition recentProjects (projects : list Project.t) : list Project.t :=
  firstn 3 projects.

(** [projects.filter(p => p.status === st).length] *)
Definition count (st : Status) (projects : list Project.t) : Z :=
  Z.of_nat (List.length
              (filter (fun p => status_eqb (Project.status p) st) projects)).

Definition completedCount (projects : list Project.t) : Z :=
  count completed projects.

Definition draftCount (projects : list Project.t) : Z :=
  count draft projects.

End Dashboard.

(* ================================================================== *)
(** * The download name of [StepViewResults.tsx], [ScenarioPanel.tsx] and
      [ProjectArchive.tsx] *)
(* ================================================================== *)

Module Download.

Definition hyphen : N := 0x2D%N.

(** [s.replace(/\s/g, '-')]: the class [\s] is WhiteSpace and
    LineTerminator, code unit by code unit. *)
Definition replace_whitespace (s : Js.JsString) : Js.JsString :=
  List.map (fun c => if Js.is_whitespace c then hyphen else c) s.

(** [`${name.toLowerCase().replace(/\s/g, '-')}.json`].  The case mapping
    of the engine is taken as it is. *)
Definition fileName (toLowerCase : Js.JsString -> Js.JsString)
                    (name : Js.JsString) : Js.JsString :=
  replace_whitespace (toLowerCase name) ++ Js.lit ".json".

End Download.

(* ================================================================== *)
(** * [ComparisonView.tsx]: two scenarios side by side *)
(* ================================================================== *)

Module ComparisonView.

Definition string_eqb (a b : Js.JsString) : bool :=
  if list_eq_dec N.eq_dec a b then true else false.

(** The value of a property of a chart row. *)
Inductive Value : Type :=
  | Str (s : Js.JsString)
  | Num (n : Z).

(** An object of the chart data, as the value it holds under each key;
    the order in which an object lists its keys is not part of it.
    Defining a key a second time replaces the value of the first. *)
Definition Obj : Type := Js.JsString -> option Value.

(** [{}] *)
Definition empty : Obj := fun _ => None.

(** [o[k] = v], also as the next property of an object literal. *)
Definition set (k : Js.JsString) (v : Value) (o : Obj) : Obj :=
  fun k' => if string_eqb k' k then Some v else o k'.

(** [o[k]] *)
Definition get (k : Js.JsString) (o : Obj) : option Value := o k.

Record State : Type := mk {
  scenario1Id : Js.JsString;
  scenario2Id : Js.JsString
}.

(** [scenarios[i]?.id || ''] *)
Definition idAt (i : nat) (scenarios : list Scenario.t) : Js.JsString :=
  match nth_error scenarios i with
  | Some s => if Js.truthy (Scenario.id s) then Scenario.id s else []
  | None => []
  end.

Definition initial (scenarios : list Scenario.t) : State :=
  mk (idAt 0 scenarios) (idAt 1 scenarios).

(** [scenarios.find(s => s.id === id)] *)
Definition lookup (id : Js.JsString) (scenarios : list Scenario.t)
  : option Scenario.t :=
  List.find (fun s => string_eqb (Scenario.id s) id) scenarios.

(** [{ metric: label, [scenario1.name]: v1, [scenario2.name]: v2 }] *)
Definition row (label : Js.JsString) (s1 s2 : Scenario.t) (v1 v2 : Z) : Obj :=
  set (Scenario.name s2) (Num v2)
    (set (Scenario.name s1) (Num v1)
       (set (Js.lit "metric") (Str label) empty)).

Definition zoneTotal (s : Scenario.t) : Z :=
  Z.of_nat (List.length (Scenario.greenZones s)) * 10.

Definition getMetricsData (scenarios : list Scenario.t) (st : State)
  : list Obj :=
  match lookup (scenario1Id st) scenarios, lookup (scenario2Id st) scenarios with
  | Some s1, Some s2 =>
      [ row (Js.lit "Coverage") s1 s2 (Scenario.coverage s1)
            (Scenario.coverage s2);
        row (Js.lit "Sustainability") s1 s2 (Scenario.sustainabilityScore s1)
            (Scenario.sustainabilityScore s2);
        row (Js.lit "Accessibility") s1 s2 (Scenario.accessibilityScore s1)
            (Scenario.accessibilityScore s2);
        row (Js.lit "Green Zones") s1 s2 (zoneTotal s1) (zoneTotal s2) ]
  | _, _ => []
  end.

Definition getRadarData (scenarios : list Scenario.t) (st : State)
  : list Obj :=
  match lookup (scenario1Id st) scenarios, lookup (scenario2Id st) scenarios with
  | Some s1, Some s2 =>
      [ row (Js.lit "Coverage") s1 s2 (Scenario.coverage s1)
            (Scenario.coverage s2);
        row (Js.lit "Sustainability") s1 s2 (Scenario.sustainabilityScore s1)
            (Scenario.sustainabilityScore s2);
        row (Js.lit "Accessibility") s1 s2 (Scenario.accessibilityScore s1)
            (Scenario.accessibilityScore s2) ]
  | _, _ => []
  end.

Definition zoneType_eqb (a b : ZoneType) : bool :=
  match a, b with
  | park, park | garden, garden | forest, forest | wetland, wetland => true
  | _, _ => false
  end.

(** [scenario.greenZones.filter(z => z.type === type).length] *)
Definition zonesOfType (t : ZoneType) (s : Scenario.t) : Z :=
  Z.of_nat (List.length
              (filter (fun z => zoneType_eqb (GreenZone.type z) t)
                      (Scenario.greenZones s))).

(** [type.charAt(0).toUpperCase() + type.slice(1)] on the four type
    names. *)
Definition typeLabel (t : ZoneType) : Js.JsString :=
  match t with
  | park => Js.lit "Park"
  | garden => Js.lit "Garden"
  | forest => Js.lit "Forest"
  | wetland => Js.lit "Wetland"
  end.

Definition types : list ZoneType := [park; garden; forest; wetland].

(** [{ type: label, [scenario1.name]: n1, [scenario2.name]: n2 }] *)
Definition typeRow (t : ZoneType) (s1 s2 : Scenario.t) : Obj :=
  set (Scenario.name s2) (Num (zonesOfType t s2))
    (set (Scenario.name s1) (Num (zonesOfType t s1))
       (set (Js.lit "type") (Str (typeLabel t)) empty)).

Definition getZoneTypeComparison (scenarios : list Scenario.t) (st : State)
  : list Obj :=
  match lookup (scenario1Id st) scenarios, lookup (scenario2Id st) scenarios with
  | Some s1, Some s2 => List.map (fun t => typeRow t s1 s2) types
  | _, _ => []
  end.

(** The number a row shows under a key, if it shows one. *)
Definition shown (k : Js.JsString) (o : Obj) : option Z :=
  match get k o with
  | Some (Num n) => Some n
  | _ => None
  end.

End ComparisonView.

(* ================================================================== *)
(** * A wizard session: [NewAnalysis] with the steps it mounts *)
(* ================================================================== *)

Module Session.

(** The wizard and what lives in the steps it shows.  [StepSelectArea],
    and with it the drawing tool, is mounted exactly at step 1 and starts
    afresh each time; [StepRunAnalysis] is mounted exactly at step 3.  A
    run of [runAnalysis] outlives the step that started it: it hands its
    scenario to the wizard when its timers are through, wherever the
    wizard is by then. *)
Record State : Type := mk {
  wizard : NewAnalysis.State;
  mapUI : option MapInterface.State;
  instance : nat;          (* which mount of [StepRunAnalysis] is shown *)
  isRunning : bool;        (* [isRunning] of that mount *)
  pending : list (nat * list LatLngLiteral.t)
    (* the runs under way: the mount that started each and the region it
       captured *)
}.

Definition start (selectedProject : option Project.t) : State :=
  let w := NewAnalysis.initial selectedProject in
  mk w
     (if NewAnalysis.currentStep w =? 1 then Some MapInterface.initial
      else None)
     0 false [].

(** The wizard's state after a footer button, with the steps remounted
    when the step changed. *)
Definition goto (w' : NewAnalysis.State) (st : State) : State :=
  if NewAnalysis.currentStep w' =? NewAnalysis.currentStep (wizard st)
  then st
  else
    mk w'
       (if NewAnalysis.currentStep w' =? 1 then Some MapInterface.initial
        else None)
       (if NewAnalysis.currentStep w' =? 3 then S (instance st)
        else instance st)
       false
       (pending st).

Inductive Event : Type :=
  | Next
  | Back
  | Map (ev : MapInterface.Event)
  | RegionNameChange (name : Js.JsString)
  | RunAnalysis
  | AnalysisDone (k : nat)      (* the k-th run under way is through *)
  | Collaborate (a : StepCollaborate.Action).

Fixpoint remove_nth {A} (k : nat) (l : list A) : list A :=
  match l, k with
  | [], _ => []
  | _ :: l', O => l'
  | x :: l', S k' => x :: remove_nth k' l'
  end.

(** An event of the drawing tool; a region it emits goes through
    [StepSelectArea.handleRegionSelect] to [setSelectedRegion] and
    [setTerrainData]. *)
Definition fireMap (ev : MapInterface.Event) (st : State) : Js.Eff State :=
  match mapUI st with
  | None => Js.ret st
  | Some m =>
      if MapInterface.enabled ev m then
        let m' := MapInterface.previewEffect (MapInterface.handle ev m) in
        let emitted :=
          match ev with
          | MapInterface.FinishDrawing =>
              snd (MapInterface.handleFinishDrawing m)
          | _ => None
          end in
        match emitted with
        | Some region =>
            rt <- StepSelectArea.handleRegionSelect region ;;
            Js.ret (mk (NewAnalysis.setTerrainData (snd rt)
                          (NewAnalysis.setSelectedRegion (fst rt) (wizard st)))
                       (Some m') (instance st) (isRunning st) (pending st))
        | None =>
            Js.ret (mk (wizard st) (Some m') (instance st) (isRunning st)
                       (pending st))
        end
      else Js.ret st
  end.

(** The button of step 3; it is replaced by the progress bar while the
    mount is running. *)
Definition fireRun (st : State) : State :=
  if (NewAnalysis.currentStep (wizard st) =? 3) && negb (isRunning st) then
    match NewAnalysis.selectedRegion (wizard st) with
    | None => st
    | Some region =>
        mk (wizard st) (mapUI st) (instance st) true
           (pending st ++ [(instance st, region)])
    end
  else st.

(** The end of a run: the scenario is made now, from the region the run
    captured, and goes to [setScenario]; [setIsRunning(false)] reaches the
    mount that started the run, if it is still shown. *)
Definition fireDone (k : nat) (st : State) : Js.Eff State :=
  match nth_error (pending st) k with
  | None => Js.ret st
  | Some (i, region) =>
      o <- StepRunAnalysis.runAnalysis (Some region) StepRunAnalysis.initial ;;
      match snd o with
      | Some s =>
          Js.ret (mk (NewAnalysis.setScenario s (wizard st)) (mapUI st)
                     (instance st)
                     (if (i =? instance st)%nat
                         && (NewAnalysis.currentStep (wizard st) =? 3)
                      then false else isRunning st)
                     (remove_nth k (pending st)))
      | None => Js.ret st
      end
  end.

(** An element of [StepCollaborate], shown at step 5 with a scenario. *)
Definition fireCollaborate (a : StepCollaborate.Action) (st : State)
  : Js.Eff State :=
  if NewAnalysis.currentStep (wizard st) =? 5 then
    match NewAnalysis.scenario (wizard st) with
    | Some s =>
        s' <- StepCollaborate.click a s ;;
        Js.ret (mk (NewAnalysis.setScenario s' (wizard st)) (mapUI st)
                   (instance st) (isRunning st) (pending st))
    | None => Js.ret st
    end
  else Js.ret st.

Definition fire (ev : Event) (st : State) : Js.Eff State :=
  match ev with
  | Next => Js.ret (goto (NewAnalysis.handleNext (wizard st)) st)
  | Back => Js.ret (goto (NewAnalysis.handleBack (wizard st)) st)
  | Map ev => fireMap ev st
  | RegionNameChange name =>
      if NewAnalysis.currentStep (wizard st) =? 1
      then Js.ret (mk (NewAnalysis.setRegionName name (wizard st)) (mapUI st)
                      (instance st) (isRunning st) (pending st))
      else Js.ret st
  | RunAnalysis => Js.ret (fireRun st)
  | AnalysisDone k => fireDone k st
  | Collaborate a => fireCollaborate a st
  end.

Fixpoint fire_all (evs : list Event) (st : State) : Js.Eff State :=
  match evs with
  | [] => Js.ret st
  | ev :: evs' => st' <- fire ev st ;; fire_all evs' st'
  end.

(** The state a session is in after the events, from its start. *)
Definition after (selectedProject : option Project.t) (evs : list Event)
                 (e : Js.Env) (p : Js.Pos) : State :=
  Js.run (fire_all evs (start selectedProject)) e p.

Definition points (r : list LatLngLiteral.t) : Z := Z.of_nat (List.length r).

(** What a session started without a project keeps: the step is one of
    the five; the data of every earlier step is there; a region is never
    without its terrain record; every region held has three points or
    more. *)
Definition fresh_inv (st : State) : Prop :=
  let w := wizard st in
  1 <= NewAnalysis.currentStep w <= 5
  /\ (mapUI st <> None <-> NewAnalysis.currentStep w = 1)
  /\ (NewAnalysis.selectedRegion w = None <-> NewAnalysis.terrainData w = None)
  /\ (2 <= NewAnalysis.currentStep w ->
      NewAnalysis.selectedRegion w <> None /\ NewAnalysis.regionName w <> [])
  /\ (4 <= NewAnalysis.currentStep w -> NewAnalysis.scenario w <> None)
  /\ (forall r, NewAnalysis.selectedRegion w = Some r -> 3 <= points r)
  /\ (forall i r, In (i, r) (pending st) -> 3 <= points r)
  /\ (forall s, NewAnalysis.scenario w = Some s ->
                3 <= points (Scenario.region s)).

End Session.

(* ================================================================== *)
(** * The vocabulary of the specification *)
(* ================================================================== *)

Module Spec.

(** A comment text that is empty or made of white space only. *)
Definition blank (s : Js.JsString) : bool := forallb Js.is_whitespace s.

(** The completion predicate of the wizard's current step:
    SelectArea needs a confirmed region and a non-empty name, ImportData a
    terrain record, RunAnalysis and ViewResults a scenario. *)
Definition completion (st : NewAnalysis.State) : Prop :=
  (NewAnalysis.currentStep st = 1 ->
     NewAnalysis.selectedRegion st <> None /\ NewAnalysis.regionName st <> [])
  /\ (NewAnalysis.currentStep st = 2 -> NewAnalysis.terrainData st <> None)
  /\ (NewAnalysis.currentStep st = 3 -> NewAnalysis.scenario st <> None)
  /\ (NewAnalysis.currentStep st = 4 -> NewAnalysis.scenario st <> None).

(** A status change that goes backward: from completed or shared to
    draft. *)
Definition regressed (before after : Status) : bool :=
  match before, after with
  | completed, draft | shared, draft => true
  | _, _ => false
  end.

(** The status rule, as the specification words it: whatever is done in
    a wizard session, a scenario status that was completed or shared is
    never draft later on. *)
Definition status_never_returns_to_draft : Prop :=
  forall (selectedProject : option Project.t)
         (before later : list Session.Event)
         (e : Js.Env) (p : Js.Pos) (s s' : Scenario.t),
    NewAnalysis.scenario
      (Session.wizard (Session.after selectedProject before e p)) = Some s ->
    NewAnalysis.scenario
      (Session.wizard (Session.after selectedProject (before ++ later) e p))
    = Some s' ->
    regressed (Scenario.status s) (Scenario.status s') = false.

(** While a listener is attached or points are held, the map exists, and a
    listener is attached only while drawing. *)
Definition drawing_inv (st : MapInterface.State) : Prop :=
  (MapInterface.clickListener st = true -> MapInterface.map st = true) /\
  (MapInterface.drawingPoints st <> [] -> MapInterface.map st = true) /\
  (MapInterface.isDrawing st = MapInterface.clickListener st).

(** The effects a handler added to a log. *)
Definition added (before after : list Effect) : list Effect :=
  skipn (List.length before) after.

(** Loading a project, as the specification words it: the wizard starts
    in step 5 with the region, the name and the scenario of the project,
    and with all the state of the earlier steps in place, the terrain
    record of ImportData included. *)
Definition load_prepopulates_all : Prop :=
  forall p : Project.t,
    let w := NewAnalysis.initial (Some p) in
    NewAnalysis.currentStep w = 5
    /\ NewAnalysis.selectedRegion w
       = Some (Scenario.region (Project.scenario p))
    /\ NewAnalysis.regionName w = Project.region p
    /\ NewAnalysis.scenario w = Some (Project.scenario p)
    /\ NewAnalysis.terrainData w <> None.

(** Saving, as the specification words it: the scenario and the region
    name reach the store's create operation; on success the session ends
    and the caller is back in control; on failure the user is told and the
    session stays, with its scenario. *)
Definition save_keeps_session_on_failure : Prop :=
  forall (e : Js.Env) (createReply : Api.FetchOutcome Project.t)
         (listReply : Api.FetchOutcome (list Project.t))
         (r : App.Running) (w : NewAnalysis.State) (s : Scenario.t),
    App.wizard r = Some w ->
    NewAnalysis.scenario w = Some s ->
    let r' := App.save e createReply listReply r in
    In (HttpRequest (Js.lit "POST") (Js.lit "/api/projects/")
          (Some (CreateBody
                   (App.projectData e s (NewAnalysis.regionName w)))))
       (App.log r')
    /\ match Api.data (Api.request createReply) with
       | Some _ =>
           App.wizard r' = None
           /\ App.currentPage (App.app r') = Page.dashboard
       | None =>
           App.wizard r' = Some w
           /\ existsb App.is_toast (added (App.log r) (App.log r')) = true
       end.

End Spec.

(* ================================================================== *)
(** * Concrete inputs *)
(* ================================================================== *)

Module Sample.

(** Draws 1/16, 3/16, 5/16, ... (wrapping below 1), a clock that ticks one
    millisecond per read. *)
Definition env : Js.Env :=
  Js.mkEnv
    (fun k => Js.mkDraw (((2 * Z.of_nat k + 1) * 2 ^ 49) mod 2 ^ 53) 53)
    (fun k => 1700000000000 + Z.of_nat k)
    (fun _ => Js.lit "11/1/2026")
    (fun _ => Js.lit "2026-11-01T09:00:00.000Z").

Definition start : Js.Pos := Js.mkPos 0 0.

(** Draws at the edges of the rounding: the largest double below 1, the
    smallest positive double, and products that round up to an integer or
    stay just below one. *)
Definition edge_draws : list Js.RandomDraw :=
  [ Js.mkDraw (2 ^ 53 - 1) 53; Js.mkDraw 0 0; Js.mkDraw 1 1074;
    Js.mkDraw (2 ^ 52 + 1) 53; Js.mkDraw (2 ^ 53 - 1) 54; Js.mkDraw 1 1;
    Js.mkDraw ((16 * 2 ^ 53 - 2) / 30) 53;
    Js.mkDraw ((16 * 2 ^ 53 - 2) / 30 + 1) 53;
    Js.mkDraw ((7 * 2 ^ 53 - 1) / 25) 53;
    Js.mkDraw ((7 * 2 ^ 53 - 1) / 25 + 1) 53;
    Js.mkDraw ((40001 * 2 ^ 53 - 1) / 50000) 53;
    Js.mkDraw ((40001 * 2 ^ 53 - 1) / 50000 + 1) 53;
    Js.mkDraw ((20001 * 2 ^ 53 - 1) / 30000) 53;
    Js.mkDraw ((20001 * 2 ^ 53 - 1) / 30000 + 1) 53 ].

(** [Math.floor(d * n)] computed on the primitive doubles. *)
Definition floor_times_double (d : Js.RandomDraw) (n : Z) : option Z :=
  Js.integral_value
    (Js.trunc_nonneg (PrimFloat.mul (Js.draw_number d) (Js.of_Z n))).

(** The four corners of a bounding box. *)
Definition p1 : LatLngLiteral.t := LatLngLiteral.mk 49.94%float 11.57%float.
Definition p2 : LatLngLiteral.t := LatLngLiteral.mk 49.94%float 11.58%float.
Definition p3 : LatLngLiteral.t := LatLngLiteral.mk 49.95%float 11.58%float.
Definition p4 : LatLngLiteral.t := LatLngLiteral.mk 49.95%float 11.57%float.
Definition box : list LatLngLiteral.t := [p1; p2; p3; p4].

Definition scenario : Scenario.t :=
  Scenario.mk (Js.lit "scenario-1700000000000")
              (Js.lit "AI Generated Scenario 11/1/2026")
              1700000000002 box [] 25 71 79 115625 draft [].

Definition project : Project.t :=
  Project.mk (Js.lit "7") (Js.lit "AI Generated Scenario 11/1/2026")
             (Js.lit "Bayreuth Hofgarten") draft 1700000005000 scenario.

(** The map has loaded, "Select Region" was clicked and three corners
    were clicked. *)
Definition drawn3 : MapInterface.State :=
  MapInterface.fire_all
    [ MapInterface.MapReady; MapInterface.StartDrawing;
      MapInterface.MapClick (Some p1); MapInterface.MapClick (Some p2);
      MapInterface.MapClick (Some p3) ]
    MapInterface.initial.

(** The wizard at its last step with a scenario, shown by the app. *)
Definition wizard : NewAnalysis.State :=
  NewAnalysis.mk 5 (Some box) (Js.lit "Bayreuth Hofgarten") None
                 (Some scenario).

Definition running : App.Running :=
  App.mkRunning (App.mk Page.new_analysis [] None false) (Some wizard) [].

(** The store cannot be reached. *)
Definition unreachable : Api.FetchOutcome Project.t :=
  Api.Threw (Some (Js.lit "Failed to fetch")).

Definition no_list : Api.FetchOutcome (list Project.t) :=
  Api.Threw (Some (Js.lit "Failed to fetch")).

End Sample.

(* ================================================================== *)
(** * More concrete inputs *)
(* ================================================================== *)

Module Cases.

(** A second scenario of the same day: another id, the same name. *)
Definition scenario2 : Scenario.t :=
  Scenario.mk (Js.lit "scenario-1700000009000")
              (Js.lit "AI Generated Scenario 11/1/2026")
              1700000009002 Sample.box [] 40 90 80 130000 draft [].

(** The store accepts the project and lists it. *)
Definition created : Api.FetchOutcome Project.t :=
  Api.Ok 200 (Some Sample.project).

Definition listed : Api.FetchOutcome (list Project.t) :=
  Api.Ok 200 (Some [Sample.project]).

(** The comparison with the first two scenarios selected. *)
Definition comparison : ComparisonView.State :=
  ComparisonView.initial [Sample.scenario; scenario2].

(** Drawing the first three corners of the sample box and confirming. *)
Definition draw_region : list Session.Event :=
  [ Session.Map MapInterface.MapReady;
    Session.Map MapInterface.StartDrawing;
    Session.Map (MapInterface.MapClick (Some Sample.p1));
    Session.Map (MapInterface.MapClick (Some Sample.p2));
    Session.Map (MapInterface.MapClick (Some Sample.p3));
    Session.Map MapInterface.FinishDrawing ].

(** From the start to a run of the analysis under way at step 3. *)
Definition to_running : list Session.Event :=
  draw_region
    ++ [ Session.RegionNameChange (Js.lit "Hofgarten");
         Session.Next; Session.Next; Session.RunAnalysis ].

(** From the start to step 5, the scenario made on the way. *)
Definition to_collaborate : list Session.Event :=
  to_running ++ [ Session.AnalysisDone 0; Session.Next; Session.Next ].

(** To step 5 and a click on "Approve & Complete". *)
Definition to_approved : list Session.Event :=
  to_collaborate
    ++ [ Session.Collaborate (StepCollaborate.Approve None true false) ].

(** Back to step 3 and the analysis once more, to its end. *)
Definition rerun : list Session.Event :=
  [ Session.Back; Session.Back; Session.RunAnalysis; Session.AnalysisDone 0 ].

(** The sample scenario as a project loaded without a readable timestamp
    holds it: its timestamp is the Invalid Date. *)
Definition undated : Scenario.t :=
  Scenario.mk (Scenario.id Sample.scenario) (Scenario.name Sample.scenario)
              (Js.maxTime + 1) Sample.box [] 25 71 79 115625 draft [].

Definition undated_running : App.Running :=
  App.mkRunning (App.mk Page.new_analysis [] None false)
    (Some (NewAnalysis.mk 5 (Some Sample.box) (Js.lit "Bayreuth Hofgarten")
                          None (Some undated)))
    [].

(** A refusal of the store with a reason, one with a list of reasons, one
    with a body that is null. *)
Definition refused : Api.FetchOutcome Project.t :=
  Api.NotOk 404
    (Json.Object [(Js.lit "detail", Json.String (Js.lit "Not Found"))]).

Definition unprocessable : Api.FetchOutcome Project.t :=
  Api.NotOk 422
    (Json.Object
       [(Js.lit "detail",
         Json.Array [Json.Object [(Js.lit "msg",
                                   Json.String (Js.lit "field required"))]])]).

Definition refused_null : Api.FetchOutcome Project.t :=
  Api.NotOk 500 Json.Null.

(** The run is left alone: back to step 1, another region is drawn, and
    only then is the run through. *)
Definition redraw_during_run : list Session.Event :=
  to_running
    ++ [ Session.Back; Session.Back;
         Session.Map MapInterface.MapReady;
         Session.Map MapInterface.StartDrawing;
         Session.Map (MapInterface.MapClick (Some Sample.p2));
         Session.Map (MapInterface.MapClick (Some Sample.p3));
         Session.Map (MapInterface.MapClick (Some Sample.p4));
         Session.Map MapInterface.FinishDrawing;
         Session.AnalysisDone 0 ].

End Cases.

(* ================================================================== *)
(** * Lemmas on the primitives *)
(* ================================================================== *)

(** Rounding to 53 bits never yields a negative significand. *)
Lemma round53_nonneg (m : Z) : 0 <= m -> 0 <= Js.round53 m.
Proof.
  intros Hm. unfold Js.round53.
  destruct (Z.log2 m + 1 <=? 53) eqn:Hb; [exact Hm|].
  apply Z.leb_gt in Hb.
  rewrite Z.shiftl_mul_pow2 by lia.
  assert (0 <= Z.shiftr m (Z.log2 m + 1 - 53)) by (apply Z.shiftr_nonneg; exact Hm).
  assert (0 < 2 ^ (Z.log2 m + 1 - 53)) by (apply Z.pow_pos_nonneg; lia).
  destruct (_ || _); nia.
Qed.

(** Rounding to nearest moves a significand up by at most one part in
    2^53. *)
Lemma round53_upper (m : Z) :
  0 <= m -> Js.round53 m * 2 ^ 53 <= m * (2 ^ 53 + 1).
Proof.
  intros Hm. unfold Js.round53.
  destruct (Z.log2 m + 1 <=? 53) eqn:Hb; [nia|].
  apply Z.leb_gt in Hb.
  set (sh := Z.log2 m + 1 - 53) in *.
  assert (Hsh : 1 <= sh) by (unfold sh; lia).
  assert (Hpos : 0 < m).
  { destruct (Z.eq_dec m 0) as [->|]; [cbn in Hb; lia | lia]. }
  rewrite Z.shiftr_div_pow2, !Z.shiftl_mul_pow2 by lia.
  assert (Hp : 0 < 2 ^ sh) by (apply Z.pow_pos_nonneg; lia).
  assert (Hhalf : 2 ^ sh = 2 * 2 ^ (sh - 1)).
  { replace sh with (1 + (sh - 1)) at 1 by lia.
    rewrite Z.pow_add_r by lia. reflexivity. }
  assert (Hlog : 2 ^ (sh - 1) * 2 ^ 53 <= m).
  { rewrite <- Z.pow_add_r by lia.
    replace (sh - 1 + 53) with (Z.log2 m) by (unfold sh; lia).
    apply Z.log2_spec; exact Hpos. }
  pose proof (Z.div_mod m (2 ^ sh) ltac:(lia)) as Hdm.
  pose proof (Z.mod_pos_bound m (2 ^ sh) Hp) as Hmod.
  set (q := m / 2 ^ sh) in *.
  destruct ((2 ^ (sh - 1) <? m - q * 2 ^ sh)
            || ((m - q * 2 ^ sh =? 2 ^ (sh - 1)) && Z.odd q)) eqn:Hup.
  - assert (Hr : 2 ^ (sh - 1) <= m - q * 2 ^ sh).
    { apply orb_true_iff in Hup as [H|H].
      - apply Z.ltb_lt in H; lia.
      - apply andb_true_iff in H as [H _]. apply Z.eqb_eq in H; lia. }
    nia.
  - nia.
Qed.

(** [Math.floor(Math.random() * n)] lies in [0, n-1]: the rounding of the
    product never reaches [n]. *)
Lemma floor_times_range (d : Js.RandomDraw) (n : Z) :
  Js.draw_ok d -> 1 <= n -> 0 <= Js.floor_times d n < n.
Proof.
  intros (Hm & Hs & Hlt) Hn. unfold Js.floor_times.
  assert (Hb : 0 < 2 ^ Js.scale d) by (apply Z.pow_pos_nonneg; lia).
  pose proof (round53_nonneg (Js.mant d * n) ltac:(nia)) as H0.
  pose proof (round53_upper (Js.mant d * n) ltac:(nia)) as Hu.
  split.
  - apply Z.div_pos; assumption.
  - apply Z.div_lt_upper_bound; [exact Hb|].
    set (M := Js.round53 (Js.mant d * n)) in *.
    set (a := 2 ^ 53) in *. set (b := 2 ^ Js.scale d) in *.
    assert (Ha : 0 < a) by (unfold a; lia).
    destruct (Z_le_gt_dec b a).
    + assert (Js.mant d * n * (a + 1) < n * a * b) by nia.
      nia.
    + assert (Js.mant d * n * (a + 1) < n * a * a) by nia.
      nia.
Qed.

Lemma draw_okb_sound (d : Js.RandomDraw) : Js.draw_okb d = true -> Js.draw_ok d.
Proof.
  unfold Js.draw_okb, Js.draw_ok. intros H.
  repeat (apply andb_true_iff in H as [H ?]).
  repeat match goal with
         | H : (_ <=? _) = true |- _ => apply Z.leb_le in H
         | H : (_ <? _) = true |- _ => apply Z.ltb_lt in H
         end.
  lia.
Qed.

(** ** Trimming *)

Lemma trimStart_nil_iff (s : Js.JsString) :
  Js.trimStart s = [] <-> Spec.blank s = true.
Proof.
  induction s as [|c s IH]; cbn; [tauto|].
  destruct (Js.is_whitespace c); cbn; [exact IH|].
  split; discriminate.
Qed.

Lemma trimStart_head (s : Js.JsString) :
  match Js.trimStart s with
  | [] => True
  | c :: _ => Js.is_whitespace c = false
  end.
Proof.
  induction s as [|c s IH]; cbn; [exact I|].
  destruct (Js.is_whitespace c) eqn:E; [exact IH | exact E].
Qed.

Lemma blank_rev (s : Js.JsString) : Spec.blank (rev s) = Spec.blank s.
Proof.
  unfold Spec.blank. induction s as [|c s IH]; cbn; [reflexivity|].
  rewrite forallb_app, IH. cbn. rewrite andb_true_r. apply andb_comm.
Qed.

(** [!s.trim()] holds exactly of the Spec.blank strings. *)
Lemma trim_falsy_iff (s : Js.JsString) :
  Js.truthy (Js.trim s) = false <-> Spec.blank s = true.
Proof.
  assert (Hnil : forall t : Js.JsString, Js.truthy t = false <-> t = []).
  { intros [|c t]; cbn; split; congruence. }
  rewrite Hnil. unfold Js.trim, Js.trimEnd. split.
  - intros H. apply (f_equal (@rev N)) in H. rewrite rev_involutive in H.
    cbn in H. apply trimStart_nil_iff in H. rewrite blank_rev in H.
    pose proof (trimStart_head s) as Hh.
    destruct (Js.trimStart s) as [|c t] eqn:E.
    + apply trimStart_nil_iff; exact E.
    + cbn in H. rewrite Hh in H. discriminate.
  - intros H. apply trimStart_nil_iff in H. rewrite H. reflexivity.
Qed.

(** ** The wizard's drawing tool *)

Lemma fire_reachable (ev : MapInterface.Event) (st : MapInterface.State) :
  MapInterface.reachable st -> MapInterface.reachable (MapInterface.fire st ev).
Proof.
  intros H. unfold MapInterface.fire.
  destruct (MapInterface.enabled ev st) eqn:E; [|exact H].
  eapply MapInterface.reachable_step; [exact H|].
  constructor; exact E.
Qed.

Lemma fire_all_reachable (evs : list MapInterface.Event)
                         (st : MapInterface.State) :
  MapInterface.reachable st ->
  MapInterface.reachable (MapInterface.fire_all evs st).
Proof.
  revert st. induction evs as [|ev evs IH]; intros st H; cbn; [exact H|].
  apply IH, fire_reachable, H.
Qed.

Lemma previewEffect_frame (st : MapInterface.State) :
  MapInterface.map (MapInterface.previewEffect st) = MapInterface.map st /\
  MapInterface.isDrawing (MapInterface.previewEffect st)
    = MapInterface.isDrawing st /\
  MapInterface.drawingPoints (MapInterface.previewEffect st)
    = MapInterface.drawingPoints st /\
  MapInterface.clickListener (MapInterface.previewEffect st)
    = MapInterface.clickListener st.
Proof.
  unfold MapInterface.previewEffect.
  destruct (negb (MapInterface.map st) || negb (MapInterface.isDrawing st));
    [tauto|].
  destruct (_ <? 2); cbn; tauto.
Qed.

Lemma drawing_inv_reachable (st : MapInterface.State) :
  MapInterface.reachable st -> Spec.drawing_inv st.
Proof.
  induction 1 as [|st st' _ IH Hstep].
  - unfold Spec.drawing_inv; cbn. repeat split; congruence.
  - destruct Hstep as [ev st Hen].
    destruct IH as (Hl & Hp & Hd).
    destruct (previewEffect_frame (MapInterface.handle ev st))
      as (Em & Ed & Ep & El).
    unfold Spec.drawing_inv. rewrite Em, Ed, Ep, El. clear Em Ed Ep El.
    destruct st as [m d ps l t]; cbn in *.
    destruct ev; cbn in *.
    + repeat split; auto.
    + destruct m; cbn; repeat split; auto; congruence.
    + destruct l; [|repeat split; auto].
      destruct latLng; cbn; repeat split; auto.
    + unfold MapInterface.handleFinishDrawing; cbn.
      destruct (negb m || _); cbn; repeat split; auto; congruence.
    + destruct m; cbn; repeat split; auto; congruence.
Qed.

(** The clicks made after "Select Region" are held in the order made. *)
Lemma clicks_accumulate (ps acc : list LatLngLiteral.t)
                        (st : MapInterface.State) :
  MapInterface.map st = true ->
  MapInterface.isDrawing st = true ->
  MapInterface.clickListener st = true ->
  MapInterface.drawingPoints st = acc ->
  let st' := MapInterface.fire_all
               (List.map (fun p => MapInterface.MapClick (Some p)) ps) st in
  MapInterface.drawingPoints st' = acc ++ ps /\
  MapInterface.map st' = true /\ MapInterface.isDrawing st' = true /\
  MapInterface.clickListener st' = true.
Proof.
  revert acc st. induction ps as [|p ps IH]; intros acc st Hm Hd Hl Hp; cbn.
  - rewrite app_nil_r. auto.
  - set (st1 := MapInterface.fire st (MapInterface.MapClick (Some p))).
    assert (H1 : MapInterface.drawingPoints st1 = acc ++ [p] /\
                 MapInterface.map st1 = true /\
                 MapInterface.isDrawing st1 = true /\
                 MapInterface.clickListener st1 = true).
    { unfold st1, MapInterface.fire. cbn.
      destruct (previewEffect_frame
                  (MapInterface.mapClick (Some p) st)) as (Em & Ed & Ep & El).
      rewrite Em, Ed, Ep, El. unfold MapInterface.mapClick. rewrite Hl. cbn.
      rewrite Hp. auto. }
    destruct H1 as (A & B & C & D).
    specialize (IH (acc ++ [p]) st1 B C D A). cbn in IH.
    rewrite <- app_assoc in IH. exact IH.
Qed.

(** ** The generator *)

Lemma zonesFrom_length (rounds : nat) (b : StepRunAnalysis.Bounds) (n i : Z)
                       (zones : list GreenZone.t) (e : Js.Env) (p : Js.Pos) :
  List.length (fst (StepRunAnalysis.zonesFrom rounds b n i zones e p))
  = (List.length zones + rounds)%nat.
Proof.
  revert i zones p.
  induction rounds as [|rounds IH]; intros i zones p;
    cbn [StepRunAnalysis.zonesFrom].
  - cbn. lia.
  - unfold Js.bind at 1.
    destruct (StepRunAnalysis.zone b n i e p) as [z p'].
    rewrite IH, length_app. cbn. lia.
Qed.

Lemma generateMockGreenZones_length (region : list LatLngLiteral.t)
                                    (targetCoverage : Z)
                                    (e : Js.Env) (p : Js.Pos) :
  Z.of_nat (List.length
              (Js.run (StepRunAnalysis.generateMockGreenZones
                         region targetCoverage) e p))
  = Z.max 3 (targetCoverage / 8 + 1).
Proof.
  unfold Js.run, StepRunAnalysis.generateMockGreenZones.
  rewrite zonesFrom_length. cbn [List.length].
  unfold StepRunAnalysis.numZones. lia.
Qed.

(** [runAnalysis] on a region, spelled out: the zones come first, then the
    three clock reads, then the three draws of the scores. *)
Lemma runAnalysis_region (region : list LatLngLiteral.t)
                         (st : StepRunAnalysis.State)
                         (e : Js.Env) (p : Js.Pos) :
  let target := StepRunAnalysis.greenSpaceTarget st in
  let zp := StepRunAnalysis.generateMockGreenZones region target e p in
  let k := Js.draws (snd zp) in
  let c := Js.reads (snd zp) in
  StepRunAnalysis.generated e p (Some region) st
  = Some (Scenario.mk
            (Js.lit "scenario-" ++ Js.number_to_string (Js.clock e c))
            (Js.lit "AI Generated Scenario "
               ++ Js.toLocaleDateString e (Js.clock e (S c)))
            (Js.clock e (S (S c)))
            region
            (fst zp)
            target
            (Js.floor_times (Js.random e k) 30 + 70)
            (Js.floor_times (Js.random e (S k)) 25 + 75)
            (Js.floor_times (Js.random e (S (S k))) 50000 + 100000)
            draft
            []).
Proof.
  cbv zeta.
  unfold StepRunAnalysis.generated, Js.run, StepRunAnalysis.runAnalysis.
  cbn [fold_left StepRunAnalysis.steps StepRunAnalysis.setProgress
       StepRunAnalysis.setIsRunning StepRunAnalysis.greenSpaceTarget].
  unfold Js.bind at 1.
  destruct (StepRunAnalysis.generateMockGreenZones region
              (StepRunAnalysis.greenSpaceTarget st) e p) as [zones [k c]].
  reflexivity.
Qed.

(** The integer model of [Math.floor(Math.random() * n)] agrees with the
    primitive doubles on the edge draws, for the constants of the sources. *)
Example floor_times_agrees_with_doubles :
  forallb (fun d =>
     Js.draw_okb d &&
     forallb (fun n =>
        match Sample.floor_times_double d n with
        | Some z => z =? Js.floor_times d n
        | None => false
        end) [30; 25; 50000; 30000; 4; 500])
    Sample.edge_draws = true.
Proof. vm_compute. reflexivity. Qed.

(** The largest double below 1 gives the top of each range, never more. *)
Example floor_times_top :
  List.map (Js.floor_times (Js.mkDraw (2 ^ 53 - 1) 53)) [30; 25; 50000]
  = [29; 24; 49999].
Proof. vm_compute. reflexivity. Qed.

Lemma sample_env_draws_ok (k : nat) : Js.draw_ok (Js.random Sample.env k).
Proof.
  unfold Js.draw_ok. cbn [Js.random Sample.env Js.mant Js.scale].
  pose proof (Z.mod_pos_bound ((2 * Z.of_nat k + 1) * 2 ^ 49) (2 ^ 53)
                ltac:(lia)).
  lia.
Qed.

(** The generator on the sample box, with the default target of 25. *)
Example sample_run :
  option_map
    (fun s => (Scenario.id s, List.length (Scenario.greenZones s),
               List.map GreenZone.type (Scenario.greenZones s),
               List.map GreenZone.area (Scenario.greenZones s),
               Scenario.coverage s, Scenario.sustainabilityScore s,
               Scenario.accessibilityScore s, Scenario.populationServed s,
               Scenario.status s))
    (StepRunAnalysis.generated Sample.env Sample.start (Some Sample.box)
       StepRunAnalysis.initial)
  = Some (Js.lit "scenario-1700000000000", 4%nat,
          [park; garden; forest; wetland],
          [20625; 28125; 35625; 43125], 25, 71, 79, 115625, draft).
Proof. vm_compute. reflexivity. Qed.

(* ================================================================== *)
(** * The wizard *)
(* ================================================================== *)

Lemma canProceed_completion (st : NewAnalysis.State) :
  NewAnalysis.canProceed st = true -> Spec.completion st.
Proof.
  unfold NewAnalysis.canProceed, Spec.completion.
  destruct st as [step region name terrain scenario]; cbn.
  intros H. split; [|split; [|split]]; intros ->; cbn in H.
  - apply andb_true_iff in H as [Hr Hn]. split.
    + destruct region; [discriminate | discriminate Hr].
    + destruct name; [discriminate Hn | discriminate].
  - destruct terrain; [discriminate | discriminate H].
  - destruct scenario; [discriminate | discriminate H].
  - destruct scenario; [discriminate | discriminate H].
Qed.

Lemma completion_canProceed (st : NewAnalysis.State) :
  Spec.completion st -> NewAnalysis.canProceed st = true.
Proof.
  unfold NewAnalysis.canProceed, Spec.completion.
  destruct st as [step region name terrain scenario]; cbn.
  intros (H1 & H2 & H3 & H4).
  destruct (step =? 1) eqn:E1.
  { apply Z.eqb_eq in E1. destruct (H1 E1) as [Hr Hn].
    destruct region; [|congruence]. destruct name; [congruence|].
    reflexivity. }
  destruct (step =? 2) eqn:E2.
  { apply Z.eqb_eq in E2. specialize (H2 E2).
    destruct terrain; [reflexivity | congruence]. }
  destruct (step =? 3) eqn:E3.
  { apply Z.eqb_eq in E3. specialize (H3 E3).
    destruct scenario; [reflexivity | congruence]. }
  destruct (step =? 4) eqn:E4; [|reflexivity].
  apply Z.eqb_eq in E4. specialize (H4 E4).
  destruct scenario; [reflexivity | congruence].
Qed.

(** C1. [next()] advances the wizard only when the completion predicate
    of the current step holds: from SelectArea only with a confirmed region
    and a non-empty name, from ImportData only with a terrain record, from
    RunAnalysis and ViewResults only with a scenario.  When the predicate
    fails the state, and so the current step, is unchanged.  When it holds
    below step 5, the step advances by one and nothing else changes. *)
Theorem next_requires_completion (st : NewAnalysis.State) :
  (NewAnalysis.currentStep (NewAnalysis.handleNext st)
     <> NewAnalysis.currentStep st -> Spec.completion st)
  /\ (~ Spec.completion st -> NewAnalysis.handleNext st = st)
  /\ (Spec.completion st -> NewAnalysis.currentStep st < 5 ->
      NewAnalysis.handleNext st
      = NewAnalysis.mk (NewAnalysis.currentStep st + 1)
          (NewAnalysis.selectedRegion st) (NewAnalysis.regionName st)
          (NewAnalysis.terrainData st) (NewAnalysis.scenario st)).
Proof.
  unfold NewAnalysis.handleNext.
  destruct (NewAnalysis.canProceed st) eqn:Hc; cbn [andb].
  - pose proof (canProceed_completion st Hc) as Hcompl.
    split; [|split].
    + intros _. exact Hcompl.
    + intros Hn. contradiction.
    + intros _ Hlt. apply Z.ltb_lt in Hlt. rewrite Hlt. reflexivity.
  - split; [|split].
    + intros Hn. exfalso. apply Hn. reflexivity.
    + reflexivity.
    + intros Hcompl. apply completion_canProceed in Hcompl. congruence.
Qed.

(** [region || ''] is the region label itself. *)
Lemma initial_regionName (p : Project.t) :
  NewAnalysis.regionName (NewAnalysis.initial (Some p)) = Project.region p.
Proof.
  cbn. destruct (Project.region p); reflexivity.
Qed.

(** C3, as the specification words it, fails: a loaded project brings no
    terrain record, so not all the state of the earlier steps is in place.
    On the sample project the wizard starts with [terrainData] null. *)
Lemma load_leaves_terrain_absent : ~ Spec.load_prepopulates_all.
Proof.
  intros H. destruct (H Sample.project) as (_ & _ & _ & _ & Hterrain).
  apply Hterrain. reflexivity.
Qed.

(** Going back from the loaded step 5 to ImportData, the wizard is stuck:
    [next()] does not advance, for want of the terrain record. *)
Example loaded_project_stuck_at_import :
  let w := NewAnalysis.handleBack
             (NewAnalysis.handleBack
                (NewAnalysis.handleBack
                   (NewAnalysis.initial (Some Sample.project)))) in
  NewAnalysis.currentStep w = 2 /\ NewAnalysis.handleNext w = w.
Proof. split; reflexivity. Qed.

(** C3, amended.  For every persisted project handed to the wizard, the
    wizard starts in step 5 (Collaborate) with the region and the scenario
    of the project and with the project's region label as the name.  The
    terrain record is not restored: it starts absent, and the completion
    predicate of ImportData does not hold of the loaded state.  No
    completion predicate is consulted: the start is the same whatever
    the project holds.  Viewing a project from the dashboard mounts the
    wizard in exactly this state. *)
Theorem load_project_starts_at_collaborate (p : Project.t) :
  let w := NewAnalysis.initial (Some p) in
  NewAnalysis.currentStep w = 5
  /\ NewAnalysis.selectedRegion w = Some (Scenario.region (Project.scenario p))
  /\ NewAnalysis.regionName w = Project.region p
  /\ NewAnalysis.scenario w = Some (Project.scenario p)
  /\ NewAnalysis.terrainData w = None
  /\ NewAnalysis.canProceed (NewAnalysis.setCurrentStep 2 w) = false
  /\ (forall r : App.Running,
        App.wizard r = None ->
        App.wizard (App.handleViewProject p r) = Some w).
Proof.
  cbv zeta. pose proof (initial_regionName p) as Hname.
  repeat apply conj; try reflexivity; try exact Hname.
  intros r Hr. unfold App.handleViewProject, App.navigate, App.render.
  cbn. rewrite Hr. reflexivity.
Qed.

(* ================================================================== *)
(** * Saving *)
(* ================================================================== *)

(** C4, as the specification words it, fails: with the store out of reach
    the sample session still ends, so its scenario is not kept for a
    retry. *)
Lemma save_failure_ends_session : ~ Spec.save_keeps_session_on_failure.
Proof.
  intros H.
  destruct (H Sample.env Sample.unreachable Sample.no_list Sample.running
              Sample.wizard Sample.scenario eq_refl eq_refl)
    as (_ & Hfail).
  cbn in Hfail. destruct Hfail as (Hkept & _). discriminate Hkept.
Qed.

(** What the failed save of the sample session leaves: the dashboard, no
    wizard, the POST as the only effect. *)
Example failed_save_outcome :
  let r := App.save Sample.env Sample.unreachable Sample.no_list
                    Sample.running in
  App.wizard r = None
  /\ App.currentPage (App.app r) = Page.dashboard
  /\ List.length (App.log r) = 1%nat
  /\ existsb App.is_toast (App.log r) = false.
Proof. repeat split; reflexivity. Qed.

(** C4, amended.  When [save()] is invoked with a scenario present, the
    wizard ends the session without waiting for any outcome: the wizard is
    unmounted and the caller's dashboard is shown, whether the create
    succeeds or fails.  When the scenario's timestamp is a date, the
    scenario and the region name have gone to the store's create operation
    before that, as the POST of the project payload.  Without a scenario
    [save()] does nothing. *)
Theorem save_hands_over_and_ends_session
    (e : Js.Env) (createReply : Api.FetchOutcome Project.t)
    (listReply : Api.FetchOutcome (list Project.t))
    (r : App.Running) (w : NewAnalysis.State)
    (Hmounted : App.wizard r = Some w) :
  let r' := App.save e createReply listReply r in
  match NewAnalysis.scenario w with
  | Some s =>
      (Js.valid_time (Scenario.timestamp s) = true ->
       exists later,
         App.log r'
         = App.log r
             ++ HttpRequest (Js.lit "POST") (Js.lit "/api/projects/")
                  (Some (CreateBody
                           (ProjectData.mk (Scenario.name s)
                              (NewAnalysis.regionName w) (Scenario.status s) s
                              (Js.toISOString e (Scenario.timestamp s)))))
             :: later)
      /\ App.wizard r' = None
      /\ App.currentPage (App.app r') = Page.dashboard
      /\ App.selectedProject (App.app r') = None
  | None => r' = r
  end.
Proof.
  cbv zeta. unfold App.save, App.clickSave, NewAnalysis.handleSave.
  rewrite Hmounted.
  destruct (NewAnalysis.scenario w) as [s|]; [|reflexivity].
  unfold App.handleSaveProject, Js.Date_toISOString.
  destruct (Js.valid_time (Scenario.timestamp s)).
  - unfold App.createSettled.
    destruct (Api.data (Api.request createReply)).
    + cbn. split; [|auto]. intros _. eexists. rewrite <- app_assoc.
      reflexivity.
    + cbn. split; [|auto]. intros _. exists []. reflexivity.
  - cbn. split; [discriminate | auto].
Qed.

(** The amended C4 on the sample session, the store out of reach. *)
Lemma save_hands_over_and_ends_session_sample :
  let r' := App.save Sample.env Sample.unreachable Sample.no_list
                     Sample.running in
  (exists later,
     App.log r'
     = App.log Sample.running
         ++ HttpRequest (Js.lit "POST") (Js.lit "/api/projects/")
              (Some (CreateBody
                       (ProjectData.mk (Scenario.name Sample.scenario)
                          (NewAnalysis.regionName Sample.wizard)
                          (Scenario.status Sample.scenario) Sample.scenario
                          (Js.toISOString Sample.env
                             (Scenario.timestamp Sample.scenario)))))
         :: later)
  /\ App.wizard r' = None
  /\ App.currentPage (App.app r') = Page.dashboard
  /\ App.selectedProject (App.app r') = None.
Proof.
  destruct (save_hands_over_and_ends_session Sample.env Sample.unreachable
              Sample.no_list Sample.running Sample.wizard eq_refl)
    as (Hpost & Hend).
  split; [exact (Hpost eq_refl) | exact Hend].
Defined.

(** A scenario whose timestamp is the Invalid Date cannot be saved: the
    payload is never built, no request is sent and nothing is shown, and
    the session ends all the same. *)
Lemma undated_scenario_is_not_sent
    (e : Js.Env) (createReply : Api.FetchOutcome Project.t)
    (listReply : Api.FetchOutcome (list Project.t))
    (r : App.Running) (w : NewAnalysis.State) (s : Scenario.t) :
  App.wizard r = Some w ->
  NewAnalysis.scenario w = Some s ->
  Js.valid_time (Scenario.timestamp s) = false ->
  let r' := App.save e createReply listReply r in
  App.log r' = App.log r /\ App.wizard r' = None
  /\ App.projects (App.app r') = App.projects (App.app r).
Proof.
  intros Hw Hs Hv. cbv zeta.
  unfold App.save, App.clickSave, NewAnalysis.handleSave.
  rewrite Hw, Hs, Hv.
  unfold App.handleSaveProject, Js.Date_toISOString. rewrite Hv.
  cbn. auto.
Qed.

Example undated_sample_is_not_sent :
  let r' := App.save Sample.env Cases.created Cases.listed
              Cases.undated_running in
  App.log r' = [] /\ App.wizard r' = None
  /\ App.currentPage (App.app r') = Page.dashboard.
Proof. vm_compute. repeat split; reflexivity. Qed.

(* ================================================================== *)
(** * Drawing a region *)
(* ================================================================== *)

(** C5. In every state the drawing tool can reach: with fewer than 3
    points held, "finish" is ignored and the state is unchanged, nothing
    being emitted; with 3 points or more, "finish" emits exactly the points
    held and leaves drawing mode, the points cleared.  The points held are
    the clicks made since "Select Region", in the order made. *)
Theorem finish_needs_three_points
    (st : MapInterface.State) (Hreach : MapInterface.reachable st) :
  (Z.of_nat (List.length (MapInterface.drawingPoints st)) < 3 ->
     MapInterface.handleFinishDrawing st = (st, None))
  /\ (3 <= Z.of_nat (List.length (MapInterface.drawingPoints st)) ->
      exists st',
        MapInterface.handleFinishDrawing st
        = (st', Some (MapInterface.drawingPoints st))
        /\ MapInterface.isDrawing st' = false
        /\ MapInterface.drawingPoints st' = []
        /\ MapInterface.clickListener st' = false)
  /\ (forall ps : list LatLngLiteral.t,
        MapInterface.map st = true ->
        MapInterface.isDrawing st = false ->
        MapInterface.drawingPoints
          (MapInterface.fire_all
             (MapInterface.StartDrawing
                :: List.map (fun p => MapInterface.MapClick (Some p)) ps) st)
        = ps).
Proof.
  pose proof (drawing_inv_reachable st Hreach) as (_ & Hmap & _).
  unfold MapInterface.handleFinishDrawing.
  split; [|split].
  - intros Hlt. apply Z.ltb_lt in Hlt. rewrite Hlt, orb_true_r. reflexivity.
  - intros Hge.
    assert (Hne : MapInterface.drawingPoints st <> []).
    { intros E. rewrite E in Hge. cbn in Hge. lia. }
    rewrite (Hmap Hne). cbn [negb orb].
    destruct (_ <? 3) eqn:E; [apply Z.ltb_lt in E; lia|].
    eexists. split; [reflexivity|]. cbn. auto.
  - intros ps Hm Hd. cbn [MapInterface.fire_all fold_left].
    set (st1 := MapInterface.fire st MapInterface.StartDrawing).
    assert (H1 : MapInterface.map st1 = true /\
                 MapInterface.isDrawing st1 = true /\
                 MapInterface.clickListener st1 = true /\
                 MapInterface.drawingPoints st1 = []).
    { unfold st1, MapInterface.fire. cbn [MapInterface.enabled]. rewrite Hd.
      cbn [negb MapInterface.handle].
      destruct (previewEffect_frame (MapInterface.handleStartDrawing st))
        as (Em & Ed & Ep & El).
      rewrite Em, Ed, Ep, El. unfold MapInterface.handleStartDrawing.
      rewrite Hm. cbn. auto. }
    destruct H1 as (A & B & C & D).
    exact (proj1 (clicks_accumulate ps [] st1 A B C D)).
Qed.

(** C5 on the sample drawing: three corners clicked, then "finish". *)
Lemma finish_needs_three_points_sample :
  exists st',
    MapInterface.handleFinishDrawing Sample.drawn3
    = (st', Some [Sample.p1; Sample.p2; Sample.p3])
    /\ MapInterface.isDrawing st' = false
    /\ MapInterface.drawingPoints st' = []
    /\ MapInterface.clickListener st' = false.
Proof.
  refine (proj1 (proj2 (finish_needs_three_points Sample.drawn3
                          (fire_all_reachable _ _
                             MapInterface.reachable_initial))) _).
  vm_compute. discriminate.
Defined.

(** Two points are not enough: "finish" changes nothing. *)
Example finish_with_two_points :
  let st := MapInterface.fire_all
              [ MapInterface.MapReady; MapInterface.StartDrawing;
                MapInterface.MapClick (Some Sample.p1);
                MapInterface.MapClick (Some Sample.p2) ]
              MapInterface.initial in
  MapInterface.handleFinishDrawing st = (st, None)
  /\ MapInterface.isDrawing st = true
  /\ MapInterface.drawingPoints st = [Sample.p1; Sample.p2].
Proof. repeat split; reflexivity. Qed.

(* ================================================================== *)
(** * Comments and status *)
(* ================================================================== *)

(** C10. Adding a comment whose text is empty or white space only leaves
    the scenario unchanged ([onScenarioUpdate] is not called).  Adding a
    comment with any other text yields the scenario with exactly one
    comment appended at the end, carrying that text, and every other field
    as it was. *)
Theorem add_comment_appends_one
    (scenario : Scenario.t) (text : Js.JsString) (e : Js.Env) (p : Js.Pos) :
  let o := Js.run (StepCollaborate.handleAddComment scenario
                     (StepCollaborate.mk text)) e p in
  let s' := StepCollaborate.scenario_after scenario o in
  if Spec.blank text
  then StepCollaborate.updated o = None /\ s' = scenario
  else
    StepCollaborate.updated o = Some s'
    /\ (exists c,
          Comment.text c = text
          /\ Scenario.comments s' = Scenario.comments scenario ++ [c])
    /\ Scenario.id s' = Scenario.id scenario
    /\ Scenario.name s' = Scenario.name scenario
    /\ Scenario.timestamp s' = Scenario.timestamp scenario
    /\ Scenario.region s' = Scenario.region scenario
    /\ Scenario.greenZones s' = Scenario.greenZones scenario
    /\ Scenario.coverage s' = Scenario.coverage scenario
    /\ Scenario.sustainabilityScore s' = Scenario.sustainabilityScore scenario
    /\ Scenario.accessibilityScore s' = Scenario.accessibilityScore scenario
    /\ Scenario.populationServed s' = Scenario.populationServed scenario
    /\ Scenario.status s' = Scenario.status scenario.
Proof.
  cbv zeta. unfold StepCollaborate.handleAddComment, Js.run.
  cbn [StepCollaborate.newComment].
  destruct (Spec.blank text) eqn:Hb.
  - apply trim_falsy_iff in Hb. rewrite Hb. cbn. auto.
  - destruct (Js.truthy (Js.trim text)) eqn:Ht.
    + cbn. repeat apply conj; try reflexivity.
      eexists. split; [|reflexivity]. reflexivity.
    + apply trim_falsy_iff in Ht. congruence.
Qed.

Example add_comment_samples :
  let add t := StepCollaborate.scenario_after Sample.scenario
                 (Js.run (StepCollaborate.handleAddComment Sample.scenario
                            (StepCollaborate.mk t)) Sample.env Sample.start) in
  add [] = Sample.scenario
  /\ add [0x20; 0x09; 0x0A; 0xA0; 0x3000]%N = Sample.scenario
  /\ Scenario.comments (add (Js.lit " ok "))
     = [Comment.mk (Js.lit "comment-1700000000000") (Js.lit "Urban Planner")
                   (Js.lit " ok ") 1700000000001].
Proof. repeat split; reflexivity. Qed.

Lemma act_status (a : StepCollaborate.Action) (s : Scenario.t)
                 (e : Js.Env) (p : Js.Pos) :
  let s' := fst (StepCollaborate.act a s e p) in
  Scenario.status s' = Scenario.status s
  \/ Scenario.status s' = completed
  \/ Scenario.status s' = shared.
Proof.
  destruct a as [c|projectId onProjectUpdate fetchRejected|]; cbn.
  - unfold StepCollaborate.handleAddComment, Js.bind.
    cbn [StepCollaborate.newComment].
    destruct (negb (Js.truthy (Js.trim c))); cbn; auto.
  - unfold StepCollaborate.handleApprove.
    destruct (_ && onProjectUpdate); [destruct fetchRejected|]; cbn; auto.
  - auto.
Qed.

Lemma act_coverage (a : StepCollaborate.Action) (s : Scenario.t)
                   (e : Js.Env) (p : Js.Pos) :
  Scenario.coverage (fst (StepCollaborate.act a s e p)) = Scenario.coverage s.
Proof.
  destruct a as [c|projectId onProjectUpdate fetchRejected|]; cbn.
  - unfold StepCollaborate.handleAddComment, Js.bind.
    cbn [StepCollaborate.newComment].
    destruct (negb (Js.truthy (Js.trim c))); reflexivity.
  - unfold StepCollaborate.handleApprove.
    destruct (_ && onProjectUpdate); [destruct fetchRejected|]; reflexivity.
  - reflexivity.
Qed.

(** Whatever sequence of the step's handlers is applied to a scenario
    (adding comments, approving, sharing), its status does not go from
    completed or shared to draft. *)
Lemma act_all_never_regresses
    (acts : list StepCollaborate.Action) (s : Scenario.t)
    (e : Js.Env) (p : Js.Pos) :
  Spec.regressed (Scenario.status s)
    (Scenario.status (fst (StepCollaborate.act_all acts s e p))) = false.
Proof.
  revert s p.
  induction acts as [|a acts IH]; intros s p; cbn [StepCollaborate.act_all].
  - cbn. destruct (Scenario.status s); reflexivity.
  - unfold Js.bind. pose proof (act_status a s e p) as Ha. cbv zeta in Ha.
    destruct (StepCollaborate.act a s e p) as [s1 p1]. cbn [fst] in Ha.
    specialize (IH s1 p1).
    destruct (Scenario.status s), (Scenario.status s1),
      (Scenario.status (fst (StepCollaborate.act_all acts s1 e p1)));
      cbn in *; try reflexivity; try discriminate;
      destruct Ha as [Ha|[Ha|Ha]]; discriminate.
Qed.

(** What each handler of the step does to the status. *)
Lemma act_status_exact (a : StepCollaborate.Action) (s : Scenario.t)
                       (e : Js.Env) (p : Js.Pos) :
  let s' := fst (StepCollaborate.act a s e p) in
  match a with
  | StepCollaborate.AddComment _ => s' = s \/ exists c,
      s' = Scenario.with_comments s (Scenario.comments s ++ [c])
  | StepCollaborate.Approve _ _ _ => s' = Scenario.with_status s completed
  | StepCollaborate.Share => s' = Scenario.with_status s shared
  end.
Proof.
  destruct a as [c|projectId onProjectUpdate fetchRejected|]; cbn.
  - unfold StepCollaborate.handleAddComment, Js.bind.
    cbn [StepCollaborate.newComment].
    destruct (negb (Js.truthy (Js.trim c))); cbn; [left; reflexivity|].
    right. eexists. reflexivity.
  - unfold StepCollaborate.handleApprove.
    destruct (_ && onProjectUpdate); [destruct fetchRejected|]; reflexivity.
  - reflexivity.
Qed.

(** Through the elements on screen a status is kept or becomes completed:
    no element of the step sets shared. *)
Lemma click_all_status (acts : list StepCollaborate.Action) (s : Scenario.t)
                       (e : Js.Env) (p : Js.Pos) :
  let s' := fst (StepCollaborate.click_all acts s e p) in
  Scenario.status s' = Scenario.status s \/ Scenario.status s' = completed.
Proof.
  cbv zeta. revert s p.
  induction acts as [|a acts IH]; intros s p; cbn [StepCollaborate.click_all].
  - left. reflexivity.
  - unfold Js.bind.
    assert (Ha : let s1 := fst (StepCollaborate.click a s e p) in
                 Scenario.status s1 = Scenario.status s
                 \/ Scenario.status s1 = completed).
    { unfold StepCollaborate.click.
      destruct a as [c|projectId onProjectUpdate fetchRejected|]; cbn.
      - unfold StepCollaborate.handleAddComment, Js.bind.
        cbn [StepCollaborate.newComment].
        destruct (negb (Js.truthy (Js.trim c))); cbn; auto.
      - destruct (Scenario.status s) eqn:Es; cbn; auto;
          unfold StepCollaborate.handleApprove;
          (destruct (_ && onProjectUpdate); [destruct fetchRejected|]);
          cbn; auto.
      - auto. }
    cbv zeta in Ha.
    destruct (StepCollaborate.click a s e p) as [s1 p1]. cbn [fst] in Ha.
    destruct (IH s1 p1) as [H|H]; [|right; exact H].
    rewrite H. exact Ha.
Qed.

Example approve_then_comment_stays_completed :
  Scenario.status
    (Js.run (StepCollaborate.act_all
               [ StepCollaborate.Approve None false false;
                 StepCollaborate.AddComment (Js.lit "fine");
                 StepCollaborate.Share;
                 StepCollaborate.Approve (Some (Js.lit "7")) true true ]
               Sample.scenario) Sample.env Sample.start)
  = completed.
Proof. reflexivity. Qed.

(* ================================================================== *)
(** * The scenario generator *)
(* ================================================================== *)

(** C2. For every green-space target from 10 to 50, the generator makes
    exactly max(3, floor(target/8) + 1) green zones, whatever the region and
    the random draws, and the scenario of a run carries that many zones; a
    target of 25 gives 4 zones. *)
Theorem zone_count
    (e : Js.Env) (p : Js.Pos) (region : list LatLngLiteral.t)
    (st : StepRunAnalysis.State)
    (Htarget : 10 <= StepRunAnalysis.greenSpaceTarget st <= 50) :
  let target := StepRunAnalysis.greenSpaceTarget st in
  Z.of_nat (List.length
              (Js.run (StepRunAnalysis.generateMockGreenZones region target)
                      e p))
  = Z.max 3 (target / 8 + 1)
  /\ (exists s,
        StepRunAnalysis.generated e p (Some region) st = Some s
        /\ Z.of_nat (List.length (Scenario.greenZones s))
           = Z.max 3 (target / 8 + 1))
  /\ (target = 25 ->
      exists s,
        StepRunAnalysis.generated e p (Some region) st = Some s
        /\ List.length (Scenario.greenZones s) = 4%nat).
Proof.
  cbv zeta.
  pose proof (generateMockGreenZones_length region
                (StepRunAnalysis.greenSpaceTarget st) e p) as Hlen.
  pose proof (runAnalysis_region region st e p) as Hrun. cbv zeta in Hrun.
  unfold Js.run in Hlen.
  split; [exact Hlen|]. split.
  - eexists. split; [exact Hrun|]. cbn [Scenario.greenZones]. exact Hlen.
  - intros H25. eexists. split; [exact Hrun|]. cbn [Scenario.greenZones].
    rewrite H25 in Hlen. change (Z.max 3 (25 / 8 + 1)) with 4 in Hlen.
    rewrite H25. lia.
Qed.

(** C2 on the default state of the step, whose target is 25: 4 zones. *)
Lemma zone_count_default :
  Z.of_nat (List.length
              (Js.run (StepRunAnalysis.generateMockGreenZones Sample.box 25)
                      Sample.env Sample.start))
  = 4
  /\ (exists s,
        StepRunAnalysis.generated Sample.env Sample.start (Some Sample.box)
          StepRunAnalysis.initial = Some s
        /\ Z.of_nat (List.length (Scenario.greenZones s)) = 4)
  /\ (25 = 25 ->
      exists s,
        StepRunAnalysis.generated Sample.env Sample.start (Some Sample.box)
          StepRunAnalysis.initial = Some s
        /\ List.length (Scenario.greenZones s) = 4%nat).
Proof.
  refine (zone_count Sample.env Sample.start Sample.box
            StepRunAnalysis.initial _).
  cbn. lia.
Defined.

(** The zone counts over the slider's range. *)
Example zone_counts_of_slider :
  List.map StepRunAnalysis.numZones [10; 15; 20; 25; 30; 35; 40; 45; 50]
  = [3; 3; 3; 4; 4; 5; 6; 6; 7].
Proof. reflexivity. Qed.

(** C6. The coverage of a generated scenario is the configured
    green-space target, verbatim, whatever the region, the zones and the
    draws; no later operation on the scenario changes it, and the payload of
    a save carries it as it is. *)
Theorem coverage_is_target
    (e : Js.Env) (p : Js.Pos) (region : list LatLngLiteral.t)
    (st : StepRunAnalysis.State) :
  (exists s,
     StepRunAnalysis.generated e p (Some region) st = Some s
     /\ Scenario.coverage s = StepRunAnalysis.greenSpaceTarget st)
  /\ (forall (acts : list StepCollaborate.Action) (s : Scenario.t)
             (e' : Js.Env) (p' : Js.Pos),
        Scenario.coverage (Js.run (StepCollaborate.act_all acts s) e' p')
        = Scenario.coverage s)
  /\ (forall (s : Scenario.t) (regionName : Js.JsString),
        Scenario.coverage
          (ProjectData.scenario (App.projectData e s regionName))
        = Scenario.coverage s).
Proof.
  split; [|split].
  - pose proof (runAnalysis_region region st e p) as Hrun. cbv zeta in Hrun.
    eexists. split; [exact Hrun | reflexivity].
  - intros acts s e' p'. unfold Js.run. revert s p'.
    induction acts as [|a acts IH]; intros s p'; cbn [StepCollaborate.act_all].
    + reflexivity.
    + unfold Js.bind. pose proof (act_coverage a s e' p') as Ha.
      destruct (StepCollaborate.act a s e' p') as [s1 p1]. cbn [fst] in Ha.
      rewrite IH. exact Ha.
  - reflexivity.
Qed.

(** C8. The generator does not read the priority: two runs that differ
    only in [priorityType], on the same region, target, draws and clock,
    yield the same scenario (or both none, without a region). *)
Theorem priority_is_ignored
    (e : Js.Env) (p : Js.Pos)
    (selectedRegion : option (list LatLngLiteral.t))
    (st : StepRunAnalysis.State) (priority1 priority2 : Js.JsString) :
  StepRunAnalysis.generated e p selectedRegion
    (StepRunAnalysis.setPriorityType priority1 st)
  = StepRunAnalysis.generated e p selectedRegion
      (StepRunAnalysis.setPriorityType priority2 st).
Proof.
  destruct selectedRegion as [region|]; [|reflexivity].
  rewrite !runAnalysis_region. reflexivity.
Qed.

(** C9. With every draw of [Math.random()] a double in [0,1), a generated
    scenario has its sustainability score in 70..99, its accessibility
    score in 75..99 and its population served in 100000..149999. *)
Theorem scores_in_range
    (e : Js.Env) (p : Js.Pos) (region : list LatLngLiteral.t)
    (st : StepRunAnalysis.State)
    (Hdraws : forall k : nat, Js.draw_ok (Js.random e k)) :
  exists s,
    StepRunAnalysis.generated e p (Some region) st = Some s
    /\ 70 <= Scenario.sustainabilityScore s <= 99
    /\ 75 <= Scenario.accessibilityScore s <= 99
    /\ 100000 <= Scenario.populationServed s <= 149999.
Proof.
  pose proof (runAnalysis_region region st e p) as Hrun. cbv zeta in Hrun.
  eexists. split; [exact Hrun|].
  cbn [Scenario.sustainabilityScore Scenario.accessibilityScore
       Scenario.populationServed].
  set (k := Js.draws _).
  pose proof (floor_times_range _ 30 (Hdraws k) ltac:(lia)).
  pose proof (floor_times_range _ 25 (Hdraws (S k)) ltac:(lia)).
  pose proof (floor_times_range _ 50000 (Hdraws (S (S k))) ltac:(lia)).
  lia.
Qed.

(** C9 on the sample environment and the sample box. *)
Lemma scores_in_range_sample :
  exists s,
    StepRunAnalysis.generated Sample.env Sample.start (Some Sample.box)
      StepRunAnalysis.initial = Some s
    /\ 70 <= Scenario.sustainabilityScore s <= 99
    /\ 75 <= Scenario.accessibilityScore s <= 99
    /\ 100000 <= Scenario.populationServed s <= 149999.
Proof.
  exact (scores_in_range Sample.env Sample.start Sample.box
           StepRunAnalysis.initial sample_env_draws_ok).
Defined.

(* ================================================================== *)
(** * More on the drawing tool *)
(* ================================================================== *)

Lemma short_app {A} (ps : list A) (q : A) :
  (Z.of_nat (List.length (ps ++ [q])) <? 2)
  = match ps with [] => true | _ :: _ => false end.
Proof.
  rewrite length_app. destruct ps as [|a ps]; cbn [List.length]; [reflexivity|].
  apply Z.ltb_ge. lia.
Qed.

(** The preview polygon as the points held determine it. *)
Lemma preview_inv_reachable (st : MapInterface.State) :
  MapInterface.reachable st ->
  MapInterface.tempPolygonRef st
  = (if MapInterface.isDrawing st
        && negb (Z.of_nat (List.length (MapInterface.drawingPoints st)) <? 2)
     then Some (MapInterface.mkPolygon (MapInterface.drawingPoints st) true)
     else None)
  /\ (MapInterface.isDrawing st = false -> MapInterface.drawingPoints st = []).
Proof.
  induction 1 as [|st st' Hreach IH Hstep]; [split; reflexivity|].
  pose proof (drawing_inv_reachable st Hreach) as (Hl & Hp & Hd).
  destruct Hstep as [ev st Hen]. destruct IH as [IHref IHidle].
  destruct st as [m d ps l t]; cbn in Hl, Hp, Hd, IHref, IHidle, Hen.
  subst l t. clear Hreach.
  assert (Hfin : forall (b : bool) (x y : option MapInterface.Polygon)
                        (qs : list LatLngLiteral.t),
             x = y -> (b = false -> qs = []) ->
             x = y /\ (b = false -> qs = [])) by (intros; split; assumption).
  destruct d.
  - (* drawing: the map is there *)
    rewrite (Hl eq_refl) in *. clear Hl Hp IHidle.
    destruct ev; cbn in Hen; try discriminate;
      unfold MapInterface.handle, MapInterface.mapReady,
        MapInterface.mapClick, MapInterface.handleFinishDrawing,
        MapInterface.handleCancelDrawing, MapInterface.previewEffect;
      cbn.
    + destruct (Z.of_nat (List.length ps) <? 2) eqn:E; cbn; rewrite ?E; cbn;
        (split; [reflexivity | intros; discriminate]).
    + destruct latLng as [q|]; cbn.
      * destruct ps as [|a ps]; cbn; [split; [reflexivity | intros; discriminate]|].
        assert (E : (Z.pos (Pos.of_succ_nat (List.length (ps ++ [q]))) <? 2)
                    = false).
        { apply Z.ltb_ge. rewrite Zpos_P_of_succ_nat, length_app. cbn. lia. }
        rewrite ?E. cbn. rewrite ?E. cbn.
        split; [reflexivity | intros; discriminate].
      * destruct (Z.of_nat (List.length ps) <? 2) eqn:E; cbn; rewrite ?E; cbn;
          (split; [reflexivity | intros; discriminate]).
    + destruct (Z.of_nat (List.length ps) <? 3) eqn:E3; cbn;
        [|split; reflexivity].
      destruct (Z.of_nat (List.length ps) <? 2) eqn:E; cbn; rewrite ?E; cbn;
        (split; [reflexivity | intros; discriminate]).
    + split; reflexivity.
  - (* idle: no point is held *)
    rewrite (IHidle eq_refl) in *. clear IHidle Hl Hp.
    destruct ev; cbn in Hen;
      unfold MapInterface.handle, MapInterface.mapReady,
        MapInterface.handleStartDrawing,
        MapInterface.mapClick, MapInterface.handleFinishDrawing,
        MapInterface.handleCancelDrawing, MapInterface.previewEffect;
      cbn; rewrite ?orb_true_r; cbn.
    + split; reflexivity.
    + destruct m; cbn; (split; [reflexivity | intros; try discriminate; reflexivity]).
    + split; reflexivity.
    + split; reflexivity.
    + destruct m; cbn; split; reflexivity.
Qed.

(** X1. In every state the drawing tool can reach, the preview polygon
    follows the points held: while drawing with two points or more it is
    on the map with exactly those points, in order; with fewer points, or
    outside drawing mode, there is none.  Outside drawing mode no point is
    held and no click listener is attached. *)
Theorem preview_tracks_points
    (st : MapInterface.State) (Hreach : MapInterface.reachable st) :
  (MapInterface.isDrawing st = true ->
   2 <= Z.of_nat (List.length (MapInterface.drawingPoints st)) ->
   MapInterface.tempPolygonRef st
   = Some (MapInterface.mkPolygon (MapInterface.drawingPoints st) true))
  /\ (MapInterface.isDrawing st = true ->
      Z.of_nat (List.length (MapInterface.drawingPoints st)) < 2 ->
      MapInterface.tempPolygonRef st = None)
  /\ (MapInterface.isDrawing st = false ->
      MapInterface.tempPolygonRef st = None
      /\ MapInterface.drawingPoints st = []
      /\ MapInterface.clickListener st = false).
Proof.
  destruct (preview_inv_reachable st Hreach) as [Href Hidle].
  pose proof (drawing_inv_reachable st Hreach) as (_ & _ & Hd).
  rewrite Href. split; [|split].
  - intros -> Hlen. cbn.
    destruct (_ <? 2) eqn:E; [apply Z.ltb_lt in E; lia | reflexivity].
  - intros -> Hlen. apply Z.ltb_lt in Hlen. rewrite Hlen. reflexivity.
  - intros Hidle'. rewrite Hidle'. cbn.
    repeat split; [apply Hidle; exact Hidle' | congruence].
Qed.

Lemma preview_tracks_points_sample :
  MapInterface.tempPolygonRef Sample.drawn3
  = Some (MapInterface.mkPolygon [Sample.p1; Sample.p2; Sample.p3] true).
Proof.
  refine (proj1 (preview_tracks_points Sample.drawn3
                   (fire_all_reachable _ _ MapInterface.reachable_initial))
                _ _).
  - reflexivity.
  - vm_compute. discriminate.
Defined.

Lemma clicks_ignored_when_idle (clicks : list (option LatLngLiteral.t))
                               (st : MapInterface.State) :
  MapInterface.clickListener st = false ->
  MapInterface.isDrawing st = false ->
  MapInterface.fire_all (List.map MapInterface.MapClick clicks) st = st.
Proof.
  intros Hl Hd. unfold MapInterface.fire_all.
  induction clicks as [|c clicks IH]; cbn [List.map fold_left]; [reflexivity|].
  assert (H1 : MapInterface.fire st (MapInterface.MapClick c) = st).
  { unfold MapInterface.fire. cbn. unfold MapInterface.mapClick. rewrite Hl.
    unfold MapInterface.previewEffect. rewrite Hd, orb_true_r. reflexivity. }
  rewrite H1. exact IH.
Qed.

(** X2. In every state the drawing tool can reach, "cancel" leaves
    drawing mode with no point held, no listener and no preview, and the
    clicks on the map that follow add nothing, whatever they are, until
    "Select Region" is clicked again; the same holds after a "finish" that
    emitted a region. *)
Theorem cancel_discards_points
    (st : MapInterface.State) (Hreach : MapInterface.reachable st)
    (clicks : list (option LatLngLiteral.t)) :
  let idle := MapInterface.mk (MapInterface.map st) false [] false None in
  MapInterface.handleCancelDrawing st = idle
  /\ MapInterface.fire_all (List.map MapInterface.MapClick clicks)
       (MapInterface.handleCancelDrawing st) = idle
  /\ (forall region,
        snd (MapInterface.handleFinishDrawing st) = Some region ->
        MapInterface.fire_all (List.map MapInterface.MapClick clicks)
          (fst (MapInterface.handleFinishDrawing st)) = idle).
Proof.
  cbv zeta.
  pose proof (drawing_inv_reachable st Hreach) as (Hl & Hp & Hd).
  destruct (preview_inv_reachable st Hreach) as [Href Hidle].
  assert (Hc : MapInterface.handleCancelDrawing st
               = MapInterface.mk (MapInterface.map st) false [] false None).
  { unfold MapInterface.handleCancelDrawing.
    destruct (MapInterface.map st) eqn:Em; [reflexivity|].
    destruct st as [m d ps l t]; cbn in *. subst m.
    assert (l = false) as -> by (destruct l; [discriminate (Hl eq_refl) | reflexivity]).
    subst d. rewrite (Hidle eq_refl) in *. cbn in Href. subst t. reflexivity. }
  split; [exact Hc|]. split.
  - rewrite Hc. apply clicks_ignored_when_idle; reflexivity.
  - unfold MapInterface.handleFinishDrawing.
    destruct (negb (MapInterface.map st) || _); cbn; [discriminate|].
    intros _ _. apply clicks_ignored_when_idle; reflexivity.
Qed.

Lemma cancel_discards_points_sample :
  let idle := MapInterface.mk true false [] false None in
  MapInterface.handleCancelDrawing Sample.drawn3 = idle
  /\ MapInterface.fire_all
       (List.map MapInterface.MapClick [Some Sample.p4; None; Some Sample.p1])
       (MapInterface.handleCancelDrawing Sample.drawn3) = idle
  /\ (forall region,
        snd (MapInterface.handleFinishDrawing Sample.drawn3) = Some region ->
        MapInterface.fire_all
          (List.map MapInterface.MapClick [Some Sample.p4; None; Some Sample.p1])
          (fst (MapInterface.handleFinishDrawing Sample.drawn3)) = idle).
Proof.
  exact (cancel_discards_points Sample.drawn3
           (fire_all_reachable _ _ MapInterface.reachable_initial)
           [Some Sample.p4; None; Some Sample.p1]).
Defined.

(* ================================================================== *)
(** * More on the terrain stub and the generator *)
(* ================================================================== *)

(** X3. With every draw of [Math.random()] a double in [0,1), the
    terrain stub hands on the region it was given, unchanged, with a
    record whose elevation is in 0..499, whose slope is in 0..29 and whose
    soil type is one of Clay, Sand, Loam and Silt. *)
Theorem terrain_in_range
    (e : Js.Env) (p : Js.Pos) (region : list LatLngLiteral.t)
    (Hdraws : forall k : nat, Js.draw_ok (Js.random e k)) :
  let rt := Js.run (StepSelectArea.handleRegionSelect region) e p in
  fst rt = region
  /\ 0 <= TerrainData.elevation (snd rt) <= 499
  /\ 0 <= TerrainData.slope (snd rt) <= 29
  /\ In (TerrainData.soilType (snd rt)) StepSelectArea.soilTypes.
Proof.
  cbv zeta. unfold Js.run, StepSelectArea.handleRegionSelect.
  cbn [Js.bind Js.Math_random Js.ret fst snd Js.draws Js.reads
       TerrainData.elevation TerrainData.slope TerrainData.soilType].
  set (k := Js.draws p).
  pose proof (floor_times_range _ 500 (Hdraws k) ltac:(lia)) as He.
  pose proof (floor_times_range _ 30 (Hdraws (S k)) ltac:(lia)) as Hs.
  pose proof (floor_times_range _ 4 (Hdraws (S (S k))) ltac:(lia)) as Hk.
  repeat apply conj; try reflexivity; try lia.
  apply nth_In. cbn [List.length StepSelectArea.soilTypes]. lia.
Qed.

Lemma terrain_in_range_sample :
  let rt := Js.run (StepSelectArea.handleRegionSelect Sample.box)
                   Sample.env Sample.start in
  fst rt = Sample.box
  /\ 0 <= TerrainData.elevation (snd rt) <= 499
  /\ 0 <= TerrainData.slope (snd rt) <= 29
  /\ In (TerrainData.soilType (snd rt)) StepSelectArea.soilTypes.
Proof.
  exact (terrain_in_range Sample.env Sample.start Sample.box
           sample_env_draws_ok).
Defined.

(** The type of the zone of index [i]. *)
Lemma zoneType_cases (i : Z) :
  let t := nth (Z.to_nat (i mod Z.of_nat (List.length StepRunAnalysis.zoneTypes)))
               StepRunAnalysis.zoneTypes park in
  (i mod 4 = 0 /\ t = park) \/ (i mod 4 = 1 /\ t = garden)
  \/ (i mod 4 = 2 /\ t = forest) \/ (i mod 4 = 3 /\ t = wetland).
Proof.
  cbv zeta. cbn [List.length StepRunAnalysis.zoneTypes Z.of_nat].
  change (Z.pos (Pos.of_succ_nat 3)) with 4.
  pose proof (Z.mod_pos_bound i 4 ltac:(lia)) as Hb.
  assert (Hc : i mod 4 = 0 \/ i mod 4 = 1 \/ i mod 4 = 2 \/ i mod 4 = 3)
    by lia.
  destruct Hc as [H|[H|[H|H]]]; rewrite H; cbn; auto 10.
Qed.

(** One round of the loop, spelled out. *)
Lemma zone_spec (b : StepRunAnalysis.Bounds) (n i : Z)
                (e : Js.Env) (p : Js.Pos) :
  let z := fst (StepRunAnalysis.zone b n i e p) in
  let t := nth (Z.to_nat (i mod Z.of_nat (List.length StepRunAnalysis.zoneTypes)))
               StepRunAnalysis.zoneTypes park in
  snd (StepRunAnalysis.zone b n i e p)
  = Js.mkPos (S (S (Js.draws p))) (Js.reads p)
  /\ GreenZone.id z = Js.lit "zone-" ++ Js.number_to_string i
  /\ GreenZone.type z = t
  /\ GreenZone.name z
     = nth (Z.to_nat (Js.floor_times (Js.random e (Js.draws p))
                        (Z.of_nat (List.length (StepRunAnalysis.zoneNames t)))))
           (StepRunAnalysis.zoneNames t) []
  /\ GreenZone.area z
     = Js.floor_times (Js.random e (S (Js.draws p))) 30000 + 15000
  /\ List.length (GreenZone.coordinates z) = 4%nat.
Proof.
  cbv zeta. unfold StepRunAnalysis.zone.
  cbn [Js.bind Js.Math_random Js.ret fst snd Js.draws Js.reads
       GreenZone.id GreenZone.type GreenZone.name GreenZone.area
       GreenZone.coordinates List.length].
  repeat apply conj; reflexivity.
Qed.

(** What holds of every round holds of every zone made. *)
Lemma zonesFrom_Forall (P : GreenZone.t -> Prop)
                       (b : StepRunAnalysis.Bounds) (n : Z) (e : Js.Env)
                       (HP : forall i p, P (fst (StepRunAnalysis.zone b n i e p)))
                       (rounds : nat) (i : Z) (zones : list GreenZone.t)
                       (p : Js.Pos) :
  Forall P zones ->
  Forall P (fst (StepRunAnalysis.zonesFrom rounds b n i zones e p)).
Proof.
  revert i zones p.
  induction rounds as [|rounds IH]; intros i zones p Hz;
    cbn [StepRunAnalysis.zonesFrom]; [exact Hz|].
  unfold Js.bind at 1. specialize (HP i p).
  destruct (StepRunAnalysis.zone b n i e p) as [z p']. cbn [fst] in HP.
  apply IH. apply Forall_app. split; [exact Hz|]. constructor; [exact HP|constructor].
Qed.

(** X4. With every draw a double in [0,1), every zone the generator
    makes has an area from 15000 to 44999 (so a positive one), exactly four
    corner points, and a name taken from the four names of its type,
    whatever the region and the target. *)
Theorem zones_well_formed
    (e : Js.Env) (p : Js.Pos) (region : list LatLngLiteral.t)
    (targetCoverage : Z)
    (Hdraws : forall k : nat, Js.draw_ok (Js.random e k)) :
  Forall (fun z =>
            15000 <= GreenZone.area z <= 44999
            /\ List.length (GreenZone.coordinates z) = 4%nat
            /\ In (GreenZone.name z)
                  (StepRunAnalysis.zoneNames (GreenZone.type z)))
         (Js.run (StepRunAnalysis.generateMockGreenZones region targetCoverage)
                 e p).
Proof.
  unfold Js.run, StepRunAnalysis.generateMockGreenZones.
  apply zonesFrom_Forall; [|constructor].
  intros i q.
  destruct (zone_spec (StepRunAnalysis.bounds region)
              (StepRunAnalysis.numZones targetCoverage) i e q)
    as (_ & _ & Ht & Hn & Ha & Hc).
  rewrite Ha, Hc, Hn, Ht.
  pose proof (floor_times_range _ 30000 (Hdraws (S (Js.draws q)))
                ltac:(lia)) as Harea.
  split; [lia|]. split; [reflexivity|].
  set (t := nth _ StepRunAnalysis.zoneTypes park).
  assert (Hlen : List.length (StepRunAnalysis.zoneNames t) = 4%nat)
    by (destruct t; reflexivity).
  apply nth_In. rewrite Hlen.
  pose proof (floor_times_range (Js.random e (Js.draws q)) 4
                (Hdraws (Js.draws q)) ltac:(lia)).
  cbn [Z.of_nat]. change (Z.pos (Pos.of_succ_nat 3)) with 4. lia.
Qed.

Lemma zones_well_formed_sample :
  Forall (fun z =>
            15000 <= GreenZone.area z <= 44999
            /\ List.length (GreenZone.coordinates z) = 4%nat
            /\ In (GreenZone.name z)
                  (StepRunAnalysis.zoneNames (GreenZone.type z)))
         (Js.run (StepRunAnalysis.generateMockGreenZones Sample.box 25)
                 Sample.env Sample.start).
Proof.
  exact (zones_well_formed Sample.env Sample.start Sample.box 25
           sample_env_draws_ok).
Defined.

(** The zone at each index, through the loop. *)
Lemma zonesFrom_nth (Q : Z -> GreenZone.t -> Prop)
                    (b : StepRunAnalysis.Bounds) (n : Z) (e : Js.Env)
                    (HQ : forall i p, Q i (fst (StepRunAnalysis.zone b n i e p)))
                    (rounds : nat) (i : Z) (zones : list GreenZone.t)
                    (p : Js.Pos) :
  (forall j z, nth_error zones j = Some z ->
               Q (i - Z.of_nat (List.length zones) + Z.of_nat j) z) ->
  forall j z,
    nth_error (fst (StepRunAnalysis.zonesFrom rounds b n i zones e p)) j
    = Some z ->
    Q (i - Z.of_nat (List.length zones) + Z.of_nat j) z.
Proof.
  revert i zones p.
  induction rounds as [|rounds IH]; intros i zones p Hz;
    cbn [StepRunAnalysis.zonesFrom]; [exact Hz|].
  unfold Js.bind at 1. specialize (HQ i p).
  destruct (StepRunAnalysis.zone b n i e p) as [z' p']. cbn [fst] in HQ.
  intros j z Hj.
  specialize (IH (i + 1) (zones ++ [z']) p').
  rewrite length_app in IH. cbn [List.length] in IH.
  replace (i - Z.of_nat (List.length zones) + Z.of_nat j)
    with (i + 1 - Z.of_nat (List.length zones + 1) + Z.of_nat j) by lia.
  apply IH; [|exact Hj].
  intros k y Hk.
  replace (i + 1 - Z.of_nat (List.length zones + 1) + Z.of_nat k)
    with (i - Z.of_nat (List.length zones) + Z.of_nat k) by lia.
  destruct (Nat.lt_ge_cases k (List.length zones)) as [Hlt|Hge].
  - rewrite nth_error_app1 in Hk by exact Hlt. apply Hz; exact Hk.
  - rewrite nth_error_app2 in Hk by exact Hge.
    destruct (k - List.length zones)%nat as [|d] eqn:Ed.
    + cbn in Hk. injection Hk as <-.
      replace (i - Z.of_nat (List.length zones) + Z.of_nat k) with i by lia.
      exact HQ.
    + cbn in Hk. destruct d; discriminate.
Qed.

(** X5. The zones come out in the order of their index: the zone at
    position [j] has the id "zone-j", and its type is park, garden, forest
    or wetland as [j] is 0, 1, 2 or 3 modulo 4, whatever the region, the
    target and the draws. *)
Theorem zones_numbered_and_typed
    (e : Js.Env) (p : Js.Pos) (region : list LatLngLiteral.t)
    (targetCoverage : Z) (j : nat) (z : GreenZone.t)
    (Hj : nth_error
            (Js.run (StepRunAnalysis.generateMockGreenZones region
                       targetCoverage) e p) j = Some z) :
  GreenZone.id z = Js.lit "zone-" ++ Js.number_to_string (Z.of_nat j)
  /\ GreenZone.type z = nth (j mod 4) [park; garden; forest; wetland] park.
Proof.
  unfold Js.run, StepRunAnalysis.generateMockGreenZones in Hj.
  pose proof (zonesFrom_nth
                (fun i z =>
                   GreenZone.id z = Js.lit "zone-" ++ Js.number_to_string i
                   /\ GreenZone.type z
                      = nth (Z.to_nat (i mod 4)) [park; garden; forest; wetland]
                            park)
                (StepRunAnalysis.bounds region)
                (StepRunAnalysis.numZones targetCoverage) e) as H.
  cbv beta in H.
  assert (HQ : forall i q,
             GreenZone.id (fst (StepRunAnalysis.zone
                                  (StepRunAnalysis.bounds region)
                                  (StepRunAnalysis.numZones targetCoverage)
                                  i e q))
             = Js.lit "zone-" ++ Js.number_to_string i
             /\ GreenZone.type (fst (StepRunAnalysis.zone
                                       (StepRunAnalysis.bounds region)
                                       (StepRunAnalysis.numZones targetCoverage)
                                       i e q))
                = nth (Z.to_nat (i mod 4)) [park; garden; forest; wetland] park).
  { intros i q.
    destruct (zone_spec (StepRunAnalysis.bounds region)
                (StepRunAnalysis.numZones targetCoverage) i e q)
      as (_ & Hid & Ht & _).
    split; [exact Hid | exact Ht]. }
  specialize (H HQ _ 0 [] p ltac:(intros k y Hk; destruct k; discriminate)
                j z Hj).
  cbn [List.length Z.of_nat] in H.
  replace (0 - 0 + Z.of_nat j) with (Z.of_nat j) in H by lia.
  destruct H as [Hid Ht]. split; [exact Hid|].
  rewrite Ht. f_equal.
  change 4 with (Z.of_nat 4). rewrite <- Nat2Z.inj_mod. apply Nat2Z.id.
Qed.

Lemma zones_numbered_and_typed_sample :
  exists z,
    nth_error
      (Js.run (StepRunAnalysis.generateMockGreenZones Sample.box 50)
              Sample.env Sample.start) 6 = Some z
    /\ GreenZone.id z = Js.lit "zone-6" /\ GreenZone.type z = forest.
Proof.
  assert (H : { z | nth_error
                      (Js.run (StepRunAnalysis.generateMockGreenZones
                                 Sample.box 50) Sample.env Sample.start) 6
                    = Some z }).
  { eexists. vm_compute. reflexivity. }
  destruct H as [z Hz]. exists z. split; [exact Hz|].
  exact (zones_numbered_and_typed Sample.env Sample.start Sample.box 50 6 z Hz).
Defined.

(** X6. For every whole target of at most 2^31 in magnitude, zero and
    negative ones included, the generator makes at least three zones:
    exactly three for every target below 24, and floor(target/8) + 1 from
    24 on, also beyond the 50 at which the slider of the control panel
    ends.  In this range the doubles of the source compute the count
    exactly, and the zones fit an array. *)
Theorem at_least_three_zones
    (e : Js.Env) (p : Js.Pos) (region : list LatLngLiteral.t)
    (targetCoverage : Z)
    (Hrange : - 2 ^ 31 <= targetCoverage <= 2 ^ 31) :
  let n := Z.of_nat (List.length
                       (Js.run (StepRunAnalysis.generateMockGreenZones
                                  region targetCoverage) e p)) in
  3 <= n
  /\ (targetCoverage < 24 -> n = 3)
  /\ (24 <= targetCoverage -> n = targetCoverage / 8 + 1).
Proof.
  cbv zeta. rewrite generateMockGreenZones_length.
  split; [lia|]. split; intros H.
  - assert (targetCoverage / 8 < 3) by (apply Z.div_lt_upper_bound; lia). lia.
  - assert (3 <= targetCoverage / 8) by (apply Z.div_le_lower_bound; lia). lia.
Qed.

Lemma at_least_three_zones_sample :
  let n := Z.of_nat (List.length
                       (Js.run (StepRunAnalysis.generateMockGreenZones
                                  Sample.box 0) Sample.env Sample.start)) in
  3 <= n /\ (0 < 24 -> n = 3) /\ (24 <= 0 -> n = 0 / 8 + 1).
Proof.
  apply (at_least_three_zones Sample.env Sample.start Sample.box 0).
  split; vm_compute; discriminate.
Defined.

(** The count of the source on doubles, [Math.max(3, Math.floor(t / 8 + 1))],
    at the ends of the range and around the threshold. *)
Example zone_count_on_doubles :
  List.map
    (fun t =>
       Js.integral_value
         (Js.max2 3%float
            (Js.trunc_nonneg
               (PrimFloat.add (PrimFloat.div (Js.of_Z t) 8%float) 1%float))))
    [0; 23; 24; 50; 100; 2 ^ 31]
  = List.map (fun t => Some (StepRunAnalysis.numZones t))
             [0; 23; 24; 50; 100; 2 ^ 31].
Proof. vm_compute. reflexivity. Qed.

Lemma zone_pos (b : StepRunAnalysis.Bounds) (n i : Z)
               (e : Js.Env) (p : Js.Pos) :
  snd (StepRunAnalysis.zone b n i e p)
  = Js.mkPos (S (S (Js.draws p))) (Js.reads p).
Proof. exact (proj1 (zone_spec b n i e p)). Qed.

Lemma zonesFrom_pos (rounds : nat) (b : StepRunAnalysis.Bounds) (n i : Z)
                    (zones : list GreenZone.t) (e : Js.Env) (p : Js.Pos) :
  snd (StepRunAnalysis.zonesFrom rounds b n i zones e p)
  = Js.mkPos (Js.draws p + 2 * rounds) (Js.reads p).
Proof.
  revert i zones p.
  induction rounds as [|rounds IH]; intros i zones p;
    cbn [StepRunAnalysis.zonesFrom].
  - cbn. destruct p. cbn. f_equal. lia.
  - unfold Js.bind at 1. pose proof (zone_pos b n i e p) as Hz.
    destruct (StepRunAnalysis.zone b n i e p) as [z p']. cbn [snd] in Hz.
    rewrite IH, Hz. cbn [Js.draws Js.reads]. f_equal. lia.
Qed.

(** X7. Without a selected region [runAnalysis] does nothing: no
    scenario is handed over, the state of the step is as before, and
    neither the random source nor the clock is read.  With a region it
    always hands over a scenario, a draft without comments that carries the
    region as given and whose id is "scenario-" followed by the first clock
    read; it leaves the progress at 100 with [isRunning] false, after two
    draws per zone and three more, and three clock reads. *)
Theorem run_analysis_outcome
    (st : StepRunAnalysis.State) (e : Js.Env) (p : Js.Pos) :
  StepRunAnalysis.runAnalysis None st e p = ((st, None), p)
  /\ (forall region : list LatLngLiteral.t,
        exists s,
          StepRunAnalysis.runAnalysis (Some region) st e p
          = ((StepRunAnalysis.mk false (StepRunAnalysis.greenSpaceTarget st)
                (StepRunAnalysis.priorityType st) 100,
              Some s),
             Js.mkPos
               (Js.draws p
                + 2 * Z.to_nat (StepRunAnalysis.numZones
                                  (StepRunAnalysis.greenSpaceTarget st))
                + 3)
               (Js.reads p + 3))
          /\ Scenario.status s = draft
          /\ Scenario.comments s = []
          /\ Scenario.region s = region
          /\ Scenario.id s
             = Js.lit "scenario-" ++ Js.number_to_string (Js.clock e (Js.reads p))).
Proof.
  split; [reflexivity|]. intros region.
  unfold StepRunAnalysis.runAnalysis.
  cbn [fold_left StepRunAnalysis.steps StepRunAnalysis.setProgress
       StepRunAnalysis.setIsRunning StepRunAnalysis.greenSpaceTarget
       StepRunAnalysis.priorityType StepRunAnalysis.isRunning
       StepRunAnalysis.progress].
  unfold Js.bind at 1.
  pose proof (zonesFrom_pos
                (Z.to_nat (StepRunAnalysis.numZones
                             (StepRunAnalysis.greenSpaceTarget st)))
                (StepRunAnalysis.bounds region)
                (StepRunAnalysis.numZones (StepRunAnalysis.greenSpaceTarget st))
                0 [] e p) as Hpos.
  unfold StepRunAnalysis.generateMockGreenZones.
  destruct (StepRunAnalysis.zonesFrom _ _ _ 0 [] e p) as [zones q].
  cbn [snd] in Hpos. subst q.
  cbn [Js.bind Js.Date_now Js.locale_date Js.Math_random Js.ret
       Js.draws Js.reads].
  unfold Js.ret, StepRunAnalysis.setIsRunning, StepRunAnalysis.setProgress.
  cbn [StepRunAnalysis.greenSpaceTarget StepRunAnalysis.priorityType
       StepRunAnalysis.isRunning StepRunAnalysis.progress].
  eexists. split.
  - apply f_equal2; [reflexivity|]. f_equal; lia.
  - cbn [Scenario.status Scenario.comments Scenario.region Scenario.id]. auto.
Qed.

(* ================================================================== *)
(** * More on comments and approval *)
(* ================================================================== *)

(** The texts of the comments a sequence of operations adds. *)
Lemma act_comments (a : StepCollaborate.Action) (s : Scenario.t)
                   (e : Js.Env) (p : Js.Pos) :
  exists added,
    Scenario.comments (fst (StepCollaborate.act a s e p))
    = Scenario.comments s ++ added
    /\ List.map Comment.text added
       = match a with
         | StepCollaborate.AddComment c => if Spec.blank c then [] else [c]
         | _ => []
         end
    /\ Forall (fun c => Comment.author c = Js.lit "Urban Planner") added.
Proof.
  destruct a as [c|projectId onProjectUpdate fetchRejected|]; cbn.
  - unfold StepCollaborate.handleAddComment, Js.bind.
    cbn [StepCollaborate.newComment].
    destruct (Spec.blank c) eqn:Hb.
    + apply trim_falsy_iff in Hb. rewrite Hb. cbn.
      exists []. rewrite app_nil_r. auto.
    + destruct (Js.truthy (Js.trim c)) eqn:Ht.
      * cbn. eexists. split; [reflexivity|]. split; [reflexivity|].
        constructor; [reflexivity | constructor].
      * apply trim_falsy_iff in Ht. congruence.
  - exists []. rewrite app_nil_r.
    unfold StepCollaborate.handleApprove.
    destruct (_ && onProjectUpdate); [destruct fetchRejected|]; cbn; auto.
  - exists []. rewrite app_nil_r. auto.
Qed.

(** X8. Comments are only ever appended: after any sequence of the
    step's operations the comments the scenario had are still there, first
    and in order, followed by one comment for each non-blank text added, in
    the order added, each with its text as typed and "Urban Planner" as the
    author.  Nothing edits or deletes a comment. *)
Theorem comments_append_only
    (acts : list StepCollaborate.Action) (s : Scenario.t)
    (e : Js.Env) (p : Js.Pos) :
  exists added,
    Scenario.comments (Js.run (StepCollaborate.act_all acts s) e p)
    = Scenario.comments s ++ added
    /\ List.map Comment.text added
       = flat_map (fun a =>
                     match a with
                     | StepCollaborate.AddComment c =>
                         if Spec.blank c then [] else [c]
                     | _ => []
                     end) acts
    /\ Forall (fun c => Comment.author c = Js.lit "Urban Planner") added.
Proof.
  unfold Js.run. revert s p.
  induction acts as [|a acts IH]; intros s p; cbn [StepCollaborate.act_all flat_map].
  - exists []. cbn. rewrite app_nil_r. auto.
  - unfold Js.bind.
    destruct (act_comments a s e p) as (add1 & H1 & T1 & A1).
    destruct (StepCollaborate.act a s e p) as [s1 p1]. cbn [fst] in H1.
    destruct (IH s1 p1) as (add2 & H2 & T2 & A2).
    exists (add1 ++ add2). rewrite H2, H1, app_assoc, map_app, T1, T2.
    split; [reflexivity|]. split; [reflexivity|].
    apply Forall_app; split; assumption.
Qed.

(** X9. Approval is applied to the wizard's scenario in every case: the
    scenario handed to [onScenarioUpdate] is the old one with status
    completed and nothing else changed, also when the store cannot be
    reached.  The PUT is sent exactly when a non-empty project id and the
    refresh callback are both there; exactly one toast is shown, and it is
    the error toast exactly when the PUT was sent and failed at the
    network. *)
Theorem approve_applies_locally
    (scenario : Scenario.t) (projectId : option Js.JsString)
    (onProjectUpdate fetchRejected : bool) (st : StepCollaborate.State) :
  let o := StepCollaborate.handleApprove scenario projectId onProjectUpdate
             fetchRejected st in
  let sent := match projectId with
              | Some i => Js.truthy i
              | None => false
              end && onProjectUpdate in
  StepCollaborate.updated o
  = Some (Scenario.mk (Scenario.id scenario) (Scenario.name scenario)
            (Scenario.timestamp scenario) (Scenario.region scenario)
            (Scenario.greenZones scenario) (Scenario.coverage scenario)
            (Scenario.sustainabilityScore scenario)
            (Scenario.accessibilityScore scenario)
            (Scenario.populationServed scenario) completed
            (Scenario.comments scenario))
  /\ StepCollaborate.state o = st
  /\ existsb (fun ef => match ef with
                        | HttpRequest _ _ _ => true
                        | _ => false
                        end) (StepCollaborate.effects o) = sent
  /\ List.length (filter App.is_toast (StepCollaborate.effects o)) = 1%nat
  /\ existsb (fun ef => match ef with
                        | Toast error _ => true
                        | _ => false
                        end) (StepCollaborate.effects o)
     = sent && fetchRejected.
Proof.
  cbv zeta. unfold StepCollaborate.handleApprove.
  destruct (match projectId with Some i => Js.truthy i | None => false end
            && onProjectUpdate);
    [destruct fetchRejected|]; cbn; repeat split; reflexivity.
Qed.

(* ================================================================== *)
(** * More on the client and the project list *)
(* ================================================================== *)

(** The error taken from a body is its [detail] when that is truthy, and
    the text of the source otherwise. *)
Lemma errorOf_cases (body : Json.t) :
  (exists d, Json.property (Js.lit "detail") body = Some d
             /\ Json.truthy d = true /\ Api.errorOf body = Api.Detail d)
  \/ ((forall d, Json.property (Js.lit "detail") body = Some d ->
                 Json.truthy d = false)
      /\ Api.errorOf body = Api.defaultError).
Proof.
  unfold Api.errorOf.
  destruct (Json.property (Js.lit "detail") body) as [d|].
  - destruct (Json.truthy d) eqn:E.
    + left. exists d. auto.
    + right. split; [|reflexivity]. intros d' H. injection H as <-. exact E.
  - right. split; [|reflexivity]. intros d' H. discriminate H.
Qed.

(** X10. A response of the client never carries both data and an error;
    it carries no error exactly when the server answered with an OK status
    and a body that parsed; every failure on the way, a thrown [fetch] or
    an unparsable body, comes back as a response with status 0 and an
    error, never as an exception, and so does an answer that is not OK and
    whose body is null, since reading its [detail] throws.  An answer that
    is not OK with any other body keeps its status; its error is the
    [detail] of the body when that is truthy, whatever its type, and
    'An error occurred' otherwise. *)
Theorem response_data_or_error {T : Type} (o : Api.FetchOutcome T) :
  let r := Api.request o in
  (Api.data r <> None -> Api.error r = None)
  /\ (Api.error r = None <-> exists st body, o = Api.Ok st body)
  /\ (forall message, o = Api.Threw message ->
        Api.status r = 0 /\ Api.data r = None /\ Api.error r <> None)
  /\ (forall st, o = Api.NotOk st Json.Null ->
        Api.status r = 0 /\ Api.data r = None
        /\ Api.error r = Some Api.ReadOfNull)
  /\ (forall st body, o = Api.NotOk st body -> body <> Json.Null ->
        Api.status r = st /\ Api.data r = None
        /\ ((exists d, Json.property (Js.lit "detail") body = Some d
                       /\ Json.truthy d = true
                       /\ Api.error r = Some (Api.Detail d))
            \/ ((forall d, Json.property (Js.lit "detail") body = Some d ->
                           Json.truthy d = false)
                /\ Api.error r
                   = Some (Api.Message (Js.lit "An error occurred"))))).
Proof.
  cbv zeta. split; [|split; [|split; [|split]]].
  - destruct o as [[message|]|st [| | | | |]|st body]; cbn; intros H;
      try reflexivity; contradiction H; reflexivity.
  - split.
    + destruct o as [[message|]|st [| | | | |]|st body]; cbn; intros H;
        try discriminate H. eauto.
    + intros (st & body & ->). reflexivity.
  - intros message ->. destruct message; cbn.
    + split; [reflexivity|]. split; [reflexivity | discriminate].
    + split; [reflexivity|]. split; [reflexivity | discriminate].
  - intros st ->. cbn. auto.
  - intros st body -> Hbody.
    assert (Hr : @Api.request T (Api.NotOk st body)
                 = Api.mkResponse None (Some (Api.errorOf body)) st).
    { destruct body; try reflexivity. contradiction Hbody. reflexivity. }
    rewrite Hr. cbn [Api.status Api.data Api.error].
    split; [reflexivity|]. split; [reflexivity|].
    destruct (errorOf_cases body) as [(d & Hd & Ht & He)|(Hd & He)].
    + left. exists d. rewrite He. auto.
    + right. rewrite He. auto.
Qed.

(** The client on a refusal with a reason, on one with a list of reasons
    and on one with a body that is null. *)
Example refusals :
  Api.status (Api.request Cases.refused) = 404
  /\ Api.error (Api.request Cases.refused)
     = Some (Api.Detail (Json.String (Js.lit "Not Found")))
  /\ Api.status (Api.request Cases.unprocessable) = 422
  /\ (exists items, Api.error (Api.request Cases.unprocessable)
                    = Some (Api.Detail (Json.Array items)))
  /\ Api.status (Api.request Cases.refused_null) = 0
  /\ Api.error (Api.request Cases.refused_null) = Some Api.ReadOfNull.
Proof.
  split; [reflexivity|]. split; [reflexivity|]. split; [reflexivity|].
  split; [eexists; reflexivity|]. split; reflexivity.
Qed.

(** The POST a save sends. *)
Lemma save_log (e : Js.Env) (createReply : Api.FetchOutcome Project.t)
               (listReply : Api.FetchOutcome (list Project.t))
               (r : App.Running) (w : NewAnalysis.State) (s : Scenario.t) :
  App.wizard r = Some w ->
  NewAnalysis.scenario w = Some s ->
  Js.valid_time (Scenario.timestamp s) = true ->
  let post := HttpRequest (Js.lit "POST") (Js.lit "/api/projects/")
                (Some (CreateBody
                         (App.projectData e s (NewAnalysis.regionName w)))) in
  let r1 := App.clickSave e r in
  App.save e createReply listReply r
  = App.createSettled createReply listReply r1
  /\ App.log r1 = App.log r ++ [post]
  /\ App.projects (App.app r1) = App.projects (App.app r)
  /\ App.isLoading (App.app r1) = App.isLoading (App.app r).
Proof.
  intros Hw Hs Hv. cbv zeta.
  unfold App.save, App.clickSave, NewAnalysis.handleSave.
  rewrite Hw, Hs, Hv.
  unfold App.handleSaveProject, Js.Date_toISOString. rewrite Hv.
  cbn. auto.
Qed.

(** X11. A save of a scenario whose timestamp is a date, when its create
    fails, is silent: nothing follows the POST, no request, no toast and no
    line on the console, and the project list and the loading flag are as
    before. *)
Theorem failed_create_is_silent
    (e : Js.Env) (createReply : Api.FetchOutcome Project.t)
    (listReply : Api.FetchOutcome (list Project.t))
    (r : App.Running) (w : NewAnalysis.State) (s : Scenario.t)
    (Hw : App.wizard r = Some w)
    (Hs : NewAnalysis.scenario w = Some s)
    (Hvalid : Js.valid_time (Scenario.timestamp s) = true)
    (Hfail : Api.data (Api.request createReply) = None) :
  let r' := App.save e createReply listReply r in
  App.log r'
  = App.log r
      ++ [HttpRequest (Js.lit "POST") (Js.lit "/api/projects/")
            (Some (CreateBody
                     (App.projectData e s (NewAnalysis.regionName w))))]
  /\ App.projects (App.app r') = App.projects (App.app r)
  /\ App.isLoading (App.app r') = App.isLoading (App.app r).
Proof.
  cbv zeta.
  destruct (save_log e createReply listReply r w s Hw Hs Hvalid)
    as (Hsave & Hlog & Hps & Hld). cbv zeta in Hsave.
  rewrite Hsave. unfold App.createSettled. rewrite Hfail. auto.
Qed.

Lemma failed_create_is_silent_sample :
  let r' := App.save Sample.env Sample.unreachable Sample.no_list
              Sample.running in
  App.log r'
  = App.log Sample.running
      ++ [HttpRequest (Js.lit "POST") (Js.lit "/api/projects/")
            (Some (CreateBody
                     (App.projectData Sample.env Sample.scenario
                        (NewAnalysis.regionName Sample.wizard))))]
  /\ App.projects (App.app r') = App.projects (App.app Sample.running)
  /\ App.isLoading (App.app r') = App.isLoading (App.app Sample.running).
Proof.
  exact (failed_create_is_silent Sample.env Sample.unreachable Sample.no_list
           Sample.running Sample.wizard Sample.scenario
           eq_refl eq_refl eq_refl eq_refl).
Defined.




(** X14. Opening a project from the Past Projects page does not select
    it: the wizard opens on whatever was selected before.  After a project
    [p] was viewed from the dashboard and the page was changed by the
    sidebar, it opens on [p] at step 5, whichever project [q] was clicked;
    after the wizard was left by its own button, it opens afresh at step 1
    with nothing in it. *)
Theorem archive_view_ignores_project (p q : Project.t) (r : App.Running) :
  App.wizard
    (App.archiveViewProject q
       (App.setCurrentPage Page.projects (App.handleViewProject p r)))
  = Some (NewAnalysis.initial (Some p))
  /\ App.wizard
       (App.archiveViewProject q
          (App.setCurrentPage Page.projects (App.onCancel r)))
     = Some (NewAnalysis.mk 1 None [] None None).
Proof.
  destruct r as [a [w|] l]; split; reflexivity.
Qed.

(** X15. The download name of a scenario or a project, whatever the
    name and the engine's lower-casing: it holds no white space, it is the
    lower-cased name with each white-space code unit replaced by a hyphen,
    followed by ".json", so five code units longer than the lower-cased
    name. *)
Theorem file_name_has_no_whitespace
    (toLowerCase : Js.JsString -> Js.JsString) (name : Js.JsString) :
  forallb (fun c => negb (Js.is_whitespace c))
          (Download.fileName toLowerCase name) = true
  /\ Js.length (Download.fileName toLowerCase name)
     = Js.length (toLowerCase name) + 5
  /\ (forallb (fun c => negb (Js.is_whitespace c)) (toLowerCase name) = true ->
      Download.fileName toLowerCase name = toLowerCase name ++ Js.lit ".json").
Proof.
  unfold Download.fileName, Download.replace_whitespace.
  split; [|split].
  - rewrite forallb_app. apply andb_true_iff. split; [|reflexivity].
    induction (toLowerCase name) as [|c s IH]; [reflexivity|].
    cbn [List.map forallb]. rewrite IH, andb_true_r.
    destruct (Js.is_whitespace c) eqn:E; [reflexivity | rewrite E; reflexivity].
  - unfold Js.length. rewrite length_app, length_map. cbn. lia.
  - intros H. f_equal.
    induction (toLowerCase name) as [|c s IH]; [reflexivity|].
    cbn [forallb] in H. apply andb_true_iff in H as [Hc Hs].
    cbn [List.map]. rewrite (IH Hs).
    destruct (Js.is_whitespace c); [discriminate | reflexivity].
Qed.

Example file_name_sample :
  Download.fileName (fun s => s)
    (Js.lit "plan a" ++ [0x09%N] ++ Js.lit "2026")
  = Js.lit "plan-a-2026.json".
Proof. reflexivity. Qed.

(** X16. The counts of the dashboard: the completed, the draft and the
    shared projects add up to all projects, so the two counts shown leave
    out exactly the shared ones; the recent projects are the first three of
    the list, in order, and all of them when there are three or fewer. *)
Theorem dashboard_counts (projects : list Project.t) :
  Dashboard.completedCount projects + Dashboard.draftCount projects
  + Dashboard.count shared projects
  = Z.of_nat (List.length projects)
  /\ Dashboard.recentProjects projects ++ skipn 3 projects = projects
  /\ List.length (Dashboard.recentProjects projects)
     = Nat.min 3 (List.length projects)
  /\ ((List.length projects <= 3)%nat ->
      Dashboard.recentProjects projects = projects).
Proof.
  unfold Dashboard.completedCount, Dashboard.draftCount, Dashboard.count,
    Dashboard.recentProjects.
  split; [|split; [|split]].
  - induction projects as [|p ps IH]; [reflexivity|].
    cbn [filter List.length].
    destruct (Project.status p); cbn [Dashboard.status_eqb List.length];
      lia.
  - apply firstn_skipn.
  - apply length_firstn.
  - intros H. apply firstn_all2. exact H.
Qed.

(* ================================================================== *)
(** * The comparison of two scenarios *)
(* ================================================================== *)

Lemma string_eqb_iff (a b : Js.JsString) :
  ComparisonView.string_eqb a b = true <-> a = b.
Proof.
  unfold ComparisonView.string_eqb.
  destruct (list_eq_dec N.eq_dec a b); split; congruence.
Qed.

Lemma string_eqb_neq (a b : Js.JsString) :
  a <> b -> ComparisonView.string_eqb a b = false.
Proof.
  intros H. destruct (ComparisonView.string_eqb a b) eqn:E; [|reflexivity].
  apply string_eqb_iff in E. contradiction.
Qed.

Lemma string_eqb_refl (a : Js.JsString) : ComparisonView.string_eqb a a = true.
Proof. apply string_eqb_iff. reflexivity. Qed.

(** What a row of the chart holds under each key. *)
Lemma row_get (label : Js.JsString) (s1 s2 : Scenario.t) (v1 v2 : Z)
              (k : Js.JsString) :
  ComparisonView.get k (ComparisonView.row label s1 s2 v1 v2)
  = if ComparisonView.string_eqb k (Scenario.name s2)
    then Some (ComparisonView.Num v2)
    else if ComparisonView.string_eqb k (Scenario.name s1)
    then Some (ComparisonView.Num v1)
    else if ComparisonView.string_eqb k (Js.lit "metric")
    then Some (ComparisonView.Str label)
    else None.
Proof. reflexivity. Qed.

Lemma row_shows (label : Js.JsString) (s1 s2 : Scenario.t) (v1 v2 : Z) :
  let n1 := Scenario.name s1 in
  let n2 := Scenario.name s2 in
  let row := ComparisonView.row label s1 s2 v1 v2 in
  ComparisonView.shown n2 row = Some v2
  /\ ComparisonView.shown n1 row
     = Some (if ComparisonView.string_eqb n1 n2 then v2 else v1)
  /\ (forall k, k <> n1 -> k <> n2 ->
        ComparisonView.get k row
        = if ComparisonView.string_eqb k (Js.lit "metric")
          then Some (ComparisonView.Str label) else None).
Proof.
  cbv zeta. unfold ComparisonView.shown. split; [|split].
  - rewrite row_get, string_eqb_refl. reflexivity.
  - rewrite row_get.
    destruct (ComparisonView.string_eqb (Scenario.name s1) (Scenario.name s2));
      [reflexivity|].
    rewrite string_eqb_refl. reflexivity.
  - intros k Hk1 Hk2.
    rewrite row_get, (string_eqb_neq _ _ Hk2), (string_eqb_neq _ _ Hk1).
    reflexivity.
Qed.

(** X17. The rows of the metrics chart are keyed by the scenarios'
    names.  There are four rows, for coverage, sustainability,
    accessibility and ten times the number of zones.  Under the name of the
    second scenario a row shows the second scenario's value; under the name
    of the first it shows the first scenario's value when the two names
    differ, and the second scenario's when they are the same, as the names
    of two scenarios generated on one day are: the first scenario's values
    are then not in the chart.  Under every other key a row holds no
    number: its label under "metric", and nothing elsewhere. *)
Theorem same_name_hides_first_scenario
    (scenarios : list Scenario.t) (st : ComparisonView.State)
    (s1 s2 : Scenario.t)
    (H1 : ComparisonView.lookup (ComparisonView.scenario1Id st) scenarios
          = Some s1)
    (H2 : ComparisonView.lookup (ComparisonView.scenario2Id st) scenarios
          = Some s2) :
  let n1 := Scenario.name s1 in
  let n2 := Scenario.name s2 in
  Forall2
    (fun (row : ComparisonView.Obj) (lv : Js.JsString * (Z * Z)) =>
       ComparisonView.shown n2 row = Some (snd (snd lv))
       /\ ComparisonView.shown n1 row
          = Some (if ComparisonView.string_eqb n1 n2 then snd (snd lv)
                  else fst (snd lv))
       /\ (forall k, k <> n1 -> k <> n2 ->
             ComparisonView.get k row
             = if ComparisonView.string_eqb k (Js.lit "metric")
               then Some (ComparisonView.Str (fst lv)) else None))
    (ComparisonView.getMetricsData scenarios st)
    [ (Js.lit "Coverage", (Scenario.coverage s1, Scenario.coverage s2));
      (Js.lit "Sustainability",
       (Scenario.sustainabilityScore s1, Scenario.sustainabilityScore s2));
      (Js.lit "Accessibility",
       (Scenario.accessibilityScore s1, Scenario.accessibilityScore s2));
      (Js.lit "Green Zones",
       (Z.of_nat (List.length (Scenario.greenZones s1)) * 10,
        Z.of_nat (List.length (Scenario.greenZones s2)) * 10)) ].
Proof.
  cbv zeta. unfold ComparisonView.getMetricsData. rewrite H1, H2.
  unfold ComparisonView.zoneTotal.
  repeat (apply Forall2_cons; [exact (row_shows _ s1 s2 _ _)|]).
  apply Forall2_nil.
Qed.

Lemma same_name_hides_first_scenario_sample :
  let n1 := Scenario.name Sample.scenario in
  let n2 := Scenario.name Cases.scenario2 in
  Forall2
    (fun (row : ComparisonView.Obj) (lv : Js.JsString * (Z * Z)) =>
       ComparisonView.shown n2 row = Some (snd (snd lv))
       /\ ComparisonView.shown n1 row
          = Some (if ComparisonView.string_eqb n1 n2 then snd (snd lv)
                  else fst (snd lv))
       /\ (forall k, k <> n1 -> k <> n2 ->
             ComparisonView.get k row
             = if ComparisonView.string_eqb k (Js.lit "metric")
               then Some (ComparisonView.Str (fst lv)) else None))
    (ComparisonView.getMetricsData [Sample.scenario; Cases.scenario2]
       Cases.comparison)
    [ (Js.lit "Coverage",
       (Scenario.coverage Sample.scenario, Scenario.coverage Cases.scenario2));
      (Js.lit "Sustainability",
       (Scenario.sustainabilityScore Sample.scenario,
        Scenario.sustainabilityScore Cases.scenario2));
      (Js.lit "Accessibility",
       (Scenario.accessibilityScore Sample.scenario,
        Scenario.accessibilityScore Cases.scenario2));
      (Js.lit "Green Zones",
       (Z.of_nat (List.length (Scenario.greenZones Sample.scenario)) * 10,
        Z.of_nat (List.length (Scenario.greenZones Cases.scenario2)) * 10)) ].
Proof.
  exact (same_name_hides_first_scenario
           [Sample.scenario; Cases.scenario2] Cases.comparison
           Sample.scenario Cases.scenario2 eq_refl eq_refl).
Defined.

(** The two sample scenarios carry one name: under it the chart shows 40,
    90, 80 and 0, the values of the second; the 25, 71 and 79 of the first
    are nowhere. *)
Example sample_chart_shows_second_only :
  List.map (ComparisonView.shown (Scenario.name Sample.scenario))
    (ComparisonView.getMetricsData [Sample.scenario; Cases.scenario2]
       Cases.comparison)
  = [Some 40; Some 90; Some 80; Some 0].
Proof. vm_compute. reflexivity. Qed.

(** X18. In the comparison by zone type, the four counts of a scenario,
    for park, garden, forest and wetland, add up to the number of its
    zones: every zone is counted once. *)
Theorem zone_type_counts_add_up (s : Scenario.t) :
  ComparisonView.zonesOfType park s + ComparisonView.zonesOfType garden s
  + ComparisonView.zonesOfType forest s + ComparisonView.zonesOfType wetland s
  = Z.of_nat (List.length (Scenario.greenZones s)).
Proof.
  unfold ComparisonView.zonesOfType.
  induction (Scenario.greenZones s) as [|z zs IH]; [reflexivity|].
  cbn [filter List.length].
  destruct (GreenZone.type z); cbn [ComparisonView.zoneType_eqb List.length];
    lia.
Qed.

(** X19. With two scenarios or more whose first two ids are not empty,
    the comparison opens on the first scenario and on the second; when the
    first two scenarios share their id, both selections resolve to the
    first one, since the lookup stops at the first match. *)
Theorem comparison_opens_on_first_two
    (s1 s2 : Scenario.t) (rest : list Scenario.t)
    (Hid1 : Scenario.id s1 <> [])
    (Hid2 : Scenario.id s2 <> []) :
  let scenarios := s1 :: s2 :: rest in
  let st := ComparisonView.initial scenarios in
  ComparisonView.lookup (ComparisonView.scenario1Id st) scenarios = Some s1
  /\ ComparisonView.lookup (ComparisonView.scenario2Id st) scenarios
     = Some (if ComparisonView.string_eqb (Scenario.id s1) (Scenario.id s2)
             then s1 else s2).
Proof.
  cbv zeta. unfold ComparisonView.initial, ComparisonView.idAt,
    ComparisonView.lookup.
  cbn [nth_error ComparisonView.scenario1Id ComparisonView.scenario2Id].
  destruct (Scenario.id s1) as [|c1 i1] eqn:E1; [contradiction|].
  destruct (Scenario.id s2) as [|c2 i2] eqn:E2; [contradiction|].
  cbn [Js.truthy find]. rewrite E1, E2, !string_eqb_refl.
  split; [reflexivity|].
  destruct (ComparisonView.string_eqb (c1 :: i1) (c2 :: i2)); reflexivity.
Qed.

Lemma comparison_opens_on_first_two_sample :
  let scenarios := [Sample.scenario; Cases.scenario2] in
  let st := ComparisonView.initial scenarios in
  ComparisonView.lookup (ComparisonView.scenario1Id st) scenarios
  = Some Sample.scenario
  /\ ComparisonView.lookup (ComparisonView.scenario2Id st) scenarios
     = Some Cases.scenario2.
Proof.
  refine (comparison_opens_on_first_two Sample.scenario Cases.scenario2 []
            _ _); intros H; vm_compute in H; discriminate H.
Defined.

(* ================================================================== *)
(** * The wizard session *)
(* ================================================================== *)

Lemma finish_emits_three (m : MapInterface.State)
                         (region : list LatLngLiteral.t) :
  snd (MapInterface.handleFinishDrawing m) = Some region ->
  3 <= Session.points region.
Proof.
  unfold MapInterface.handleFinishDrawing, Session.points.
  destruct (negb (MapInterface.map m)); cbn [orb]; [discriminate|].
  destruct (_ <? 3) eqn:E; cbn; [discriminate|].
  intros H. injection H as <-. apply Z.ltb_ge in E. exact E.
Qed.

Lemma act_region (a : StepCollaborate.Action) (s : Scenario.t)
                 (e : Js.Env) (p : Js.Pos) :
  Scenario.region (fst (StepCollaborate.act a s e p)) = Scenario.region s.
Proof.
  destruct a as [c|projectId onProjectUpdate fetchRejected|]; cbn.
  - unfold StepCollaborate.handleAddComment, Js.bind.
    cbn [StepCollaborate.newComment].
    destruct (negb (Js.truthy (Js.trim c))); reflexivity.
  - unfold StepCollaborate.handleApprove.
    destruct (_ && onProjectUpdate); [destruct fetchRejected|]; reflexivity.
  - reflexivity.
Qed.

Lemma click_region (a : StepCollaborate.Action) (s : Scenario.t)
                   (e : Js.Env) (p : Js.Pos) :
  Scenario.region (fst (StepCollaborate.click a s e p)) = Scenario.region s.
Proof.
  unfold StepCollaborate.click.
  destruct (StepCollaborate.on_screen a s); [apply act_region | reflexivity].
Qed.

Lemma handleRegionSelect_region (region : list LatLngLiteral.t)
                                (e : Js.Env) (p : Js.Pos) :
  fst (fst (StepSelectArea.handleRegionSelect region e p)) = region.
Proof. reflexivity. Qed.

Lemma In_remove_nth {A} (k : nat) (l : list A) (x : A) :
  In x (Session.remove_nth k l) -> In x l.
Proof.
  revert k. induction l as [|y l IH]; intros k H; [destruct k; exact H|].
  destruct k as [|k]; cbn in H.
  - right. exact H.
  - destruct H as [H|H]; [left; exact H | right; exact (IH k H)].
Qed.

(** The scenario a run hands over carries the region it was given. *)
Lemma runAnalysis_scenario (region : list LatLngLiteral.t)
                           (st : StepRunAnalysis.State)
                           (e : Js.Env) (p : Js.Pos) :
  exists s,
    snd (fst (StepRunAnalysis.runAnalysis (Some region) st e p)) = Some s
    /\ Scenario.region s = region
    /\ Scenario.status s = draft
    /\ Scenario.comments s = [].
Proof.
  pose proof (runAnalysis_region region st e p) as H. cbv zeta in H.
  unfold StepRunAnalysis.generated, Js.run in H.
  eexists. split; [exact H | repeat split; reflexivity].
Qed.

Lemma remove_nth_length {A} (k : nat) (l : list A) (x : A) :
  nth_error l k = Some x ->
  List.length (Session.remove_nth k l) = (List.length l - 1)%nat.
Proof.
  revert k. induction l as [|y l IH]; intros k Hk; [destruct k; discriminate|].
  destruct k as [|k]; cbn; [lia|].
  cbn in Hk. rewrite (IH k Hk).
  destruct l; [destruct k; discriminate | cbn; lia].
Qed.

(** A footer button keeps the wizard's data and moves by one step at most. *)
Lemma goto_wizard (w' : NewAnalysis.State) (st : Session.State) :
  (NewAnalysis.currentStep w' = NewAnalysis.currentStep (Session.wizard st) ->
   w' = Session.wizard st) ->
  Session.wizard (Session.goto w' st) = w'
  /\ Session.pending (Session.goto w' st) = Session.pending st
  /\ Session.mapUI (Session.goto w' st)
     = (if NewAnalysis.currentStep w' =? NewAnalysis.currentStep (Session.wizard st)
        then Session.mapUI st
        else if NewAnalysis.currentStep w' =? 1 then Some MapInterface.initial
        else None).
Proof.
  intros Hsame. unfold Session.goto.
  destruct (NewAnalysis.currentStep w' =? _) eqn:E; cbn; [|auto].
  apply Z.eqb_eq in E. rewrite (Hsame E). auto.
Qed.

Lemma fresh_inv_start : Session.fresh_inv (Session.start None).
Proof.
  unfold Session.fresh_inv, Session.start. cbn.
  repeat apply conj; try lia; try tauto; try discriminate.
Qed.

Ltac split8 :=
  split; [|split; [|split; [|split; [|split; [|split; [|split]]]]]].

Lemma fire_fresh_inv (ev : Session.Event) (st : Session.State)
                     (e : Js.Env) (p : Js.Pos) :
  Session.fresh_inv st -> Session.fresh_inv (fst (Session.fire ev st e p)).
Proof.
  intros Hinv. pose proof Hinv as (A & B & C & D & E & F & G & H).
  cbv zeta in A, B, C, D, E, F, G, H.
  destruct ev as [| |mev|name| |k|a]; cbn [Session.fire].
  - (* Next *)
    cbn [Js.ret fst].
    destruct (goto_wizard (NewAnalysis.handleNext (Session.wizard st)) st)
      as (Hw & Hp & Hm).
    { unfold NewAnalysis.handleNext.
      destruct (_ && _); cbn; [lia | reflexivity]. }
    unfold Session.fresh_inv. rewrite Hw, Hp, Hm. clear Hw Hp Hm.
    unfold NewAnalysis.handleNext.
    destruct (NewAnalysis.canProceed (Session.wizard st)) eqn:Hc;
      cbn [andb]; [|rewrite Z.eqb_refl; exact Hinv].
    destruct (NewAnalysis.currentStep (Session.wizard st) <? 5) eqn:H5;
      [|rewrite Z.eqb_refl; exact Hinv].
    apply Z.ltb_lt in H5.
    apply canProceed_completion in Hc. destruct Hc as (C1 & C2 & C3 & C4).
    cbn [NewAnalysis.setCurrentStep NewAnalysis.currentStep
         NewAnalysis.selectedRegion NewAnalysis.regionName
         NewAnalysis.terrainData NewAnalysis.scenario].
    replace (NewAnalysis.currentStep (Session.wizard st) + 1
             =? NewAnalysis.currentStep (Session.wizard st)) with false
      by (symmetry; apply Z.eqb_neq; lia).
    replace (NewAnalysis.currentStep (Session.wizard st) + 1 =? 1) with false
      by (symmetry; apply Z.eqb_neq; lia).
    split8; try assumption.
    + lia.
    + split; [intros X; contradiction X; reflexivity | lia].
    + intros _.
      destruct (Z.eq_dec (NewAnalysis.currentStep (Session.wizard st)) 1)
        as [E1|E1]; [exact (C1 E1) | apply D; lia].
    + intros H4.
      destruct (Z.eq_dec (NewAnalysis.currentStep (Session.wizard st)) 3)
        as [E3|E3]; [exact (C3 E3) | apply E; lia].
  - (* Back *)
    cbn [Js.ret fst].
    destruct (goto_wizard (NewAnalysis.handleBack (Session.wizard st)) st)
      as (Hw & Hp & Hm).
    { unfold NewAnalysis.handleBack.
      destruct (1 <? _); cbn; [lia | reflexivity]. }
    unfold Session.fresh_inv. rewrite Hw, Hp, Hm. clear Hw Hp Hm.
    unfold NewAnalysis.handleBack.
    destruct (1 <? NewAnalysis.currentStep (Session.wizard st)) eqn:H1;
      [|rewrite Z.eqb_refl; exact Hinv].
    apply Z.ltb_lt in H1.
    cbn [NewAnalysis.setCurrentStep NewAnalysis.currentStep
         NewAnalysis.selectedRegion NewAnalysis.regionName
         NewAnalysis.terrainData NewAnalysis.scenario].
    replace (NewAnalysis.currentStep (Session.wizard st) - 1
             =? NewAnalysis.currentStep (Session.wizard st)) with false
      by (symmetry; apply Z.eqb_neq; lia).
    split8; try assumption.
    + lia.
    + destruct (_ - 1 =? 1) eqn:E1.
      * apply Z.eqb_eq in E1. split; [intros _; exact E1 | discriminate].
      * apply Z.eqb_neq in E1.
        split; [intros X; contradiction X; reflexivity | intros X; contradiction].
    + intros H2. apply D. lia.
    + intros H4. apply E. lia.
  - (* Map *)
    unfold Session.fireMap.
    destruct (Session.mapUI st) as [m|] eqn:Em; [|exact Hinv].
    destruct (MapInterface.enabled mev m); [|exact Hinv].
    assert (Hstep : NewAnalysis.currentStep (Session.wizard st) = 1).
    { apply B. discriminate. }
    set (emitted := match mev with
                    | MapInterface.FinishDrawing =>
                        snd (MapInterface.handleFinishDrawing m)
                    | _ => None
                    end).
    assert (Hem : forall region, emitted = Some region ->
                                 3 <= Session.points region).
    { intros region. unfold emitted.
      destruct mev; try discriminate. apply finish_emits_three. }
    destruct emitted as [region|].
    + unfold Js.bind.
      destruct (StepSelectArea.handleRegionSelect region e p) as [[r t] q] eqn:Eh.
      assert (Hr : r = region).
      { pose proof (handleRegionSelect_region region e p) as Hf.
        rewrite Eh in Hf. exact Hf. }
      subst r. cbn [Js.ret fst snd].
      unfold Session.fresh_inv.
      cbn [Session.wizard Session.mapUI Session.pending
           NewAnalysis.setTerrainData NewAnalysis.setSelectedRegion
           NewAnalysis.currentStep NewAnalysis.selectedRegion
           NewAnalysis.regionName NewAnalysis.terrainData NewAnalysis.scenario].
      split8; try assumption.
      * split; [intros _; exact Hstep | discriminate].
      * split; discriminate.
      * lia.
    + cbn [Js.ret fst]. unfold Session.fresh_inv.
      cbn [Session.wizard Session.mapUI Session.pending].
      split8; try assumption.
      split; [intros _; exact Hstep | discriminate].
  - (* RegionNameChange *)
    destruct (NewAnalysis.currentStep (Session.wizard st) =? 1) eqn:E1;
      [|exact Hinv].
    apply Z.eqb_eq in E1. cbn [Js.ret fst]. unfold Session.fresh_inv.
    cbn [Session.wizard Session.mapUI Session.pending
         NewAnalysis.setRegionName
         NewAnalysis.currentStep NewAnalysis.selectedRegion
         NewAnalysis.regionName NewAnalysis.terrainData NewAnalysis.scenario].
    split8; try assumption. lia.
  - (* RunAnalysis *)
    cbn [Js.ret fst]. unfold Session.fireRun.
    destruct (_ && _); [|exact Hinv].
    destruct (NewAnalysis.selectedRegion (Session.wizard st)) as [region|] eqn:Er;
      [|exact Hinv].
    unfold Session.fresh_inv.
    cbn [Session.wizard Session.mapUI Session.pending].
    rewrite Er.
    split8; try assumption.
    intros i r Hin. apply in_app_or in Hin as [Hin|[Hin|[]]].
    + exact (G i r Hin).
    + injection Hin as _ <-. apply F. reflexivity.
  - (* AnalysisDone *)
    unfold Session.fireDone.
    destruct (nth_error (Session.pending st) k) as [[i region]|] eqn:Ek;
      [|exact Hinv].
    assert (Hregion : 3 <= Session.points region).
    { apply (G i). eapply nth_error_In. exact Ek. }
    unfold Js.bind.
    destruct (runAnalysis_scenario region StepRunAnalysis.initial e p)
      as (s & Hs & Hsr & _).
    destruct (StepRunAnalysis.runAnalysis (Some region)
                StepRunAnalysis.initial e p) as [[st' o] q].
    cbn [fst snd] in Hs |- *. subst o. cbn [Js.ret fst].
    unfold Session.fresh_inv.
    cbn [Session.wizard Session.mapUI Session.pending
         NewAnalysis.setScenario
         NewAnalysis.currentStep NewAnalysis.selectedRegion
         NewAnalysis.regionName NewAnalysis.terrainData NewAnalysis.scenario].
    split8; try assumption.
    + intros _. discriminate.
    + intros j r Hin. apply In_remove_nth in Hin. exact (G j r Hin).
    + intros s0 Hs0. injection Hs0 as <-. rewrite Hsr. exact Hregion.
  - (* Collaborate *)
    unfold Session.fireCollaborate.
    destruct (NewAnalysis.currentStep (Session.wizard st) =? 5); [|exact Hinv].
    destruct (NewAnalysis.scenario (Session.wizard st)) as [s|] eqn:Es;
      [|exact Hinv].
    unfold Js.bind. pose proof (click_region a s e p) as Hr.
    destruct (StepCollaborate.click a s e p) as [s' q]. cbn [fst] in Hr.
    cbn [Js.ret fst]. unfold Session.fresh_inv.
    cbn [Session.wizard Session.mapUI Session.pending
         NewAnalysis.setScenario
         NewAnalysis.currentStep NewAnalysis.selectedRegion
         NewAnalysis.regionName NewAnalysis.terrainData NewAnalysis.scenario].
    split8; try assumption.
    + intros _. discriminate.
    + intros s0 Hs0. injection Hs0 as <-. rewrite Hr. apply H. reflexivity.
Qed.

Lemma fire_all_fresh_inv (evs : list Session.Event) (st : Session.State)
                         (e : Js.Env) (p : Js.Pos) :
  Session.fresh_inv st ->
  Session.fresh_inv (fst (Session.fire_all evs st e p)).
Proof.
  revert st p. induction evs as [|ev evs IH]; intros st p Hinv;
    cbn [Session.fire_all]; [exact Hinv|].
  unfold Js.bind. pose proof (fire_fresh_inv ev st e p Hinv) as H1.
  destruct (Session.fire ev st e p) as [st1 p1]. cbn [fst] in H1.
  apply IH. exact H1.
Qed.

(** X20. In a session started without a project, whatever the user
    does (the footer buttons, drawing, naming, running the analysis and
    waiting for it or not, commenting and approving), the wizard is at one of
    its five steps and holds the data of every step before the one it
    shows: from step 2 on a region and a non-empty name, from step 3 on the
    terrain record, from step 4 on a scenario; so at step 5 "Save Project"
    always has a scenario to save. *)
Theorem fresh_session_has_earlier_data
    (evs : list Session.Event) (e : Js.Env) (p : Js.Pos) :
  let w := Session.wizard (Session.after None evs e p) in
  1 <= NewAnalysis.currentStep w <= 5
  /\ (2 <= NewAnalysis.currentStep w ->
      NewAnalysis.selectedRegion w <> None /\ NewAnalysis.regionName w <> [])
  /\ (3 <= NewAnalysis.currentStep w -> NewAnalysis.terrainData w <> None)
  /\ (4 <= NewAnalysis.currentStep w -> NewAnalysis.scenario w <> None)
  /\ (NewAnalysis.currentStep w = 5 -> NewAnalysis.handleSave w <> None).
Proof.
  cbv zeta. unfold Session.after, Js.run.
  pose proof (fire_all_fresh_inv evs (Session.start None) e p fresh_inv_start)
    as (A & B & C & D & E & F & G & H).
  cbv zeta in A, B, C, D, E, F, G, H.
  set (w := Session.wizard (fst (Session.fire_all evs (Session.start None) e p)))
    in *.
  split; [exact A|]. split; [exact D|]. split; [|split; [exact E|]].
  - intros H3 Ht. apply C in Ht. apply (proj1 (D ltac:(lia))). exact Ht.
  - intros H5. unfold NewAnalysis.handleSave.
    destruct (NewAnalysis.scenario w) eqn:Es; [discriminate|].
    exfalso. apply E; [lia | reflexivity].
Qed.

Example fresh_session_reaches_collaborate :
  let w := Session.wizard
             (Session.after None Cases.to_collaborate Sample.env Sample.start) in
  NewAnalysis.currentStep w = 5
  /\ option_map (@List.length _) (NewAnalysis.selectedRegion w) = Some 3%nat
  /\ NewAnalysis.regionName w = Js.lit "Hofgarten"
  /\ option_map Scenario.id (NewAnalysis.scenario w)
     = Some (Js.lit "scenario-1700000000000").
Proof. vm_compute. repeat split; reflexivity. Qed.

(** X21. In a session started without a project, every region the
    wizard holds, and the region of every scenario it holds, has three
    points or more: only the drawing tool sets the region, and it emits
    none with fewer. *)
Theorem session_regions_have_three_points
    (evs : list Session.Event) (e : Js.Env) (p : Js.Pos) :
  let w := Session.wizard (Session.after None evs e p) in
  (forall r, NewAnalysis.selectedRegion w = Some r ->
             3 <= Z.of_nat (List.length r))
  /\ (forall s, NewAnalysis.scenario w = Some s ->
                3 <= Z.of_nat (List.length (Scenario.region s))).
Proof.
  cbv zeta. unfold Session.after, Js.run.
  pose proof (fire_all_fresh_inv evs (Session.start None) e p fresh_inv_start)
    as (_ & _ & _ & _ & _ & F & _ & H).
  split; [exact F | exact H].
Qed.

(** X22. In a session started without a project, going back never
    loses progress: at any step after the first, "Previous" followed by
    "Next" brings the wizard back to the very state it was in. *)
Theorem back_then_next_returns
    (evs : list Session.Event) (e : Js.Env) (p : Js.Pos) :
  let w := Session.wizard (Session.after None evs e p) in
  1 < NewAnalysis.currentStep w ->
  NewAnalysis.handleNext (NewAnalysis.handleBack w) = w.
Proof.
  cbv zeta. unfold Session.after, Js.run.
  pose proof (fire_all_fresh_inv evs (Session.start None) e p fresh_inv_start)
    as (A & B & C & D & E & F & G & H).
  cbv zeta in A, B, C, D, E, F, G, H.
  set (w := Session.wizard (fst (Session.fire_all evs (Session.start None) e p)))
    in *.
  intros H1. unfold NewAnalysis.handleBack.
  apply Z.ltb_lt in H1 as H1b. rewrite H1b.
  destruct (D ltac:(lia)) as [Hr Hn].
  assert (Ht : NewAnalysis.terrainData w <> None)
    by (intros X; apply C in X; contradiction).
  assert (Hc : NewAnalysis.canProceed
                 (NewAnalysis.setCurrentStep (NewAnalysis.currentStep w - 1) w)
               = true).
  { apply completion_canProceed. unfold Spec.completion.
    cbn [NewAnalysis.setCurrentStep NewAnalysis.currentStep
         NewAnalysis.selectedRegion NewAnalysis.regionName
         NewAnalysis.terrainData NewAnalysis.scenario].
    split; [|split; [|split]].
    - intros _. split; assumption.
    - intros _. exact Ht.
    - intros X. apply E. lia.
    - intros X. apply E. lia. }
  unfold NewAnalysis.handleNext. rewrite Hc. cbn [andb NewAnalysis.currentStep
    NewAnalysis.setCurrentStep].
  replace (NewAnalysis.currentStep w - 1 <? 5) with true
    by (symmetry; apply Z.ltb_lt; lia).
  unfold NewAnalysis.setCurrentStep.
  cbn [NewAnalysis.currentStep NewAnalysis.selectedRegion
       NewAnalysis.regionName NewAnalysis.terrainData NewAnalysis.scenario].
  replace (NewAnalysis.currentStep w - 1 + 1) with (NewAnalysis.currentStep w)
    by lia.
  clearbody w. destruct w; reflexivity.
Qed.

(** The step and the scenario of any session. *)
Lemma fire_keeps_scenario (ev : Session.Event) (st : Session.State)
                          (e : Js.Env) (p : Js.Pos) :
  1 <= NewAnalysis.currentStep (Session.wizard st) <= 5 ->
  NewAnalysis.scenario (Session.wizard st) <> None ->
  let st' := fst (Session.fire ev st e p) in
  1 <= NewAnalysis.currentStep (Session.wizard st') <= 5
  /\ NewAnalysis.scenario (Session.wizard st') <> None.
Proof.
  intros A S. cbv zeta.
  destruct ev as [| |mev|name| |k|a]; cbn [Session.fire].
  - cbn [Js.ret fst].
    destruct (goto_wizard (NewAnalysis.handleNext (Session.wizard st)) st)
      as (Hw & _).
    { unfold NewAnalysis.handleNext.
      destruct (_ && _); cbn; [lia | reflexivity]. }
    rewrite Hw. unfold NewAnalysis.handleNext.
    destruct (NewAnalysis.canProceed _); cbn [andb]; [|auto].
    destruct (_ <? 5) eqn:H5; [|auto]. apply Z.ltb_lt in H5.
    cbn. split; [lia | exact S].
  - cbn [Js.ret fst].
    destruct (goto_wizard (NewAnalysis.handleBack (Session.wizard st)) st)
      as (Hw & _).
    { unfold NewAnalysis.handleBack.
      destruct (1 <? _); cbn; [lia | reflexivity]. }
    rewrite Hw. unfold NewAnalysis.handleBack.
    destruct (1 <? _) eqn:H1; [|auto]. apply Z.ltb_lt in H1.
    cbn. split; [lia | exact S].
  - unfold Session.fireMap.
    destruct (Session.mapUI st) as [m|]; [|auto].
    destruct (MapInterface.enabled mev m); [|auto].
    destruct (match mev with
              | MapInterface.FinishDrawing => _
              | _ => None
              end) as [region|]; [|cbn; auto].
    unfold Js.bind.
    destruct (StepSelectArea.handleRegionSelect region e p) as [[r t] q].
    cbn. auto.
  - destruct (_ =? 1); cbn; auto.
  - cbn [Js.ret fst]. unfold Session.fireRun.
    destruct (_ && _); [|auto].
    destruct (NewAnalysis.selectedRegion _); cbn; auto.
  - unfold Session.fireDone.
    destruct (nth_error _ k) as [[i region]|]; [|auto].
    unfold Js.bind.
    destruct (StepRunAnalysis.runAnalysis _ _ e p) as [[st' [s|]] q];
      cbn; [|auto]. split; [exact A | discriminate].
  - unfold Session.fireCollaborate.
    destruct (_ =? 5); [|auto].
    destruct (NewAnalysis.scenario (Session.wizard st)) as [s|]; [|auto].
    unfold Js.bind. destruct (StepCollaborate.click a s e p) as [s' q].
    cbn. split; [exact A | discriminate].
Qed.

(** X23. In a session opened on a persisted project, whatever the user
    does, the wizard is at one of its five steps and always holds a
    scenario: nothing removes or empties it, so "Save Project" is never
    without a scenario and the last two steps can always be shown. *)
Theorem loaded_session_keeps_scenario
    (project : Project.t) (evs : list Session.Event)
    (e : Js.Env) (p : Js.Pos) :
  let w := Session.wizard (Session.after (Some project) evs e p) in
  1 <= NewAnalysis.currentStep w <= 5
  /\ NewAnalysis.scenario w <> None
  /\ NewAnalysis.handleSave w <> None.
Proof.
  cbv zeta. unfold Session.after, Js.run.
  assert (Hgen : forall st q,
             1 <= NewAnalysis.currentStep (Session.wizard st) <= 5 ->
             NewAnalysis.scenario (Session.wizard st) <> None ->
             1 <= NewAnalysis.currentStep
                    (Session.wizard (fst (Session.fire_all evs st e q))) <= 5
             /\ NewAnalysis.scenario
                  (Session.wizard (fst (Session.fire_all evs st e q))) <> None).
  { induction evs as [|ev evs IH]; intros st q A S; cbn [Session.fire_all];
      [auto|].
    unfold Js.bind. pose proof (fire_keeps_scenario ev st e q A S) as H1.
    cbv zeta in H1. destruct (Session.fire ev st e q) as [st1 q1].
    cbn [fst] in H1. destruct H1 as [A1 S1]. apply IH; assumption. }
  destruct (Hgen (Session.start (Some project)) p) as [A S].
  - cbn. lia.
  - cbn. discriminate.
  - split; [exact A|]. split; [exact S|].
    unfold NewAnalysis.handleSave.
    destruct (NewAnalysis.scenario _); [discriminate | contradiction].
Qed.

(** X24. A run of the analysis that is under way delivers wherever the
    wizard is by then: its scenario becomes the wizard's scenario, replacing
    the one held, and it is a draft that carries the region captured when
    the run was started; the step and the region currently selected are
    left as they are, so the two regions can differ. *)
Theorem late_run_delivers_captured_region
    (st : Session.State) (k i : nat) (region : list LatLngLiteral.t)
    (e : Js.Env) (p : Js.Pos)
    (Hk : nth_error (Session.pending st) k = Some (i, region)) :
  let st' := fst (Session.fire (Session.AnalysisDone k) st e p) in
  (exists s,
     NewAnalysis.scenario (Session.wizard st') = Some s
     /\ Scenario.region s = region
     /\ Scenario.status s = draft
     /\ Scenario.comments s = [])
  /\ NewAnalysis.currentStep (Session.wizard st')
     = NewAnalysis.currentStep (Session.wizard st)
  /\ NewAnalysis.selectedRegion (Session.wizard st')
     = NewAnalysis.selectedRegion (Session.wizard st)
  /\ List.length (Session.pending st')
     = (List.length (Session.pending st) - 1)%nat.
Proof.
  cbv zeta. cbn [Session.fire]. unfold Session.fireDone. rewrite Hk.
  unfold Js.bind.
  destruct (runAnalysis_scenario region StepRunAnalysis.initial e p)
    as (s & Hs & Hsr & Hst & Hco).
  destruct (StepRunAnalysis.runAnalysis (Some region)
              StepRunAnalysis.initial e p) as [[st1 o] q].
  cbn [fst snd] in Hs |- *. subst o.
  cbn [Js.ret fst Session.wizard Session.pending
       NewAnalysis.setScenario NewAnalysis.scenario NewAnalysis.currentStep
       NewAnalysis.selectedRegion].
  split; [exists s; auto|].
  split; [reflexivity|]. split; [reflexivity|].
  exact (remove_nth_length k _ _ Hk).
Qed.

Lemma late_run_delivers_captured_region_sample :
  let st := Session.after None Cases.to_running Sample.env Sample.start in
  let st' := fst (Session.fire (Session.AnalysisDone 0) st Sample.env
                    Sample.start) in
  (exists s,
     NewAnalysis.scenario (Session.wizard st') = Some s
     /\ Scenario.region s = [Sample.p1; Sample.p2; Sample.p3]
     /\ Scenario.status s = draft
     /\ Scenario.comments s = [])
  /\ NewAnalysis.currentStep (Session.wizard st')
     = NewAnalysis.currentStep (Session.wizard st)
  /\ NewAnalysis.selectedRegion (Session.wizard st')
     = NewAnalysis.selectedRegion (Session.wizard st)
  /\ List.length (Session.pending st')
     = (List.length (Session.pending st) - 1)%nat.
Proof.
  refine (late_run_delivers_captured_region
            (Session.after None Cases.to_running Sample.env Sample.start)
            0 1 [Sample.p1; Sample.p2; Sample.p3] Sample.env Sample.start _).
  vm_compute. reflexivity.
Defined.

(** A region drawn while a run is under way does not reach the run: the
    scenario delivered carries the region of the start. *)
Example redrawn_region_differs_from_scenario :
  let w := Session.wizard
             (Session.after None Cases.redraw_during_run Sample.env
                Sample.start) in
  NewAnalysis.currentStep w = 1
  /\ NewAnalysis.selectedRegion w = Some [Sample.p2; Sample.p3; Sample.p4]
  /\ option_map Scenario.region (NewAnalysis.scenario w)
     = Some [Sample.p1; Sample.p2; Sample.p3].
Proof. vm_compute. repeat split; reflexivity. Qed.

Lemma back_then_next_returns_sample :
  let w := Session.wizard
             (Session.after None Cases.to_collaborate Sample.env Sample.start) in
  NewAnalysis.handleNext (NewAnalysis.handleBack w) = w.
Proof.
  refine (back_then_next_returns Cases.to_collaborate Sample.env Sample.start
            _).
  vm_compute. reflexivity.
Defined.

(* ================================================================== *)
(** * The status of the session's scenario *)
(* ================================================================== *)

Lemma goto_scenario (w' : NewAnalysis.State) (st : Session.State) :
  NewAnalysis.scenario w' = NewAnalysis.scenario (Session.wizard st) ->
  NewAnalysis.scenario (Session.wizard (Session.goto w' st))
  = NewAnalysis.scenario (Session.wizard st).
Proof.
  intros H. unfold Session.goto.
  destruct (_ =? _); [reflexivity | exact H].
Qed.

(** C7, as the specification words it, fails: in the sample session the
    scenario is approved at the last step, the user goes back to step 3 and
    runs the analysis again, and the wizard's scenario is a draft once
    more. *)
Lemma rerun_returns_to_draft : ~ Spec.status_never_returns_to_draft.
Proof.
  intros H.
  specialize (H None Cases.to_approved Cases.rerun Sample.env Sample.start).
  assert (E1 : option_map Scenario.status
                 (NewAnalysis.scenario
                    (Session.wizard
                       (Session.after None Cases.to_approved Sample.env
                          Sample.start))) = Some completed)
    by (vm_compute; reflexivity).
  assert (E2 : option_map Scenario.status
                 (NewAnalysis.scenario
                    (Session.wizard
                       (Session.after None (Cases.to_approved ++ Cases.rerun)
                          Sample.env Sample.start))) = Some draft)
    by (vm_compute; reflexivity).
  destruct (NewAnalysis.scenario
              (Session.wizard
                 (Session.after None Cases.to_approved Sample.env
                    Sample.start))) as [s|]; [|discriminate E1].
  destruct (NewAnalysis.scenario
              (Session.wizard
                 (Session.after None (Cases.to_approved ++ Cases.rerun)
                    Sample.env Sample.start))) as [s'|]; [|discriminate E2].
  specialize (H s s' eq_refl eq_refl).
  cbn [option_map] in E1, E2. injection E1 as E1. injection E2 as E2.
  rewrite E1, E2 in H. discriminate H.
Qed.

(** C7, amended.  The handlers of the collaboration step never take a
    status back to draft: adding a comment keeps the status, approving sets
    it to completed and sharing sets it to shared, so that no sequence of
    them leads from completed or shared to draft.  In a wizard session an
    event changes the status of the wizard's scenario in two ways only: a
    click on "Approve & Complete", enabled unless the status is completed,
    makes a draft or a shared scenario completed; and the end of a run of
    the analysis replaces the scenario by a newly generated one, a draft
    without comments, whatever the status of the one it replaces. *)
Theorem status_returns_to_draft_only_by_rerun
    (st : Session.State) (ev : Session.Event) (e : Js.Env) (p : Js.Pos) :
  (forall (acts : list StepCollaborate.Action) (s : Scenario.t),
     Spec.regressed (Scenario.status s)
       (Scenario.status (Js.run (StepCollaborate.act_all acts s) e p))
     = false)
  /\ (forall (a : StepCollaborate.Action) (s : Scenario.t),
        let s' := Js.run (StepCollaborate.act a s) e p in
        match a with
        | StepCollaborate.AddComment _ =>
            Scenario.status s' = Scenario.status s
        | StepCollaborate.Approve _ _ _ => Scenario.status s' = completed
        | StepCollaborate.Share => Scenario.status s' = shared
        end)
  /\ (forall s s' : Scenario.t,
        NewAnalysis.scenario (Session.wizard st) = Some s ->
        NewAnalysis.scenario
          (Session.wizard (Js.run (Session.fire ev st) e p)) = Some s' ->
        Scenario.status s' = Scenario.status s
        \/ (exists projectId onProjectUpdate fetchRejected,
              ev = Session.Collaborate
                     (StepCollaborate.Approve projectId onProjectUpdate
                        fetchRejected)
              /\ Scenario.status s <> completed
              /\ s' = Scenario.with_status s completed)
        \/ (exists k,
              ev = Session.AnalysisDone k
              /\ Scenario.status s' = draft
              /\ Scenario.comments s' = [])).
Proof.
  split; [|split].
  - intros acts s. unfold Js.run. apply act_all_never_regresses.
  - intros a s. cbv zeta. unfold Js.run.
    pose proof (act_status_exact a s e p) as Ha. cbv zeta in Ha.
    destruct a as [c|projectId onProjectUpdate fetchRejected|].
    + destruct Ha as [->|(c' & ->)]; reflexivity.
    + rewrite Ha. reflexivity.
    + rewrite Ha. reflexivity.
  - intros s s' Hs Hs'. unfold Js.run in Hs'.
    destruct ev as [| |mev|name| |k|a]; cbn [Session.fire] in Hs'.
    + (* Next *)
      left. cbn [Js.ret fst] in Hs'. rewrite goto_scenario in Hs'.
      * congruence.
      * unfold NewAnalysis.handleNext. destruct (_ && _); reflexivity.
    + (* Back *)
      left. cbn [Js.ret fst] in Hs'. rewrite goto_scenario in Hs'.
      * congruence.
      * unfold NewAnalysis.handleBack. destruct (1 <? _); reflexivity.
    + (* the drawing tool *)
      left. unfold Session.fireMap in Hs'.
      destruct (Session.mapUI st) as [m|]; [|cbn in Hs'; congruence].
      destruct (MapInterface.enabled mev m); [|cbn in Hs'; congruence].
      destruct (match mev with
                | MapInterface.FinishDrawing => _
                | _ => None
                end) as [region|]; [|cbn in Hs'; congruence].
      unfold Js.bind in Hs'.
      destruct (StepSelectArea.handleRegionSelect region e p) as [[r t] q].
      cbn in Hs'. congruence.
    + (* the name of the region *)
      left. destruct (_ =? 1); cbn in Hs'; congruence.
    + (* the button of step 3 *)
      left. cbn [Js.ret fst] in Hs'. unfold Session.fireRun in Hs'.
      destruct (_ && _); [|congruence].
      destruct (NewAnalysis.selectedRegion _); cbn in Hs'; congruence.
    + (* the end of a run *)
      unfold Session.fireDone in Hs'.
      destruct (nth_error _ k) as [[i region]|];
        [|left; cbn in Hs'; congruence].
      unfold Js.bind in Hs'.
      destruct (runAnalysis_scenario region StepRunAnalysis.initial e p)
        as (s0 & Hs0 & _ & Hst & Hco).
      destruct (StepRunAnalysis.runAnalysis (Some region)
                  StepRunAnalysis.initial e p) as [[st1 o] q].
      cbn [fst snd] in Hs0, Hs'. subst o.
      cbn in Hs'. injection Hs' as <-.
      right. right. exists k. auto.
    + (* an element of the collaboration step *)
      unfold Session.fireCollaborate in Hs'.
      destruct (_ =? 5); [|left; cbn in Hs'; congruence].
      rewrite Hs in Hs'. unfold Js.bind in Hs'.
      unfold StepCollaborate.click in Hs'.
      destruct (StepCollaborate.on_screen a s) eqn:Hon.
      * pose proof (act_status_exact a s e p) as Ha. cbv zeta in Ha.
        destruct (StepCollaborate.act a s e p) as [s1 q]. cbn [fst] in Ha.
        cbn in Hs'. injection Hs' as <-.
        destruct a as [c|projectId onProjectUpdate fetchRejected|].
        -- left. destruct Ha as [->|(c' & ->)]; reflexivity.
        -- right. left. exists projectId, onProjectUpdate, fetchRejected.
           split; [reflexivity|]. split; [|exact Ha].
           cbn in Hon. intros Hc. rewrite Hc in Hon. discriminate Hon.
        -- discriminate Hon.
      * left. cbn in Hs'. congruence.
Qed.

(** The sample session around the second run: completed after the
    approval, draft again after the run, under a new id. *)
Example approved_then_rerun :
  let status_of evs :=
    option_map Scenario.status
      (NewAnalysis.scenario
         (Session.wizard (Session.after None evs Sample.env Sample.start))) in
  status_of Cases.to_collaborate = Some draft
  /\ status_of Cases.to_approved = Some completed
  /\ status_of (Cases.to_approved ++ Cases.rerun) = Some draft.
Proof. vm_compute. repeat split; reflexivity. Qed.

(** A project that was shared becomes completed on approval: the button is
    enabled on it. *)
Example shared_project_can_be_completed :
  let shared_project :=
    Project.mk (Js.lit "7") (Js.lit "AI Generated Scenario 11/1/2026")
               (Js.lit "Bayreuth Hofgarten") shared 1700000005000
               (Scenario.with_status Sample.scenario shared) in
  option_map Scenario.status
    (NewAnalysis.scenario
       (Session.wizard
          (Session.after (Some shared_project)
             [Session.Collaborate
                (StepCollaborate.Approve (Some (Js.lit "7")) true false)]
             Sample.env Sample.start)))
  = Some completed.
Proof. vm_compute. reflexivity. Qed.
